(** * FlowCal: the scheduling engine of [VibeCalendarScheduler]

    A shallow embedding of the algorithmic core of the calendar component
    (conflict detection, availability search, recurrence expansion, the
    add / edit / delete handlers and the reminder tick), together with the
    properties its specification states about it.

    Conventions.
    - A JavaScript [undefined] / empty-string field is [None]; a present
      one is [Some].  A [dayjs] object is either valid or "Invalid Date";
      the latter is [None] and every comparison with it is [false].  An
      empty time of day reads as midnight, as [dayjs] parses it.
    - The date string [YYYY-MM-DD] is the record [CivilDate]; the time
      string [HH:mm] is the number of minutes since midnight.
    - Instants are milliseconds since the epoch, as [valueOf()] returns. *)

From Stdlib Require Import ZArith List Bool String Sorted Lia.
From Equations Require Import Equations.
Import ListNotations.
Local Open Scope Z_scope.

(** ** The proleptic Gregorian calendar, as the [Date] object computes it *)

Module Calendar.

Record CivilDate := mkDate { year : Z; month : Z; day : Z }.

(** Day number (days since 1970-01-01) of a civil date. *)
Definition days_from_civil (c : CivilDate) : Z :=
  let y := if month c <=? 2 then year c - 1 else year c in
  let era := y / 400 in
  let yoe := y - era * 400 in
  let mp := (month c + 9) mod 12 in
  let doy := (153 * mp + 2) / 5 + day c - 1 in
  let doe := yoe * 365 + yoe / 4 - yoe / 100 + doy in
  era * 146097 + doe - 719468.

(** The civil date of one day of a 400-year era ([0 <= doe < 146097]),
    as (year of era, month, day); years start in March. *)
Definition civil_of_doe (doe : Z) : Z * Z * Z :=
  let yoe := (doe - doe / 1460 + doe / 36524 - doe / 146096) / 365 in
  let doy := doe - (365 * yoe + yoe / 4 - yoe / 100) in
  let mp := (5 * doy + 2) / 153 in
  let d := doy - (153 * mp + 2) / 5 + 1 in
  let m := if mp <? 10 then mp + 3 else mp - 9 in
  (yoe, m, d).

(** Civil date of a day number. *)
Definition civil_from_days (n : Z) : CivilDate :=
  let z := n + 719468 in
  let era := z / 146097 in
  let doe := z - era * 146097 in
  let '(yoe, m, d) := civil_of_doe doe in
  let y := yoe + era * 400 in
  mkDate (if m <=? 2 then y + 1 else y) m d.

Definition is_leap (y : Z) : bool :=
  ((y mod 4 =? 0) && negb (y mod 100 =? 0)) || (y mod 400 =? 0).

Definition days_in_month (y m : Z) : Z :=
  if m =? 2 then (if is_leap y then 29 else 28)
  else if (m =? 4) || (m =? 6) || (m =? 9) || (m =? 11) then 30
  else 31.

(** Day of the week, 0 = Sunday; 1970-01-01 was a Thursday. *)
Definition weekday (c : CivilDate) : Z := (days_from_civil c + 4) mod 7.

(** [setDate(getDate() + n)]: the day field overflows into the following
    months. *)
Definition add_days (c : CivilDate) (n : Z) : CivilDate :=
  civil_from_days (days_from_civil c + n).

(** [set('month', $M + n)]: go to the first of the target month, then
    back to the original day, clamped to the length of that month. *)
Definition add_months (c : CivilDate) (n : Z) : CivilDate :=
  let m0 := month c - 1 + n in
  let y' := year c + m0 / 12 in
  let m' := m0 mod 12 + 1 in
  mkDate y' m' (Z.min (day c) (days_in_month y' m')).

(** The round trip on the days of one era, as a check that can be run
    for each day. *)
Definition doe_roundtrip (doe : Z) : bool :=
  let '(yoe, m, d) := civil_of_doe doe in
  let mp := (m + 9) mod 12 in
  let doy := (153 * mp + 2) / 5 + d - 1 in
  (0 <=? yoe) && (yoe <? 400) &&
  (yoe * 365 + yoe / 4 - yoe / 100 + doy =? doe).

(** [check] on [count] consecutive integers from [z] on. *)
Fixpoint all_from (check : Z -> bool) (count : nat) (z : Z) : bool :=
  match count with
  | O => true
  | S k => check z && all_from check k (z + 1)
  end.

End Calendar.

(** ** The part of [dayjs] (with its [utc] and [timezone] plugins) in use *)

(** The time-zone database: [zoneOffset zone wall] is the offset from UTC,
    in minutes, that [zone] observes at local wall-clock time [wall]
    (milliseconds since the epoch, read as if UTC). *)
Class ZoneRules := zoneOffset : string -> Z -> Z.

Module Dayjs.
Import Calendar.

(** A valid zoned instant: the wall-clock reading its getters show and
    the fixed [$offset] it carries. *)
Record t := mk { wall : Z; offset : Z }.

Definition valueOf (d : t) : Z := wall d - offset d * 60000.

(** [dayjs()]: the current instant.  Only its [valueOf()] is ever used,
    so it is read in UTC. *)
Definition of_ms (ms : Z) : option t := Some (mk ms 0).

(** [dayjs.tz(`${date}T${time}`, zone)]: the wall clock reads the given
    date and time, under the offset the zone has then.  The pattern that
    [dayjs] parses with makes every field after the year optional, so
    with an empty time the string [`${date}T`] reads as midnight of that
    date.  A date that does not parse gives [None], the invalid date of
    the model, on which every comparison is [false]; the plugin itself
    may raise on such a string, which is not modelled.  (Wall-clock
    times that a zone skips at a transition are not told apart.) *)
Definition tz `{ZoneRules} (date : option CivilDate) (time : option Z)
  (zone : string) : option t :=
  match date with
  | Some c =>
      let m := match time with Some m => m | None => 0 end in
      let w := (days_from_civil c * 1440 + m) * 60000 in
      Some (mk w (zoneOffset zone w))
  | None => None
  end.

(** [.add(n, 'minute')]: on the time stamp; [n] may be [NaN]. *)
Definition add_minute (d : option t) (n : option Z) : option t :=
  match d, n with
  | Some d, Some n => Some (mk (wall d + n * 60000) (offset d))
  | _, _ => None
  end.

Definition subtract_minute (d : option t) (n : option Z) : option t :=
  match d, n with
  | Some d, Some n => Some (mk (wall d - n * 60000) (offset d))
  | _, _ => None
  end.

Definition date_of (d : t) : CivilDate := civil_from_days (wall d / 86400000).

Definition with_date (d : t) (c : CivilDate) : t :=
  mk (days_from_civil c * 86400000 + wall d mod 86400000) (offset d).

(** [.add(n, 'day')], [.add(n, 'week')], [.add(n, 'month')]: on the
    calendar fields. *)
Definition add_day (d : option t) (n : Z) : option t :=
  option_map (fun d => with_date d (add_days (date_of d) n)) d.

Definition add_week (d : option t) (n : Z) : option t :=
  option_map (fun d => with_date d (add_days (date_of d) (7 * n))) d.

Definition add_month (d : option t) (n : Z) : option t :=
  option_map (fun d => with_date d (add_months (date_of d) n)) d.

(** [.hour(h)] and [.minute(m)] set one wall-clock field. *)
Definition hour (h : Z) (d : option t) : option t :=
  option_map
    (fun d => mk (wall d + (h - (wall d / 3600000) mod 24) * 3600000) (offset d)) d.

Definition minute (m : Z) (d : option t) : option t :=
  option_map
    (fun d => mk (wall d + (m - (wall d / 60000) mod 60) * 60000) (offset d)) d.

(** Comparisons are on [valueOf()]; with an invalid operand they are
    all [false]. *)
Definition isBefore (a b : option t) : bool :=
  match a, b with
  | Some x, Some y => valueOf x <? valueOf y
  | _, _ => false
  end.

Definition isAfter (a b : option t) : bool :=
  match a, b with
  | Some x, Some y => valueOf y <? valueOf x
  | _, _ => false
  end.

Definition isSame (a b : option t) : bool :=
  match a, b with
  | Some x, Some y => valueOf x =? valueOf y
  | _, _ => false
  end.

(** [.format('HH:mm')], as minutes since midnight. *)
Definition format_HHmm (d : option t) : option Z :=
  option_map (fun d => (wall d / 60000) mod 1440) d.

(** [.format('YYYY-MM-DD')]. *)
Definition format_date (d : option t) : option CivilDate :=
  option_map date_of d.

(** [.format()], i.e. [YYYY-MM-DDTHH:mm:ssZ]: the wall-clock reading to
    the second, and the offset. *)
Definition format (d : option t) : option (Z * Z) :=
  option_map (fun d => (wall d / 1000, offset d)) d.

End Dayjs.

(** ** Events, conflicts, reminders *)

Module Event.
Import Calendar.

(** An event object.  [id] is [None] on an object without one (the draft
    of the form before its first edit, the candidate of the availability
    search); [date] and [time] are [None] when the input is empty;
    [buffer] is [None] on an event given without one; a missing
    [reminder] reads as [0], which the code treats alike; [status] is
    set by the add branch. *)
Record t := mk {
  id : option Z;
  title : string;
  date : option CivilDate;
  time : option Z;
  duration : Z;
  timezone : string;
  type : string;
  attendees : list string;
  location : string;
  buffer : option Z;
  description : string;
  repeat : string;
  reminder : Z;
  status : option string
}.

(** [{ ...e, id: v }] and the other object spreads in use. *)
Definition with_id (e : t) (v : option Z) : t :=
  mk v (title e) (date e) (time e) (duration e) (timezone e) (type e)
     (attendees e) (location e) (buffer e) (description e) (repeat e)
     (reminder e) (status e).

Definition with_date (e : t) (v : option CivilDate) : t :=
  mk (id e) (title e) v (time e) (duration e) (timezone e) (type e)
     (attendees e) (location e) (buffer e) (description e) (repeat e)
     (reminder e) (status e).

Definition with_status (e : t) (v : option string) : t :=
  mk (id e) (title e) (date e) (time e) (duration e) (timezone e) (type e)
     (attendees e) (location e) (buffer e) (description e) (repeat e)
     (reminder e) v.

Definition with_title (e : t) (v : string) : t :=
  mk (id e) v (date e) (time e) (duration e) (timezone e) (type e)
     (attendees e) (location e) (buffer e) (description e) (repeat e)
     (reminder e) (status e).

Definition with_attendees (e : t) (v : list string) : t :=
  mk (id e) (title e) (date e) (time e) (duration e) (timezone e) (type e)
     v (location e) (buffer e) (description e) (repeat e)
     (reminder e) (status e).

End Event.

Record Conflict := mkConflict { conflictWith : string }.

Module Reminder.

(** One entry of [reminders]; the display text is a function of the
    event snapshot and is left out. *)
Record t := mk {
  id : option Z;
  message : option (Z * Z);
  event : Event.t
}.

End Reminder.

(** ** JavaScript operators on the fields *)

(** [a === b] on ids ([undefined] is [None]). *)
Definition id_eqb (a b : option Z) : bool :=
  match a, b with
  | Some x, Some y => x =? y
  | None, None => true
  | _, _ => false
  end.

(** [a === b] on the strings [format()] returns. *)
Definition message_eqb (a b : option (Z * Z)) : bool :=
  match a, b with
  | Some (s1, o1), Some (s2, o2) => (s1 =? s2) && (o1 =? o2)
  | None, None => true
  | _, _ => false
  end.

(** [b || d] on a number that may be absent: [undefined] and [0] are
    both falsy. *)
Definition or_default (b : option Z) (d : Z) : Z :=
  match b with
  | Some v => if v =? 0 then d else v
  | None => d
  end.

(** [a + b] where [b] may be [undefined]: the sum is then [NaN]. *)
Definition num_add (a : Z) (b : option Z) : option Z :=
  option_map (fun v => a + v) b.

(** The value of [editEventId]: [null], or the [id] of the event
    handed to [handleEdit]. *)
Inductive EditId := Null | Editing (v : option Z).

(** [e.id === editEventId]. *)
Definition edit_eqb (a : option Z) (e : EditId) : bool :=
  match e with
  | Null => false
  | Editing v => id_eqb a v
  end.

(** Truthiness of [editEventId]. *)
Definition edit_truthy (e : EditId) : bool :=
  match e with
  | Editing (Some v) => negb (v =? 0)
  | _ => false
  end.

(** ** The component state ([useState] cells the engine touches) *)

Record State := mkState {
  events : list Event.t;
  newEvent : Event.t;
  conflicts : list Conflict;
  availabilities : list Z;
  showForm : bool;
  attendeeInput : string;
  editEventId : EditId;
  showDeleteConfirm : bool;
  eventToDelete : option Event.t;
  reminders : list Reminder.t
}.

Definition set_events (st : State) (v : list Event.t) : State :=
  mkState v (newEvent st) (conflicts st) (availabilities st) (showForm st)
    (attendeeInput st) (editEventId st) (showDeleteConfirm st)
    (eventToDelete st) (reminders st).

Definition set_newEvent (st : State) (v : Event.t) : State :=
  mkState (events st) v (conflicts st) (availabilities st) (showForm st)
    (attendeeInput st) (editEventId st) (showDeleteConfirm st)
    (eventToDelete st) (reminders st).

Definition set_conflicts (st : State) (v : list Conflict) : State :=
  mkState (events st) (newEvent st) v (availabilities st) (showForm st)
    (attendeeInput st) (editEventId st) (showDeleteConfirm st)
    (eventToDelete st) (reminders st).

Definition set_availabilities (st : State) (v : list Z) : State :=
  mkState (events st) (newEvent st) (conflicts st) v (showForm st)
    (attendeeInput st) (editEventId st) (showDeleteConfirm st)
    (eventToDelete st) (reminders st).

Definition set_showForm (st : State) (v : bool) : State :=
  mkState (events st) (newEvent st) (conflicts st) (availabilities st) v
    (attendeeInput st) (editEventId st) (showDeleteConfirm st)
    (eventToDelete st) (reminders st).

Definition set_attendeeInput (st : State) (v : string) : State :=
  mkState (events st) (newEvent st) (conflicts st) (availabilities st)
    (showForm st) v (editEventId st) (showDeleteConfirm st)
    (eventToDelete st) (reminders st).

Definition set_editEventId (st : State) (v : EditId) : State :=
  mkState (events st) (newEvent st) (conflicts st) (availabilities st)
    (showForm st) (attendeeInput st) v (showDeleteConfirm st)
    (eventToDelete st) (reminders st).

Definition set_showDeleteConfirm (st : State) (v : bool) : State :=
  mkState (events st) (newEvent st) (conflicts st) (availabilities st)
    (showForm st) (attendeeInput st) (editEventId st) v
    (eventToDelete st) (reminders st).

Definition set_eventToDelete (st : State) (v : option Event.t) : State :=
  mkState (events st) (newEvent st) (conflicts st) (availabilities st)
    (showForm st) (attendeeInput st) (editEventId st) (showDeleteConfirm st)
    v (reminders st).

Definition set_reminders (st : State) (v : list Reminder.t) : State :=
  mkState (events st) (newEvent st) (conflicts st) (availabilities st)
    (showForm st) (attendeeInput st) (editEventId st) (showDeleteConfirm st)
    (eventToDelete st) v.

(** How a run of [handleAdd] ends: at the [return] of the required-field
    guard, at the [return] after [setConflicts(errs)], or at the end of
    its body, having handed [notified] to [onEventAdd] (add branch). *)
Inductive Outcome :=
| ReturnedMissingField
| ReturnedConflicts (errs : list Conflict)
| Completed (notified : option Event.t).

Definition is_none {A : Type} (o : option A) : bool :=
  match o with Some _ => false | None => true end.

Definition inspect {A : Type} (a : A) : {b : A | a = b} := exist _ a eq_refl.

(** ** The engine *)

Section Engine.
Context `{ZoneRules}.

(** [getWorkWindow]: 09:00 and 17:00 on [date] in the draft's zone. *)
Definition getWorkWindow (st : State) (date : Calendar.CivilDate)
  : option Dayjs.t * option Dayjs.t :=
  let zone := Event.timezone (newEvent st) in
  (Dayjs.minute 0 (Dayjs.hour 9 (Dayjs.tz (Some date) (Some 0) zone)),
   Dayjs.minute 0 (Dayjs.hour 17 (Dayjs.tz (Some date) (Some 0) zone))).

(** The window end of a candidate and of a stored event, and the test
    of [checkConflicts] on one stored event. *)
Definition candidate_start (testEvent : Event.t) : option Dayjs.t :=
  Dayjs.tz (Event.date testEvent) (Event.time testEvent) (Event.timezone testEvent).

Definition candidate_end (testEvent : Event.t) : option Dayjs.t :=
  Dayjs.add_minute (candidate_start testEvent)
    (num_add (Event.duration testEvent) (Event.buffer testEvent)).

Definition existing_start (evt : Event.t) : option Dayjs.t :=
  Dayjs.tz (Event.date evt) (Event.time evt) (Event.timezone evt).

Definition existing_end (evt : Event.t) : option Dayjs.t :=
  Dayjs.add_minute (existing_start evt)
    (Some (Event.duration evt + or_default (Event.buffer evt) 15)).

Definition checkConflicts (testEvent : Event.t) (list : list Event.t)
  : Datatypes.list Conflict :=
  let start := candidate_start testEvent in
  let end_ := candidate_end testEvent in
  fold_left
    (fun conflictsList evt =>
       if id_eqb (Event.id evt) (Event.id testEvent) then conflictsList
       else
         let eStart := existing_start evt in
         let eEnd := existing_end evt in
         if Dayjs.isBefore start eEnd && Dayjs.isAfter end_ eStart
         then conflictsList ++ [mkConflict (Event.title evt)]
         else conflictsList)
    list [].

(** The candidate [test] that [generateAvailabilities] builds: it has
    the five fields [date], [time], [duration], [buffer], [timezone] and
    nothing else (no [id], no [title]). *)
Definition slot_test (st : State) (date : Calendar.CivilDate) (time : option Z)
  : Event.t :=
  Event.mk None "" (Some date) time
    (Event.duration (newEvent st)) (Event.timezone (newEvent st)) "" [] ""
    (Event.buffer (newEvent st)) "" "" 0 None.

Definition slot_fits (st : State) (end_ cursor : Dayjs.t) : bool :=
  let probe := Dayjs.add_minute (Some cursor) (Some (Event.duration (newEvent st))) in
  Dayjs.isBefore probe (Some end_) || Dayjs.isSame probe (Some end_).

Definition step_minutes (d : Dayjs.t) (n : Z) : Dayjs.t :=
  Dayjs.mk (Dayjs.wall d + n * 60000) (Dayjs.offset d).

(** Number of 30-minute steps the cursor can still take. *)
Definition steps_left (st : State) (end_ cursor : Dayjs.t) : nat :=
  Z.to_nat ((Dayjs.valueOf end_ - Dayjs.valueOf cursor
             - Event.duration (newEvent st) * 60000) / 1800000 + 1).

(** The [while] loop of [generateAvailabilities]. *)
Equations? slot_scan (st : State) (date : Calendar.CivilDate)
  (end_ cursor : Dayjs.t) (slots : list Z) : list Z
  by wf (steps_left st end_ cursor) lt :=
slot_scan st date end_ cursor slots with inspect (slot_fits st end_ cursor) := {
  | exist _ true Hfits =>
      let test := slot_test st date (Dayjs.format_HHmm (Some cursor)) in
      let slots' :=
        if (List.length (checkConflicts test (events st)) =? 0)%nat
        then slots ++ [(Dayjs.wall cursor / 60000) mod 1440]
        else slots in
      if (6 <=? List.length slots')%nat then slots'
      else slot_scan st date end_ (step_minutes cursor 30) slots'
  | exist _ false _ => slots }.
Proof.
  unfold slot_fits, Dayjs.add_minute, Dayjs.isBefore, Dayjs.isSame in Hfits.
  unfold steps_left, step_minutes, Dayjs.valueOf in *. cbn in *.
  apply orb_prop in Hfits.
  assert (Hle : Dayjs.wall cursor + Event.duration (newEvent st) * 60000
                - Dayjs.offset cursor * 60000
                <= Dayjs.wall end_ - Dayjs.offset end_ * 60000).
  { destruct Hfits as [Hlt|Heq];
      [apply Z.ltb_lt in Hlt | apply Z.eqb_eq in Heq]; lia. }
  clear slot_scan slots'. zify. Z.div_mod_to_equations. lia.
Qed.

Definition generateAvailabilities (st : State) (date : Calendar.CivilDate)
  : list Z :=
  match getWorkWindow st date with
  | (Some start, Some end_) => slot_scan st date end_ start []
  | _ => []
  end.

(** The effect that follows every change of the draft or of the events:
    [if (newEvent.date) setAvailabilities(generateAvailabilities(newEvent.date))]. *)
Definition refreshAvailabilities (st : State) : State :=
  match Event.date (newEvent st) with
  | Some d => set_availabilities st (generateAvailabilities st d)
  | None => st
  end.

(** What one scan can append, read off the loop: at every cursor that
    still fits the window the scan moves on by 30 minutes, and it may
    take the cursor's time only when [checkConflicts] found nothing. *)
Inductive scanned (st : State) (date : Calendar.CivilDate) (end_ : Dayjs.t)
  : Dayjs.t -> list Z -> Prop :=
| scanned_stop : forall cursor, scanned st date end_ cursor []
| scanned_skip : forall cursor l,
    slot_fits st end_ cursor = true ->
    scanned st date end_ (step_minutes cursor 30) l ->
    scanned st date end_ cursor l
| scanned_take : forall cursor l,
    slot_fits st end_ cursor = true ->
    checkConflicts
      (slot_test st date (Dayjs.format_HHmm (Some cursor))) (events st) = [] ->
    scanned st date end_ (step_minutes cursor 30) l ->
    scanned st date end_ cursor ((Dayjs.wall cursor / 60000) mod 1440 :: l).

(** [handleEdit]: the availabilities are computed in the closure of the
    current render, i.e. with the draft as it was before this call; the
    effect above then recomputes them with the new draft.  (Every event
    that went through [handleAdd] has a date; for one without, the model
    shows no slot.) *)
Definition handleEdit (event : Event.t) (st : State) : State :=
  let avail :=
    match Event.date event with
    | Some d => generateAvailabilities st d
    | None => []
    end in
  set_availabilities
    (set_conflicts
       (set_newEvent
          (set_showForm (set_editEventId st (Editing (Event.id event))) true)
          event)
       [])
    avail.

Definition handleDelete (event : Event.t) (st : State) : State :=
  set_showDeleteConfirm (set_eventToDelete st (Some event)) true.

(** [confirmDelete]; reading [eventToDelete.id] off [null] throws, which
    is [None]. *)
Definition confirmDelete (st : State) : option State :=
  match eventToDelete st with
  | None => None
  | Some target =>
      let st1 :=
        set_events st
          (filter (fun e => negb (id_eqb (Event.id e) (Event.id target)))
             (events st)) in
      let st2 := set_eventToDelete (set_showDeleteConfirm st1 false) None in
      Some (if edit_eqb (Event.id target) (editEventId st)
            then set_editEventId (set_showForm st2 false) Null
            else st2)
  end.

Definition cancelDelete (st : State) : State :=
  set_eventToDelete (set_showDeleteConfirm st false) None.

(** The value [editEventId] contributes to [{ ...newEvent, id: editEventId }]. *)
Definition edit_value (e : EditId) : option Z :=
  match e with
  | Null => None
  | Editing v => v
  end.

(** One turn of the recurrence loop of [handleAdd]: the occurrence pushed
    for index [i], if any.  [stamp] is what [Date.now()] returns there. *)
Definition occurrence (toAdd : Event.t) (base : option Dayjs.t)
  (stamp : Z) (i : Z) : list Event.t :=
  let rep := Event.repeat toAdd in
  let nextDate : option (option Dayjs.t) := None in
  let nextDate :=
    if (rep =? "daily")%string then Some (Dayjs.add_day base i) else nextDate in
  let nextDate :=
    if (rep =? "weekly")%string then Some (Dayjs.add_week base i) else nextDate in
  let nextDate :=
    if (rep =? "monthly")%string then Some (Dayjs.add_month base i) else nextDate in
  match nextDate with
  | Some next =>
      [Event.with_date (Event.with_id toAdd (Some (stamp + i)))
         (Dayjs.format_date next)]
  | None => []
  end.

(** [toAdd] and the list [newEvents] that the add branch builds;
    [clock k] is the value of the [k]-th call of [Date.now()] in this
    run (the first one, [clock 0], gives the id of [toAdd]). *)
Definition toAdd_of (clock : nat -> Z) (draft : Event.t) : Event.t :=
  Event.with_status (Event.with_id draft (Some (clock 0%nat)))
    (Some "confirmed"%string).

Definition newEvents_of (clock : nat -> Z) (draft : Event.t) : list Event.t :=
  let toAdd := toAdd_of clock draft in
  if negb (Event.repeat draft =? "none")%string then
    let base :=
      Dayjs.tz (Event.date draft) (Event.time draft) (Event.timezone draft) in
    toAdd :: flat_map (fun k => occurrence toAdd base (clock k) (Z.of_nat k))
               (seq 1 5)
  else [toAdd].

(** The guard on the required fields, and [events.filter(e => e.id !==
    editEventId)], the list the draft is checked against. *)
Definition missing_required (draft : Event.t) : bool :=
  (Event.title draft =? "")%string || is_none (Event.date draft)
  || is_none (Event.time draft).

Definition others (st : State) : list Event.t :=
  filter (fun e => negb (edit_eqb (Event.id e) (editEventId st))) (events st).

Definition handleAdd (clock : nat -> Z) (st : State) : State * Outcome :=
  let draft := newEvent st in
  if missing_required draft
  then (st, ReturnedMissingField)
  else
    let errs := checkConflicts draft (others st) in
    if negb (List.length errs =? 0)%nat
    then (set_conflicts st errs, ReturnedConflicts errs)
    else
      let '(st1, notified) :=
        if edit_truthy (editEventId st)
        then
          (set_editEventId
             (set_events st
                (map (fun e =>
                        if edit_eqb (Event.id e) (editEventId st)
                        then Event.with_id draft (edit_value (editEventId st))
                        else e)
                   (events st)))
             Null,
           None)
        else
          (set_events st (events st ++ newEvents_of clock draft),
           Some (toAdd_of clock draft)) in
      let st2 := set_showForm st1 false in
      let st3 :=
        set_newEvent st2
          (Event.with_attendees (Event.with_title (newEvent st2) "") []) in
      let st4 := set_conflicts st3 [] in
      (set_attendeeInput st4 "", Completed notified).

(** The body of the reminder interval.  The duplicate check reads the
    [reminders] of the render that installed the interval; the updates
    append to the latest list. *)
Definition remindAt_of (event : Event.t) : option Dayjs.t :=
  Dayjs.subtract_minute
    (Dayjs.tz (Event.date event) (Event.time event) (Event.timezone event))
    (Some (Event.reminder event)).

Definition already_reminded (rs : list Reminder.t) (event : Event.t) : bool :=
  existsb
    (fun r => id_eqb (Reminder.id r) (Event.id event)
              && message_eqb (Reminder.message r)
                   (Dayjs.format (remindAt_of event)))
    rs.

Definition due (now : Z) (rs : list Reminder.t) (event : Event.t) : bool :=
  if Event.reminder event =? 0 then false
  else
    let eventTime :=
      Dayjs.tz (Event.date event) (Event.time event) (Event.timezone event) in
    let remindAt := remindAt_of event in
    Dayjs.isAfter (Dayjs.of_ms now) remindAt
    && Dayjs.isBefore (Dayjs.of_ms now) eventTime
    && negb (already_reminded rs event).

Definition notification (event : Event.t) : Reminder.t :=
  Reminder.mk (Event.id event) (Dayjs.format (remindAt_of event)) event.

Definition tick (now : Z) (st : State) : State :=
  set_reminders st
    (fold_left
       (fun prev event =>
          if due now (reminders st) event
          then prev ++ [notification event]
          else prev)
       (events st) (reminders st)).

Definition dismissReminder (id : option Z) (message : option (Z * Z))
  (st : State) : State :=
  set_reminders st
    (filter
       (fun r => negb (id_eqb (Reminder.id r) id
                       && message_eqb (Reminder.message r) message))
       (reminders st)).

(** ** Notions used in the statements *)

(** The test [checkConflicts] applies to one stored event. *)
Definition clashes (testEvent evt : Event.t) : bool :=
  negb (id_eqb (Event.id evt) (Event.id testEvent))
  && (Dayjs.isBefore (candidate_start testEvent) (existing_end evt)
      && Dayjs.isAfter (candidate_end testEvent) (existing_start evt)).

(** The start of an event as an instant (milliseconds since the epoch). *)
Definition start_instant (e : Event.t) : option Z :=
  option_map Dayjs.valueOf
    (Dayjs.tz (Event.date e) (Event.time e) (Event.timezone e)).

(** The instant a message stands for: [format()] renders the wall
    clock to the second together with the offset. *)
Definition message_instant (message : option (Z * Z)) : option Z :=
  option_map (fun so => fst so * 1000 - snd so * 60000) message.

(** The identity of a notification: the pair the duplicate check and
    [dismissReminder] compare. *)
Definition key (r : Reminder.t) : option Z * option (Z * Z) :=
  (Reminder.id r, Reminder.message r).

(** The events for which one tick emits, in order. *)
Definition emitted (now : Z) (st : State) : list Reminder.t :=
  map notification (filter (due now (reminders st)) (events st)).

End Engine.


(** ** Sample data for the scenarios *)

Module Sample.

(** A zone database in which every zone is UTC. *)
Definition utc : ZoneRules := fun _ _ => 0.

Definition jan1 : Calendar.CivilDate := Calendar.mkDate 2024 1 1.
Definition jan8 : Calendar.CivilDate := Calendar.mkDate 2024 1 8.

(** A stored event in zone "UTC". *)
Definition stored (i : Z) (title : string) (date : Calendar.CivilDate)
  (time duration : Z) (buffer : option Z) (reminder : Z) : Event.t :=
  Event.mk (Some i) title (Some date) (Some time) duration "UTC" "meeting"
    [] "" buffer "" "none" reminder (Some "confirmed"%string).

(** A draft as the form holds it: no id, buffer 15, on 2024-01-01. *)
Definition draft (title : string) (time duration : Z) (repeat : string)
  : Event.t :=
  Event.mk None title (Some jan1) (Some time) duration "UTC" "meeting"
    [] "" (Some 15) "" repeat 0 None.

Definition state (evts : list Event.t) (d : Event.t) (edit : EditId) : State :=
  mkState evts d [] [] true "" edit false None [].

(** [Date.now()] on a clock that advances by a millisecond per call. *)
Definition clock (k : nat) : Z := 1704067200000 + Z.of_nat k.

(** 2024-01-01T00:00Z in milliseconds. *)
Definition midnight : Z := 19723 * 86400000.

Definition E1 : Event.t := stored 1 "E1" jan1 600 60 (Some 15) 10.
Definition E2 : Event.t := stored 2 "E2" jan1 840 30 (Some 15) 0.
Definition Ezero : Event.t := stored 3 "Ezero" jan1 600 60 (Some 0) 0.
Definition Enext : Event.t := stored 4 "Enext" jan8 720 60 (Some 15) 0.

Definition Eghost : Event.t := stored 99 "Ghost" jan1 600 60 (Some 15) 0.

(** The start of E1 (10:00) and the instant of its reminder (09:50). *)
Definition E1_start : Z := midnight + 600 * 60000.
Definition E1_remindAt : Z := E1_start - 10 * 60000.

(** E1 alone in the store, no notification yet. *)
Definition st_reminder : State := state [E1] (draft "" 0 60 "none") Null.

(** E1 and E2 in the store; the form holds E2 moved to 15:00 and made
    weekly, under the id of E2. *)
Definition E2_moved : Event.t :=
  Event.mk (Some 2) "E2" (Some jan1) (Some 900) 30 "UTC" "meeting"
    [] "" (Some 15) "" "weekly" 0 (Some "confirmed"%string).
Definition st_edit : State := state [E1; E2] E2_moved (Editing (Some 2)).

(** The same form, but under an id that no stored event has. *)
Definition st_edit_ghost : State := state [E1; E2] E2_moved (Editing (Some 99)).

(** A weekly draft at 12:00 on 2024-01-01; the store has an event at
    12:00 a week later. *)
Definition st_weekly : State :=
  state [Enext] (draft "Weekly" 720 60 "weekly") Null.

(** A draft at 10:30, in the middle of E1. *)
Definition st_clash : State := state [E1] (draft "Clash" 630 60 "weekly") Null.

(** A draft without a title. *)
Definition st_untitled : State := state [E1] (draft "" 900 60 "weekly") Null.

(** A weekly event stored under the id 0, alone in the store. *)
Definition Eweekly0 : Event.t :=
  Event.mk (Some 0) "Weekly" (Some jan1) (Some 600) 60 "UTC" "meeting"
    [] "" (Some 15) "" "weekly" 0 (Some "confirmed"%string).
Definition st_weekly0 : State := state [Eweekly0] (draft "" 0 60 "none") Null.

(** An event stored without a buffer, 10:00 to 11:00, alone in the
    store. *)
Definition Eopen : Event.t :=
  Event.mk (Some 5) "Open" (Some jan1) (Some 600) 60 "UTC" "meeting"
    [] "" None "" "none" 0 (Some "confirmed"%string).
Definition st_open : State := state [Eopen] (draft "" 0 60 "none") Null.

(** A zone database with one zone off UTC: "Africa/Lagos", an hour
    ahead of it all year. *)
Definition lagos : ZoneRules :=
  fun zone _ => if (zone =? "Africa/Lagos")%string then 60 else 0.

(** E1 as the form holds it once its time and zone are changed to 11:00
    in Lagos: the same instant as 10:00 UTC. *)
Definition E1_lagos : Event.t :=
  Event.mk (Some 1) "E1" (Some jan1) (Some 660) 60 "Africa/Lagos" "meeting"
    [] "" (Some 15) "" "none" 10 (Some "confirmed"%string).

(** Five minutes before E1 starts.  A tick shows the notification of
    E1; E1 is opened in the form, changed to [E1_lagos] and saved; the
    next tick follows. *)
Definition now_due : Z := E1_start - 5 * 60000.
Definition st_shown : State := tick (H := lagos) now_due st_reminder.
Definition st_moved : State :=
  fst (handleAdd (H := lagos) clock
         (set_newEvent (handleEdit (H := lagos) E1 st_shown) E1_lagos)).
Definition st_shown_again : State := tick (H := lagos) now_due st_moved.

End Sample.

(** ** Well-formed civil dates *)

Module CivilValid.
Import Calendar.

(** A date that a date input can hold: a month of the year and a day of
    that month. *)
Definition valid_date (c : CivilDate) : Prop :=
  1 <= month c <= 12 /\ 1 <= day c <= days_in_month (year c) (month c).

(** Day of the era of the [d]-th of month [m] in the March-based year
    [yoe] of an era, as [days_from_civil] computes it. *)
Definition doe_of (yoe m d : Z) : Z :=
  let mp := (m + 9) mod 12 in
  let doy := (153 * mp + 2) / 5 + d - 1 in
  yoe * 365 + yoe / 4 - yoe / 100 + doy.

(** The round trip from a civil date of one era, as a check on the
    [idx]-th triple (year of era, month, day of 1..31). *)
Definition civil_roundtrip (idx : Z) : bool :=
  let yoe := idx / 372 in
  let m := (idx mod 372) / 31 + 1 in
  let d := idx mod 31 + 1 in
  let ly := if m <=? 2 then yoe + 1 else yoe in
  if d <=? days_in_month ly m then
    let doe := doe_of yoe m d in
    (0 <=? doe) && (doe <? 146097)
    && (let '(yoe', m', d') := civil_of_doe doe in
        (yoe' =? yoe) && (m' =? m) && (d' =? d))
  else true.

End CivilValid.

(** ** The rest of the component: form buttons, views, counters *)

(** [{ ...e, time: v }]. *)
Definition with_time (e : Event.t) (v : option Z) : Event.t :=
  Event.mk (Event.id e) (Event.title e) (Event.date e) v (Event.duration e)
    (Event.timezone e) (Event.type e) (Event.attendees e) (Event.location e)
    (Event.buffer e) (Event.description e) (Event.repeat e)
    (Event.reminder e) (Event.status e).

(** The button of an available time: [setNewEvent({ ...newEvent, time })]. *)
Definition pickTime (time : Z) (st : State) : State :=
  set_newEvent st (with_time (newEvent st) (Some time)).

(** The X of the form: [setShowForm(false); setEditEventId(null)]. *)
Definition closeForm (st : State) : State :=
  set_editEventId (set_showForm st false) Null.

(** The "New Event" button: [setShowForm(true)]. *)
Definition openForm (st : State) : State := set_showForm st true.

(** [array.filter((_, i) => p(i))], counting from [i]. *)
Fixpoint filter_index {A : Type} (p : nat -> bool) (i : nat) (l : list A)
  : list A :=
  match l with
  | [] => []
  | x :: r =>
      if p i then x :: filter_index p (S i) r else filter_index p (S i) r
  end.

(** The attendee buttons.  [trim] stands for [String.prototype.trim]. *)
Definition addAttendee (trim : string -> string) (st : State) : State :=
  if (trim (attendeeInput st) =? "")%string then st
  else
    set_attendeeInput
      (set_newEvent st
         (Event.with_attendees (newEvent st)
            (Event.attendees (newEvent st) ++ [trim (attendeeInput st)])))
      "".

Definition removeAttendee (idx : nat) (st : State) : State :=
  set_newEvent st
    (Event.with_attendees (newEvent st)
       (filter_index (fun i => negb (i =? idx)%nat) 0
          (Event.attendees (newEvent st)))).

(** *** Month and week grids *)

(** [n % 7], and the number of cells missing to a full row of seven. *)
Definition rem7 (n : nat) : nat := (n mod 7)%nat.

Definition missing7 (n : nat) : nat :=
  if (rem7 n =? 0)%nat then 0%nat else (7 - rem7 n)%nat.

Arguments rem7 : simpl never.
Arguments missing7 : simpl never.

(** The [while (days.length % 7 !== 0) days.push(null)] of [getMonthDays]. *)
Equations? pad_week (days : list (option Calendar.CivilDate))
  : list (option Calendar.CivilDate)
  by wf (missing7 (List.length days)) lt :=
pad_week days with inspect (negb (rem7 (List.length days) =? 0)%nat) := {
  | exist _ true Hrem => pad_week (days ++ [None])
  | exist _ false _ => days }.
Proof.
  apply negb_true_iff in Hrem.
  rewrite length_app. cbn [List.length]. unfold missing7. rewrite Hrem.
  apply Nat.eqb_neq in Hrem.
  set (n := List.length days) in *.
  assert (Hb : (rem7 n < 7)%nat)
    by (unfold rem7; apply Nat.mod_upper_bound; lia).
  assert (E : rem7 (n + 1) = 0%nat \/ rem7 (n + 1) = (rem7 n + 1)%nat).
  { unfold rem7 in *.
    pose proof (Nat.div_mod_eq n 7) as Hdm.
    pose proof (Nat.mod_upper_bound (n + 1) 7 ltac:(lia)) as Hb'.
    pose proof (Nat.div_mod_eq (n + 1) 7) as Hdm'.
    lia. }
  destruct E as [E|E]; rewrite E.
  - change (0 =? 0)%nat with true. cbv iota. lia.
  - destruct (Nat.eqb_spec (rem7 n + 1) 0); lia.
Qed.

(** [getMonthDays(dateStr)]: the cells of the month grid, [None] for an
    empty cell.  A date string that does not parse gives no cell. *)
Definition getMonthDays (dateStr : option Calendar.CivilDate)
  : list (option Calendar.CivilDate) :=
  match dateStr with
  | None => pad_week []
  | Some date =>
      let y := Calendar.year date in
      let m := Calendar.month date in
      let startOfMonth := Calendar.mkDate y m 1 in
      let lastDate := Calendar.days_in_month y m in
      let startDay := Calendar.weekday startOfMonth in
      let days := repeat None (Z.to_nat startDay) in
      let days :=
        days ++ map (fun d => Some (Calendar.mkDate y m (Z.of_nat d)))
                  (seq 1 (Z.to_nat lastDate)) in
      pad_week days
  end.

(** [dayjs(date).startOf('week')], weeks starting on Sunday, and the
    two buttons that move [weekStart]. *)
Definition startOfWeek (date : Calendar.CivilDate) : Calendar.CivilDate :=
  Calendar.add_days date (- Calendar.weekday date).

Definition previousWeek (weekStart : Calendar.CivilDate) : Calendar.CivilDate :=
  Calendar.add_days weekStart (- 7).

Definition nextWeek (weekStart : Calendar.CivilDate) : Calendar.CivilDate :=
  Calendar.add_days weekStart 7.

(** [getWeekDays(start)]. *)
Definition getWeekDays (start : Calendar.CivilDate) : list Calendar.CivilDate :=
  map (fun i => Calendar.add_days start (Z.of_nat i)) (seq 0 7).

(** [e.date === day.format('YYYY-MM-DD')]. *)
Definition date_eqb (a b : Calendar.CivilDate) : bool :=
  (Calendar.year a =? Calendar.year b)
  && (Calendar.month a =? Calendar.month b)
  && (Calendar.day a =? Calendar.day b).

Definition on_day (day : Calendar.CivilDate) (e : Event.t) : bool :=
  match Event.date e with
  | Some d => date_eqb d day
  | None => false
  end.

(** [parseInt(e.time.split(':')[0], 10) === hour]; an empty time gives
    [NaN], equal to nothing. *)
Definition in_hour (hour : Z) (e : Event.t) : bool :=
  match Event.time e with
  | Some t => t / 60 =? hour
  | None => false
  end.

(** The events of one cell of the week grid, its rows (8am to 8pm), and
    the grid: per hour, the cells of the seven days. *)
Definition slotEvents (evts : list Event.t) (day : Calendar.CivilDate)
  (hour : Z) : list Event.t :=
  filter (fun e => on_day day e && in_hour hour e) evts.

Definition weekHours : list Z := map (fun i => 8 + Z.of_nat i) (seq 0 13).

Definition weekGrid (evts : list Event.t) (weekStart : Calendar.CivilDate)
  : list (list (list Event.t)) :=
  map (fun hour => map (fun day => slotEvents evts day hour)
                     (getWeekDays weekStart))
    weekHours.

(** A cell of the month grid: the first two events of the day, and the
    number behind "+n more", if shown. *)
Definition dayEvents (evts : list Event.t) (day : Calendar.CivilDate)
  : list Event.t :=
  filter (on_day day) evts.

Definition monthCellShown (evts : list Event.t) (day : Calendar.CivilDate)
  : list Event.t :=
  firstn 2 (dayEvents evts day).

Definition monthCellMore (evts : list Event.t) (day : Calendar.CivilDate)
  : option nat :=
  if (2 <? List.length (dayEvents evts day))%nat
  then Some (List.length (dayEvents evts day) - 2)%nat
  else None.

(** *** Counters and the type of an event *)

Definition status_is (s : string) (e : Event.t) : bool :=
  match Event.status e with
  | Some v => (v =? s)%string
  | None => false
  end.

(** The "Confirmed" and "Pending" cards. *)
Definition confirmedCount (evts : list Event.t) : nat :=
  List.length (filter (status_is "confirmed") evts).

Definition pendingCount (evts : list Event.t) : nat :=
  List.length (filter (status_is "pending") evts).

Record EventType := mkEventType {
  value : string;
  label : string;
  color : string
}.

(** [eventTypes.find(t => t.value === event.type) || eventTypes[0]] of
    the list view; [None] is [undefined], on which the next line
    ([evtType.color]) throws. *)
Definition evtType (eventTypes : list EventType) (e : Event.t)
  : option EventType :=
  match find (fun t => (value t =? Event.type e)%string) eventTypes with
  | Some t => Some t
  | None => hd_error eventTypes
  end.

(** The type of the initial draft:
    [eventTypes.length > 0 ? eventTypes[0].value : '']. *)
Definition initialType (eventTypes : list EventType) : string :=
  match eventTypes with
  | t :: _ => value t
  | [] => ""
  end.

(** *** Notions used in the further statements *)

(** The events [checkConflicts] does not pass over: those whose id is
    not the candidate's. *)
Definition other_id (c evt : Event.t) : bool :=
  negb (id_eqb (Event.id evt) (Event.id c)).


(** The time of day a cursor shows, [cursor.format('HH:mm')]. *)
Definition cursor_time (cursor : Dayjs.t) : Z :=
  (Dayjs.wall cursor / 60000) mod 1440.

(** The candidate of the availability search at time [t] has no
    conflict. *)
Definition slot_free `{ZoneRules} (st : State) (date : Calendar.CivilDate)
  (t : Z) : bool :=
  (List.length (checkConflicts (slot_test st date (Some t)) (events st)) =? 0)%nat.

(** The half-hours from 09:00 on that leave room for [duration] minutes
    before 17:00. *)
Definition grid_size (duration : Z) : nat :=
  Z.to_nat ((480 - duration) / 30 + 1).

Definition grid (duration : Z) : list Z :=
  map (fun i => 540 + 30 * Z.of_nat i) (seq 0 (grid_size duration)).

(** The draft asks for a recurrence that [handleAdd] expands. *)
Definition recurring (draft : Event.t) : bool :=
  (Event.repeat draft =? "daily")%string
  || (Event.repeat draft =? "weekly")%string
  || (Event.repeat draft =? "monthly")%string.

(** The position of a month on the time line, [12 * year + month - 1]. *)
Definition month_index (c : Calendar.CivilDate) : Z :=
  12 * Calendar.year c + Calendar.month c - 1.

(** ** More sample data *)

Module MoreSample.

(** A draft without a buffer: an event that came without one, opened in
    the form. *)
Definition nobuffer : Event.t :=
  Event.mk None "Open" (Some Sample.jan1) (Some 600) 60 "UTC" "meeting"
    [] "" None "" "none" 0 None.

(** A daily draft at 12:00 on 2024-01-01 and a monthly one at 12:00 on
    2024-01-31. *)
Definition daily : Event.t := Sample.draft "Daily" 720 60 "daily".

Definition jan31 : Calendar.CivilDate := Calendar.mkDate 2024 1 31.

Definition monthly : Event.t :=
  Event.mk None "Monthly" (Some jan31) (Some 720) 60 "UTC" "meeting"
    [] "" (Some 15) "" "monthly" 0 None.

(** An empty store and a one-hour draft. *)
Definition st_empty : State :=
  Sample.state [] (Sample.draft "First" 540 60 "none") Null.

(** E1 in the store, five minutes before it starts, its notification
    shown. *)
Definition st_notified : State :=
  tick (H := Sample.utc) Sample.now_due Sample.st_reminder.

End MoreSample.
(** * Properties *)

Module CalendarFacts.
Import Calendar.

Lemma all_from_spec (check : Z -> bool) :
  forall count z, all_from check count z = true ->
  forall x, z <= x < z + Z.of_nat count -> check x = true.
Proof.
  induction count as [|k IH]; intros z H x Hx.
  - simpl in Hx. lia.
  - simpl in H. apply andb_prop in H. destruct H as [Hz Hk].
    destruct (Z.eq_dec x z) as [->|Hne]; [exact Hz|].
    apply (IH (z + 1) Hk). lia.
Qed.

Lemma doe_roundtrip_all :
  forall doe, 0 <= doe < 146097 -> doe_roundtrip doe = true.
Proof.
  intros doe H.
  apply (@all_from_spec doe_roundtrip (Z.to_nat 146097) 0).
  - vm_cast_no_check (@eq_refl bool true).
  - lia.
Qed.

(** Converting a day number to a civil date and back is the identity. *)
Lemma days_from_civil_from_days (n : Z) :
  days_from_civil (civil_from_days n) = n.
Proof.
  unfold civil_from_days.
  set (z := n + 719468).
  set (era := z / 146097).
  set (doe := z - era * 146097).
  assert (Hdoe : 0 <= doe < 146097).
  { unfold doe, era.
    pose proof (Z.div_mod z 146097 ltac:(lia)) as Hdm.
    pose proof (Z.mod_pos_bound z 146097 ltac:(lia)) as Hb.
    lia. }
  pose proof (doe_roundtrip_all doe Hdoe) as Hrt.
  unfold doe_roundtrip in Hrt.
  destruct (civil_of_doe doe) as [[yoe m] d].
  apply andb_prop in Hrt. destruct Hrt as [Hrt Heq].
  apply andb_prop in Hrt. destruct Hrt as [Hlo Hhi].
  apply Z.leb_le in Hlo. apply Z.ltb_lt in Hhi. apply Z.eqb_eq in Heq.
  unfold days_from_civil. cbn [year month day].
  assert (Hy : (if m <=? 2
                then (if m <=? 2 then yoe + era * 400 + 1 else yoe + era * 400) - 1
                else (if m <=? 2 then yoe + era * 400 + 1 else yoe + era * 400))
               = yoe + era * 400).
  { destruct (m <=? 2); lia. }
  rewrite Hy.
  assert (Hera : (yoe + era * 400) / 400 = era).
  { rewrite Z.div_add by lia. rewrite Z.div_small by lia. lia. }
  rewrite Hera.
  replace (yoe + era * 400 - era * 400) with yoe by lia.
  rewrite Heq. unfold doe, z. lia.
Qed.

Lemma days_from_civil_add_days (c : CivilDate) (n : Z) :
  days_from_civil (add_days c n) = days_from_civil c + n.
Proof. unfold add_days. apply days_from_civil_from_days. Qed.

Lemma weekday_add_weeks (c : CivilDate) (i : Z) :
  weekday (add_days c (7 * i)) = weekday c.
Proof.
  unfold weekday. rewrite days_from_civil_add_days.
  replace (days_from_civil c + 7 * i + 4) with (days_from_civil c + 4 + i * 7) by lia.
  apply Z.mod_add. lia.
Qed.

Example civil_2024_01_01 :
  days_from_civil (mkDate 2024 1 1) = 19723 /\
  weekday (mkDate 2024 1 1) = 1 /\
  add_days (mkDate 2024 1 29) 35 = mkDate 2024 3 4 /\
  add_months (mkDate 2024 1 31) 1 = mkDate 2024 2 29.
Proof. repeat split; reflexivity. Qed.

End CalendarFacts.

(** ** Reflection of the JavaScript comparisons *)

Lemma id_eqb_eq (a b : option Z) : id_eqb a b = true <-> a = b.
Proof.
  destruct a as [x|], b as [y|]; simpl; split; intros E;
    try discriminate; try reflexivity.
  - apply Z.eqb_eq in E. congruence.
  - inversion E. apply Z.eqb_refl.
Qed.

Lemma id_eqb_neq (a b : option Z) : id_eqb a b = false <-> a <> b.
Proof.
  destruct (id_eqb a b) eqn:E; split; intros E'.
  - discriminate.
  - apply id_eqb_eq in E. contradiction.
  - intros Heq. apply id_eqb_eq in Heq. congruence.
  - reflexivity.
Qed.

Lemma message_eqb_eq (a b : option (Z * Z)) : message_eqb a b = true <-> a = b.
Proof.
  destruct a as [[s1 o1]|], b as [[s2 o2]|]; simpl; split; intros E;
    try discriminate; try reflexivity.
  - apply andb_prop in E. destruct E as [E1 E2].
    apply Z.eqb_eq in E1. apply Z.eqb_eq in E2. congruence.
  - inversion E. rewrite !Z.eqb_refl. reflexivity.
Qed.

(** A [forEach] that pushes [f x] onto an accumulator whenever [p x]
    holds computes a filter followed by a map. *)
Lemma fold_push_filter_map {A B : Type} (p : A -> bool) (f : A -> B) :
  forall (l : list A) (acc : list B),
    fold_left (fun acc x => if p x then acc ++ [f x] else acc) l acc
    = acc ++ map f (filter p l).
Proof.
  induction l as [|x l IH]; intros acc; simpl.
  - rewrite app_nil_r. reflexivity.
  - rewrite IH. destruct (p x); simpl.
    + rewrite <- app_assoc. reflexivity.
    + reflexivity.
Qed.

Lemma fold_left_pointwise {A B : Type} (f g : A -> B -> A) :
  (forall a b, f a b = g a b) ->
  forall (l : list B) (a : A), fold_left f l a = fold_left g l a.
Proof.
  intros E. induction l as [|x l IH]; intros a; simpl.
  - reflexivity.
  - rewrite E. apply IH.
Qed.

Section Properties.
Context `{ZoneRules}.

(** ** Conflict detection *)

Lemma checkConflicts_filter (testEvent : Event.t) (l : list Event.t) :
  checkConflicts testEvent l
  = map (fun evt => mkConflict (Event.title evt)) (filter (clashes testEvent) l).
Proof.
  unfold checkConflicts.
  rewrite fold_left_pointwise
    with (g := fun acc evt =>
                 if clashes testEvent evt
                 then acc ++ [mkConflict (Event.title evt)] else acc).
  - apply (fold_push_filter_map (clashes testEvent)
             (fun evt => mkConflict (Event.title evt)) l []).
  - intros acc evt. unfold clashes.
    destruct (id_eqb (Event.id evt) (Event.id testEvent)); reflexivity.
Qed.

Lemma checkConflicts_app (testEvent : Event.t) (l1 l2 : list Event.t) :
  checkConflicts testEvent (l1 ++ l2)
  = checkConflicts testEvent l1 ++ checkConflicts testEvent l2.
Proof. rewrite !checkConflicts_filter, filter_app, map_app. reflexivity. Qed.

Lemma checkConflicts_one (testEvent evt : Event.t) :
  checkConflicts testEvent [evt]
  = if clashes testEvent evt then [mkConflict (Event.title evt)] else [].
Proof.
  rewrite checkConflicts_filter. simpl.
  destruct (clashes testEvent evt); reflexivity.
Qed.

Lemma checkConflicts_nil_iff (testEvent : Event.t) (l : list Event.t) :
  checkConflicts testEvent l = []
  <-> forall evt, In evt l -> clashes testEvent evt = false.
Proof.
  rewrite checkConflicts_filter. split.
  - intros E evt Hin. destruct (clashes testEvent evt) eqn:Hc; [|reflexivity].
    assert (Hf : In evt (filter (clashes testEvent) l))
      by (apply filter_In; split; assumption).
    apply (in_map (fun evt => mkConflict (Event.title evt))) in Hf.
    rewrite E in Hf. destruct Hf.
  - intros Hall. induction l as [|x l IH]; [reflexivity|].
    simpl. rewrite (Hall x (or_introl eq_refl)). apply IH.
    intros evt Hin. apply Hall. right. exact Hin.
Qed.

Lemma clashes_arith (c evt : Event.t) (cs os b : Z) :
  start_instant c = Some cs ->
  Event.buffer c = Some b ->
  start_instant evt = Some os ->
  clashes c evt =
    negb (id_eqb (Event.id evt) (Event.id c))
    && ((cs <? os + (Event.duration evt + or_default (Event.buffer evt) 15) * 60000)
        && (os <? cs + (Event.duration c + b) * 60000)).
Proof.
  unfold start_instant, clashes, candidate_end, candidate_start,
    existing_end, existing_start.
  intros Hcs Hb Hos. rewrite Hb.
  destruct (Dayjs.tz (Event.date c) (Event.time c) (Event.timezone c))
    as [dc|]; [|discriminate].
  destruct (Dayjs.tz (Event.date evt) (Event.time evt) (Event.timezone evt))
    as [de|]; [|discriminate].
  simpl in Hcs, Hos. inversion Hcs; subst cs. inversion Hos; subst os.
  simpl. unfold Dayjs.valueOf. simpl.
  f_equal. f_equal.
  - destruct (Z.ltb_spec (Dayjs.wall dc - Dayjs.offset dc * 60000)
               (Dayjs.wall de
                + (Event.duration evt + or_default (Event.buffer evt) 15) * 60000
                - Dayjs.offset de * 60000));
    destruct (Z.ltb_spec (Dayjs.wall dc - Dayjs.offset dc * 60000)
               (Dayjs.wall de - Dayjs.offset de * 60000
                + (Event.duration evt + or_default (Event.buffer evt) 15) * 60000));
    try reflexivity; lia.
  - destruct (Z.ltb_spec (Dayjs.wall de - Dayjs.offset de * 60000)
               (Dayjs.wall dc + (Event.duration c + b) * 60000
                - Dayjs.offset dc * 60000));
    destruct (Z.ltb_spec (Dayjs.wall de - Dayjs.offset de * 60000)
               (Dayjs.wall dc - Dayjs.offset dc * 60000
                + (Event.duration c + b) * 60000));
    try reflexivity; lia.
Qed.

(** For a stored event with the buffer 0 the window ends where it ends
    for one without a buffer. *)
Lemma existing_end_zero_buffer (evt : Event.t) :
  Event.buffer evt = Some 0 ->
  existing_end evt
  = Dayjs.add_minute (existing_start evt) (Some (Event.duration evt + 15)).
Proof. intros Hb. unfold existing_end. rewrite Hb. reflexivity. Qed.

Lemma or_default_own (b : option Z) :
  b <> Some 0 ->
  or_default b 15 = match b with Some v => v | None => 15 end.
Proof.
  destruct b as [v|]; simpl; [|reflexivity].
  intros Hv. destruct (Z.eqb_spec v 0); [subst; contradiction|reflexivity].
Qed.

(** X28.  The test of [checkConflicts] on one stored event, as
    windows.  For a candidate [c] that has a buffer and a stored event
    [evt] with another id, [evt] is reported exactly when the half-open
    windows intersect: [cs < oe] and [ce > os].  Here [ce] is the
    candidate's start plus its duration and buffer, and [oe] is the
    stored event's start plus its duration and [buffer || 15]: its own
    buffer, and 15 when it has none or a zero one.  What is reported for
    [evt] does not depend on the rest of the list, and windows that only
    touch, [ce = os] or [cs = oe], are not reported. *)
Theorem checkConflicts_half_open (c evt : Event.t) (cs os b : Z) :
  Event.id evt <> Event.id c ->
  start_instant c = Some cs ->
  Event.buffer c = Some b ->
  start_instant evt = Some os ->
  let ce := cs + (Event.duration c + b) * 60000 in
  let oe := os + (Event.duration evt + or_default (Event.buffer evt) 15) * 60000 in
  (forall l1 l2,
      checkConflicts c (l1 ++ evt :: l2)
      = checkConflicts c l1 ++ checkConflicts c [evt] ++ checkConflicts c l2)
  /\ (checkConflicts c [evt] = [mkConflict (Event.title evt)]
      <-> cs < oe /\ ce > os)
  /\ (checkConflicts c [evt] = [] <-> ~ (cs < oe /\ ce > os))
  /\ (ce = os -> checkConflicts c [evt] = [])
  /\ (cs = oe -> checkConflicts c [evt] = [])
  /\ (Event.buffer evt <> Some 0 ->
      oe = os + (Event.duration evt
                 + match Event.buffer evt with Some v => v | None => 15 end)
                * 60000).
Proof.
  intros Hid Hcs Hb Hos ce oe.
  assert (Hone : checkConflicts c [evt]
                 = if (cs <? oe) && (os <? ce)
                   then [mkConflict (Event.title evt)] else []).
  { rewrite checkConflicts_one, (clashes_arith c evt cs os b Hcs Hb Hos).
    apply id_eqb_neq in Hid. rewrite Hid. reflexivity. }
  split; [|split; [|split; [|split; [|split]]]].
  - intros l1 l2.
    change (evt :: l2) with ([evt] ++ l2).
    rewrite !checkConflicts_app. reflexivity.
  - rewrite Hone.
    destruct (Z.ltb_spec cs oe); destruct (Z.ltb_spec os ce); simpl;
      split; intros E; try discriminate; try reflexivity; lia.
  - rewrite Hone.
    destruct (Z.ltb_spec cs oe); destruct (Z.ltb_spec os ce); simpl;
      split; intros E; try discriminate; try reflexivity; lia.
  - intros E. rewrite Hone.
    destruct (Z.ltb_spec os ce); [lia|]. rewrite andb_false_r. reflexivity.
  - intros E. rewrite Hone.
    destruct (Z.ltb_spec cs oe); [lia|]. reflexivity.
  - intros Hnz. unfold oe. rewrite (or_default_own _ Hnz). reflexivity.
Qed.

(** ** Availability search *)

Lemma length_zero_nil {A : Type} (l : list A) :
  (List.length l =? 0)%nat = true -> l = [].
Proof. destruct l; [reflexivity|discriminate]. Qed.

(** The scan appends to [slots] a list the relation [scanned] admits,
    and stops at six entries. *)
Lemma slot_scan_scanned (st : State) (date : Calendar.CivilDate)
  (end_ cursor : Dayjs.t) (slots : list Z) :
  exists l,
    slot_scan st date end_ cursor slots = slots ++ l
    /\ scanned st date end_ cursor l
    /\ ((List.length slots < 6)%nat -> (List.length (slots ++ l) <= 6)%nat).
Proof.
  funelim (slot_scan st date end_ cursor slots).
  - match goal with
    | IH : exists l, _ /\ _ /\ _ |- _ => destruct IH as (l' & IHeq & IHsc & IHlen)
    end.
    clear Heqcall.
    set (t := (Dayjs.wall cursor / 60000) mod 1440) in *.
    destruct (List.length
                (checkConflicts
                   (slot_test st date (Dayjs.format_HHmm (Some cursor)))
                   (events st)) =? 0)%nat eqn:Hfree.
    + apply length_zero_nil in Hfree.
      destruct (6 <=? List.length (slots ++ [t]))%nat eqn:Hsix.
      * exists [t].
        split; [reflexivity|]. split.
        -- apply scanned_take; [assumption|assumption|apply scanned_stop].
        -- intros Hlt. rewrite length_app. simpl. lia.
      * exists (t :: l').
        apply Nat.leb_gt in Hsix.
        split; [|split].
        -- rewrite IHeq, <- app_assoc. reflexivity.
        -- apply scanned_take; assumption.
        -- intros _. specialize (IHlen Hsix).
           rewrite <- app_assoc in IHlen. exact IHlen.
    + destruct (6 <=? List.length slots)%nat eqn:Hsix.
      * exists []. split; [rewrite app_nil_r; reflexivity|].
        split; [apply scanned_stop|].
        intros Hlt. rewrite app_nil_r. lia.
      * exists l'. apply Nat.leb_gt in Hsix.
        split; [exact IHeq|]. split.
        -- apply scanned_skip; assumption.
        -- intros _. exact (IHlen Hsix).
  - exists []. split; [rewrite app_nil_r; reflexivity|].
    split; [apply scanned_stop|].
    intros Hlt. rewrite app_nil_r. lia.
Qed.

(** The work window of [date]: 09:00 and 17:00 on the wall clock, both
    with the offset the zone has at midnight of that date. *)
Lemma getWorkWindow_value (st : State) (date : Calendar.CivilDate) :
  let D := Calendar.days_from_civil date in
  let off := zoneOffset (Event.timezone (newEvent st)) (D * 1440 * 60000) in
  getWorkWindow st date
  = (Some (Dayjs.mk (D * 86400000 + 32400000) off),
     Some (Dayjs.mk (D * 86400000 + 61200000) off)).
Proof.
  intros D off. unfold getWorkWindow, Dayjs.tz, Dayjs.hour, Dayjs.minute.
  fold D. cbn [option_map Dayjs.wall Dayjs.offset].
  replace ((D * 1440 + 0) * 60000) with (D * 1440 * 60000) by lia.
  fold off.
  assert (E1 : (D * 1440 * 60000 / 3600000) mod 24 = 0).
  { replace (D * 1440 * 60000) with (D * 24 * 3600000) by lia.
    rewrite Z.div_mul by lia. apply Z.mod_mul. lia. }
  rewrite E1.
  assert (E2 : ((D * 1440 * 60000 + (9 - 0) * 3600000) / 60000) mod 60 = 0).
  { replace (D * 1440 * 60000 + (9 - 0) * 3600000)
      with ((D * 24 + 9) * 60 * 60000) by lia.
    rewrite Z.div_mul by lia. apply Z.mod_mul. lia. }
  assert (E3 : ((D * 1440 * 60000 + (17 - 0) * 3600000) / 60000) mod 60 = 0).
  { replace (D * 1440 * 60000 + (17 - 0) * 3600000)
      with ((D * 24 + 17) * 60 * 60000) by lia.
    rewrite Z.div_mul by lia. apply Z.mod_mul. lia. }
  rewrite E2, E3. f_equal; f_equal; f_equal; lia.
Qed.

(** Every time the scan takes was tested free of conflicts. *)
Lemma scanned_free (st : State) (date : Calendar.CivilDate) (end_ : Dayjs.t) :
  forall cursor l, scanned st date end_ cursor l ->
  Forall (fun t => checkConflicts (slot_test st date (Some t)) (events st) = []) l.
Proof.
  induction 1 as [cursor|cursor l Hfits Hs IH|cursor l Hfits Hfree Hs IH].
  - constructor.
  - exact IH.
  - constructor; [exact Hfree|exact IH].
Qed.

(** On the grid of a work window the scan takes only times [540 + 30 j]
    that leave room for the duration, in increasing order. *)
Lemma scanned_grid (st : State) (date : Calendar.CivilDate) (end_ : Dayjs.t)
  (D : Z) :
  0 <= Event.duration (newEvent st) ->
  Dayjs.wall end_ = D * 86400000 + 61200000 ->
  forall cursor l, scanned st date end_ cursor l ->
  forall k, 0 <= k ->
  Dayjs.wall cursor = D * 86400000 + 32400000 + 1800000 * k ->
  Dayjs.offset cursor = Dayjs.offset end_ ->
  Forall (fun t => 540 + 30 * k <= t
                   /\ t + Event.duration (newEvent st) <= 1020
                   /\ exists j, 0 <= j /\ t = 540 + 30 * j) l
  /\ StronglySorted Z.lt l.
Proof.
  intros Hdur Hend.
  assert (Hfit : forall cursor k,
             slot_fits st end_ cursor = true ->
             Dayjs.wall cursor = D * 86400000 + 32400000 + 1800000 * k ->
             Dayjs.offset cursor = Dayjs.offset end_ ->
             540 + 30 * k + Event.duration (newEvent st) <= 1020).
  { intros cursor k Hfits Hw Ho.
    unfold slot_fits, Dayjs.add_minute, Dayjs.isBefore, Dayjs.isSame,
      Dayjs.valueOf in Hfits.
    cbn [Dayjs.wall Dayjs.offset] in Hfits.
    apply orb_prop in Hfits.
    destruct Hfits as [E|E]; [apply Z.ltb_lt in E|apply Z.eqb_eq in E]; lia. }
  induction 1 as [cursor|cursor l Hfits Hs IH|cursor l Hfits Hfree Hs IH];
    intros k Hk Hw Ho.
  - split; constructor.
  - destruct (IH (k + 1)) as [Hall Hsorted];
      [lia|unfold step_minutes; cbn [Dayjs.wall Dayjs.offset]; lia|unfold step_minutes; cbn [Dayjs.wall Dayjs.offset]; lia|].
    split; [|exact Hsorted].
    eapply Forall_impl; [|exact Hall].
    intros t (Hlo & Hhi & Hj). split; [lia|]. split; assumption.
  - pose proof (Hfit cursor k Hfits Hw Ho) as Hroom.
    destruct (IH (k + 1)) as [Hall Hsorted];
      [lia|unfold step_minutes; cbn [Dayjs.wall Dayjs.offset]; lia|unfold step_minutes; cbn [Dayjs.wall Dayjs.offset]; lia|].
    assert (Ht : (Dayjs.wall cursor / 60000) mod 1440 = 540 + 30 * k).
    { rewrite Hw.
      replace (D * 86400000 + 32400000 + 1800000 * k)
        with ((540 + 30 * k + D * 1440) * 60000) by lia.
      rewrite Z.div_mul by lia.
      rewrite Z.mod_add by lia. apply Z.mod_small. lia. }
    rewrite Ht. split.
    + constructor.
      * split; [lia|]. split; [lia|]. exists k. split; [lia|reflexivity].
      * eapply Forall_impl; [|exact Hall].
        intros t (Hlo & Hhi & Hj). split; [lia|]. split; assumption.
    + constructor; [exact Hsorted|].
      eapply Forall_impl; [|exact Hall].
      intros t (Hlo & _). lia.
Qed.

(** C7.  For a draft with a non-negative duration, [generateAvailabilities]
    returns at most 6 entries; every entry [t] (minutes since midnight)
    has [09:00 <= t] and [t + duration <= 17:00] and is a whole number of
    30-minute steps after 09:00; the entries are strictly increasing. *)
Theorem generateAvailabilities_bounds (st : State) (date : Calendar.CivilDate) :
  0 <= Event.duration (newEvent st) ->
  let slots := generateAvailabilities st date in
  (List.length slots <= 6)%nat
  /\ (forall t, In t slots ->
        540 <= t /\ t + Event.duration (newEvent st) <= 1020
        /\ exists j, 0 <= j /\ t = 540 + 30 * j)
  /\ StronglySorted Z.lt slots.
Proof.
  intros Hdur slots. unfold slots, generateAvailabilities.
  rewrite getWorkWindow_value.
  set (D := Calendar.days_from_civil date).
  set (off := zoneOffset (Event.timezone (newEvent st)) (D * 1440 * 60000)).
  destruct (slot_scan_scanned st date
              (Dayjs.mk (D * 86400000 + 61200000) off)
              (Dayjs.mk (D * 86400000 + 32400000) off) [])
    as (l & Heq & Hsc & Hlen).
  rewrite Heq. simpl in *.
  destruct (scanned_grid st date (Dayjs.mk (D * 86400000 + 61200000) off) D
              Hdur eq_refl _ _ Hsc 0) as [Hall Hsorted];
    [lia|simpl; lia|reflexivity|].
  split; [apply Hlen; lia|]. split; [|exact Hsorted].
  intros t Hin. rewrite Forall_forall in Hall.
  destruct (Hall t Hin) as (Hlo & Hhi & Hj).
  split; [lia|]. split; assumption.
Qed.

Lemma free_slot_no_intersection (c evt : Event.t) (l : list Event.t)
  (cs os b : Z) :
  checkConflicts c l = [] ->
  In evt l ->
  Event.id evt <> Event.id c ->
  start_instant c = Some cs ->
  Event.buffer c = Some b ->
  start_instant evt = Some os ->
  os + (Event.duration evt + or_default (Event.buffer evt) 15) * 60000 <= cs
  \/ cs + (Event.duration c + b) * 60000 <= os.
Proof.
  intros Hfree Hin Hid Hcs Hb Hos.
  pose proof (proj1 (checkConflicts_nil_iff c l) Hfree evt Hin) as Hc.
  rewrite (clashes_arith c evt cs os b Hcs Hb Hos) in Hc.
  apply id_eqb_neq in Hid. rewrite Hid in Hc. simpl in Hc.
  apply andb_false_iff in Hc.
  destruct Hc as [Hc|Hc]; apply Z.ltb_ge in Hc; [left|right]; lia.
Qed.

Lemma generateAvailabilities_free (st : State) (date : Calendar.CivilDate)
  (t : Z) :
  In t (generateAvailabilities st date) ->
  checkConflicts (slot_test st date (Some t)) (events st) = [].
Proof.
  unfold generateAvailabilities. rewrite getWorkWindow_value.
  match goal with
  | |- In t (slot_scan st date ?e ?c []) -> _ =>
      destruct (slot_scan_scanned st date e c []) as (l & Heq & Hsc & _)
  end.
  rewrite Heq. cbn [app]. intros Hin.
  pose proof (scanned_free _ _ _ _ _ Hsc) as Hall.
  rewrite Forall_forall in Hall. exact (Hall t Hin).
Qed.

Lemma slot_test_start (st : State) (date : Calendar.CivilDate) (t : Z) :
  exists cs, start_instant (slot_test st date (Some t)) = Some cs.
Proof. eexists. reflexivity. Qed.

(** X30.  For a draft that has a buffer, the availability search leaves
    no stored event with an id out of its check: the candidate it tests
    carries no id, so the window of an offered time, from its start
    [cs] for the draft's duration and buffer, never intersects the
    window of such an event, which runs from its start [os] for its
    duration and [buffer || 15].  [handleEdit] fills the slots with the
    draft of the render it is called in; the effect that follows
    searches again with the opened event as the draft, and when that
    event has a buffer the offered times keep clear of its own window
    too, although it is the one being moved. *)
Theorem availability_excludes_no_event (st : State) :
  (forall date t b evt os,
      Event.buffer (newEvent st) = Some b ->
      In t (generateAvailabilities st date) ->
      In evt (events st) ->
      Event.id evt <> None ->
      start_instant evt = Some os ->
      exists cs,
        start_instant (slot_test st date (Some t)) = Some cs
        /\ (os + (Event.duration evt + or_default (Event.buffer evt) 15) * 60000
              <= cs
            \/ cs + (Event.duration (newEvent st) + b) * 60000 <= os))
  /\ (forall evt d,
        Event.date evt = Some d ->
        availabilities (handleEdit evt st) = generateAvailabilities st d)
  /\ (forall evt d t b os,
        In evt (events st) ->
        Event.id evt <> None ->
        Event.date evt = Some d ->
        Event.buffer evt = Some b ->
        start_instant evt = Some os ->
        In t (availabilities (refreshAvailabilities (handleEdit evt st))) ->
        exists cs,
          start_instant (slot_test (handleEdit evt st) d (Some t)) = Some cs
          /\ (os + (Event.duration evt + or_default (Some b) 15) * 60000 <= cs
              \/ cs + (Event.duration evt + b) * 60000 <= os)).
Proof.
  assert (Hgen : forall s date t b evt os,
             Event.buffer (newEvent s) = Some b ->
             In t (generateAvailabilities s date) ->
             In evt (events s) ->
             Event.id evt <> None ->
             start_instant evt = Some os ->
             exists cs,
               start_instant (slot_test s date (Some t)) = Some cs
               /\ (os + (Event.duration evt
                         + or_default (Event.buffer evt) 15) * 60000 <= cs
                   \/ cs + (Event.duration (newEvent s) + b) * 60000 <= os)).
  { intros s date t b evt os Hb Hin Hevt Hid Hos.
    destruct (slot_test_start s date t) as [cs Hcs].
    exists cs. split; [exact Hcs|].
    apply (free_slot_no_intersection
             (slot_test s date (Some t)) evt (events s) cs os b);
      [apply generateAvailabilities_free; exact Hin|exact Hevt|exact Hid
      |exact Hcs|exact Hb|exact Hos]. }
  split; [apply Hgen|]. split.
  - intros evt d Hdate. unfold handleEdit. rewrite Hdate. reflexivity.
  - intros evt d t b os Hevt Hid Hdate Hb Hos.
    unfold refreshAvailabilities.
    assert (Hd : Event.date (newEvent (handleEdit evt st)) = Some d)
      by exact Hdate.
    rewrite Hd. cbn [availabilities set_availabilities].
    intros Hin.
    assert (Hb' : Event.buffer (newEvent (handleEdit evt st)) = Some b)
      by exact Hb.
    destruct (Hgen (handleEdit evt st) d t b evt os Hb' Hin Hevt Hid Hos)
      as (cs & Hcs & Hfree).
    exists cs. split; [exact Hcs|].
    rewrite Hb in Hfree. exact Hfree.
Qed.

(** ** The reminder tick *)

Lemma tick_reminders (now : Z) (st : State) :
  reminders (tick now st) = reminders st ++ emitted now st.
Proof.
  unfold tick, emitted. cbn [reminders set_reminders].
  apply (fold_push_filter_map (due now (reminders st)) notification).
Qed.

Lemma already_reminded_iff (rs : list Reminder.t) (e : Event.t) :
  already_reminded rs e = true
  <-> exists r, In r rs /\ key r = key (notification e).
Proof.
  unfold already_reminded. rewrite existsb_exists.
  split; intros (r & Hin & Hr); exists r; (split; [exact Hin|]).
  - apply andb_prop in Hr. destruct Hr as [Hi Hm].
    apply id_eqb_eq in Hi. apply message_eqb_eq in Hm.
    unfold key, notification. simpl. congruence.
  - unfold key, notification in Hr. simpl in Hr. inversion Hr as [[Hi Hm]].
    apply andb_true_intro. split.
    + apply id_eqb_eq. reflexivity.
    + apply message_eqb_eq. reflexivity.
Qed.

Lemma due_iff (now : Z) (rs : list Reminder.t) (e : Event.t) (eStart : Z) :
  start_instant e = Some eStart ->
  (due now rs e = true
   <-> Event.reminder e <> 0
       /\ eStart - Event.reminder e * 60000 < now < eStart
       /\ already_reminded rs e = false).
Proof.
  unfold start_instant, due, remindAt_of. intros Hs.
  destruct (Dayjs.tz (Event.date e) (Event.time e) (Event.timezone e))
    as [d|]; [|discriminate].
  simpl in Hs. inversion Hs as [Hv]. unfold Dayjs.valueOf in *.
  destruct (Z.eqb_spec (Event.reminder e) 0) as [Hz|Hz].
  - split; [discriminate|]. intros (Hne & _). contradiction.
  - unfold Dayjs.subtract_minute, Dayjs.isAfter, Dayjs.isBefore, Dayjs.of_ms,
      Dayjs.valueOf. cbn [Dayjs.wall Dayjs.offset].
    rewrite !andb_true_iff, negb_true_iff, !Z.ltb_lt.
    split.
    + intros ((H1 & H2) & H3). split; [exact Hz|]. split; [lia|exact H3].
    + intros (_ & H1 & H3). split; [split; lia|exact H3].
Qed.

Lemma notification_inj (e e' : Event.t) :
  notification e' = notification e -> e' = e.
Proof. unfold notification. intros E. inversion E. reflexivity. Qed.

(** C1, as amended.  For an event [e] of the store with [reminder > 0]
    and start [eStart], let [remindAt = eStart - reminder] minutes.  A
    tick at [now] appends what it emits to the notification list, and
    it emits the notification of [e] exactly when
    [remindAt < now < eStart] (both strict) and no notification of the
    list has the pair (id, message) of [e], the message being the
    rendering of [remindAt]. *)
Theorem tick_emits_iff (now : Z) (st : State) (e : Event.t) (eStart : Z) :
  0 < Event.reminder e ->
  In e (events st) ->
  start_instant e = Some eStart ->
  let remindAt := eStart - Event.reminder e * 60000 in
  reminders (tick now st) = reminders st ++ emitted now st
  /\ (In (notification e) (emitted now st)
      <-> remindAt < now < eStart
          /\ ~ (exists r, In r (reminders st)
                          /\ Reminder.id r = Event.id e
                          /\ Reminder.message r = Dayjs.format (remindAt_of e)))
  /\ (exists s o, Dayjs.format (remindAt_of e) = Some (s, o)
                  /\ s * 1000 - o * 60000 = remindAt).
Proof.
  intros Hpos Hin Hs remindAt.
  split; [apply tick_reminders|]. split.
  - unfold emitted. rewrite in_map_iff. split.
    + intros (e' & Hn & Hf). apply notification_inj in Hn. subst e'.
      apply filter_In in Hf. destruct Hf as [_ Hdue].
      apply (due_iff now (reminders st) e eStart Hs) in Hdue.
      destruct Hdue as (_ & Hwin & Hnot). split; [exact Hwin|].
      intros (r & Hr & Hi & Hm).
      assert (Hal : already_reminded (reminders st) e = true).
      { apply already_reminded_iff. exists r. split; [exact Hr|].
        unfold key, notification. simpl. congruence. }
      congruence.
    + intros (Hwin & Hnone). exists e. split; [reflexivity|].
      apply filter_In. split; [exact Hin|].
      apply (due_iff now (reminders st) e eStart Hs).
      split; [lia|]. split; [exact Hwin|].
      destruct (already_reminded (reminders st) e) eqn:Hal; [|reflexivity].
      exfalso. apply Hnone. apply already_reminded_iff in Hal.
      destruct Hal as (r & Hr & Hk). exists r. split; [exact Hr|].
      unfold key, notification in Hk. simpl in Hk. inversion Hk. split; reflexivity.
  - unfold start_instant, remindAt_of in *.
    destruct (Dayjs.tz (Event.date e) (Event.time e) (Event.timezone e))
      as [d|] eqn:Htz; [|discriminate].
    unfold Dayjs.tz in Htz.
    destruct (Event.date e) as [c|]; [|discriminate].
    remember (match Event.time e with Some m => m | None => 0 end) as m.
    cbv zeta in Htz.
    inversion Htz as [Hd]. simpl in Hs. inversion Hs as [Hv].
    assert (Hstart : eStart
                     = (Calendar.days_from_civil c * 1440 + m) * 60000
                       - Dayjs.offset d * 60000)
      by (rewrite <- Hv, <- Hd; reflexivity).
    rewrite <- Hd in Hstart.
    unfold Dayjs.valueOf. cbn [Dayjs.wall Dayjs.offset Dayjs.subtract_minute
                                 Dayjs.format option_map].
    eexists. eexists. split; [reflexivity|].
    unfold remindAt, Dayjs.valueOf. cbn [Dayjs.wall Dayjs.offset].
    replace ((Calendar.days_from_civil c * 1440 + m) * 60000
             - Event.reminder e * 60000)
      with (((Calendar.days_from_civil c * 1440 + m) * 60
             - Event.reminder e * 60) * 1000) by lia.
    rewrite Z.div_mul by lia. cbn [Dayjs.offset] in Hstart. lia.
Qed.

Lemma NoDup_map_filter (X Y : Type) (g : X -> Y) (keep : X -> bool) :
  forall xs : list X, NoDup (map g xs) -> NoDup (map g (filter keep xs)).
Proof.
  intros xs. induction xs as [|x xs IH]; simpl; intros Hnd; [constructor|].
  inversion Hnd as [|y ys Hfresh Hrest]; subst.
  destruct (keep x); simpl; [|apply IH; exact Hrest].
  constructor; [|apply IH; exact Hrest].
  intros Hin. apply Hfresh. apply in_map_iff in Hin.
  destruct Hin as (z & Hz & Hzin). apply filter_In in Hzin.
  apply in_map_iff. exists z. split; [exact Hz|tauto].
Qed.

Lemma NoDup_append {A : Type} (l1 l2 : list A) :
  NoDup l1 -> NoDup l2 -> (forall a, In a l1 -> ~ In a l2) -> NoDup (l1 ++ l2).
Proof.
  induction l1 as [|x l1 IH]; simpl; intros H1 H2 Hdis; [exact H2|].
  inversion H1 as [|y ys Hnotin Hrest]; subst.
  constructor.
  - intros Hin. apply in_app_or in Hin. destruct Hin as [Hin|Hin].
    + contradiction.
    + apply (Hdis x); [left; reflexivity|exact Hin].
  - apply IH; [exact Hrest|exact H2|].
    intros a Ha. apply Hdis. right. exact Ha.
Qed.

Lemma due_not_already (now : Z) (rs : list Reminder.t) (e : Event.t) :
  due now rs e = true -> already_reminded rs e = false.
Proof.
  unfold due. destruct (Event.reminder e =? 0); [discriminate|].
  intros Hd. apply andb_prop in Hd. destruct Hd as [_ Hn].
  apply negb_true_iff in Hn. exact Hn.
Qed.

Lemma due_antitone (now : Z) (rs rs' : list Reminder.t) (e : Event.t) :
  (forall r, In r rs -> In r rs') ->
  due now rs' e = true -> due now rs e = true.
Proof.
  intros Hsub. unfold due. destruct (Event.reminder e =? 0); [discriminate|].
  intros Hd. apply andb_prop in Hd. destruct Hd as [Ht Hn].
  rewrite Ht. simpl. apply negb_true_iff in Hn. apply negb_true_iff.
  destruct (already_reminded rs e) eqn:Hal; [|reflexivity].
  apply already_reminded_iff in Hal. destruct Hal as (r & Hr & Hk).
  assert (Hal' : already_reminded rs' e = true).
  { apply already_reminded_iff. exists r. split; [apply Hsub; exact Hr|exact Hk]. }
  congruence.
Qed.

Lemma emitted_after_tick (now : Z) (st : State) :
  emitted now (tick now st) = [].
Proof.
  unfold emitted at 1. rewrite tick_reminders.
  replace (events (tick now st)) with (events st) by reflexivity.
  assert (Hnone : forall e, In e (events st) ->
                    due now (reminders st ++ emitted now st) e = false).
  { intros e Hin.
    destruct (due now (reminders st ++ emitted now st) e) eqn:Hd; [|reflexivity].
    pose proof (due_not_already _ _ _ Hd) as Hnot.
    assert (Hfirst : due now (reminders st) e = true).
    { apply (due_antitone now (reminders st) (reminders st ++ emitted now st));
        [|exact Hd].
      intros r Hr. apply in_or_app. left. exact Hr. }
    assert (Hal : already_reminded (reminders st ++ emitted now st) e = true).
    { apply already_reminded_iff. exists (notification e).
      split; [|reflexivity].
      apply in_or_app. right. unfold emitted. apply in_map.
      apply filter_In. split; assumption. }
    congruence. }
  induction (events st) as [|e l IH]; [reflexivity|].
  simpl. rewrite (Hnone e (or_introl eq_refl)).
  apply IH. intros e' He'. apply Hnone. right. exact He'.
Qed.

Lemma set_reminders_same (st : State) : set_reminders st (reminders st) = st.
Proof. destruct st; reflexivity. Qed.

(** C8, as amended.  With the ids of the stored events pairwise
    distinct, a tick keeps the notification list free of two entries
    with the same pair (event id, message), the message being the
    rendering of remindAt that the duplicate check compares; a dismissal
    keeps it so too.  A second tick at the same [now], on the same
    events and on the list the first one produced, emits nothing and
    leaves the state as it is. *)
Theorem tick_no_duplicates_idempotent (now : Z) (st : State) :
  NoDup (map Event.id (events st)) ->
  NoDup (map key (reminders st)) ->
  NoDup (map key (reminders (tick now st)))
  /\ (forall id message,
         NoDup (map key (reminders (dismissReminder id message st))))
  /\ emitted now (tick now st) = []
  /\ tick now (tick now st) = tick now st.
Proof.
  intros Hids Hkeys. split; [|split; [|split]].
  - rewrite tick_reminders, map_app. apply NoDup_append.
    + exact Hkeys.
    + unfold emitted. rewrite map_map.
      apply (NoDup_map_inv fst). rewrite map_map.
      change (fun x : Event.t => fst (key (notification x))) with Event.id.
      apply NoDup_map_filter. exact Hids.
    + intros k Hk Hk'. unfold emitted in Hk'. rewrite map_map in Hk'.
      apply in_map_iff in Hk'. destruct Hk' as (e & He & Hf).
      apply filter_In in Hf. destruct Hf as [_ Hd].
      apply due_not_already in Hd.
      apply in_map_iff in Hk. destruct Hk as (r & Hr & Hrin).
      assert (Hal : already_reminded (reminders st) e = true).
      { apply already_reminded_iff. exists r. split; [exact Hrin|congruence]. }
      congruence.
  - intros id message. unfold dismissReminder.
    cbn [reminders set_reminders]. apply NoDup_map_filter. exact Hkeys.
  - apply emitted_after_tick.
  - assert (Htick : forall s, tick now s
                              = set_reminders s (reminders s ++ emitted now s)).
    { intros s. unfold tick, emitted.
      rewrite (fold_push_filter_map (due now (reminders s)) notification).
      reflexivity. }
    rewrite (Htick (tick now st)), emitted_after_tick, app_nil_r.
    apply set_reminders_same.
Qed.

(** ** The add / edit / delete handlers *)

Lemma length_nonzero {A : Type} (l : list A) :
  negb (List.length l =? 0)%nat = true <-> l <> [].
Proof.
  destruct l; simpl; split; intros E; try discriminate; try reflexivity.
  exfalso. apply E. reflexivity.
Qed.

Lemma handleAdd_missing (clock : nat -> Z) (st : State) :
  missing_required (newEvent st) = true ->
  handleAdd clock st = (st, ReturnedMissingField).
Proof. intros Hm. unfold handleAdd. rewrite Hm. reflexivity. Qed.

Lemma handleAdd_conflict (clock : nat -> Z) (st : State) :
  missing_required (newEvent st) = false ->
  checkConflicts (newEvent st) (others st) <> [] ->
  handleAdd clock st
  = (set_conflicts st (checkConflicts (newEvent st) (others st)),
     ReturnedConflicts (checkConflicts (newEvent st) (others st))).
Proof.
  intros Hm He. unfold handleAdd. rewrite Hm.
  apply length_nonzero in He. rewrite He. reflexivity.
Qed.

Lemma handleAdd_add (clock : nat -> Z) (st : State) :
  missing_required (newEvent st) = false ->
  checkConflicts (newEvent st) (others st) = [] ->
  edit_truthy (editEventId st) = false ->
  events (fst (handleAdd clock st))
  = events st ++ newEvents_of clock (newEvent st)
  /\ snd (handleAdd clock st) = Completed (Some (toAdd_of clock (newEvent st))).
Proof.
  intros Hm He Ht. unfold handleAdd. rewrite Hm, He, Ht. simpl.
  split; reflexivity.
Qed.

Lemma handleAdd_edit (clock : nat -> Z) (st : State) :
  missing_required (newEvent st) = false ->
  checkConflicts (newEvent st) (others st) = [] ->
  edit_truthy (editEventId st) = true ->
  events (fst (handleAdd clock st))
  = map (fun e => if edit_eqb (Event.id e) (editEventId st)
                  then Event.with_id (newEvent st) (edit_value (editEventId st))
                  else e)
      (events st)
  /\ snd (handleAdd clock st) = Completed None.
Proof.
  intros Hm He Ht. unfold handleAdd. rewrite Hm, He, Ht. simpl.
  split; reflexivity.
Qed.

(** The three ways a run can end, by the guards that decide them. *)
Lemma handleAdd_cases (clock : nat -> Z) (st : State) :
  (missing_required (newEvent st) = true
   /\ handleAdd clock st = (st, ReturnedMissingField))
  \/ (missing_required (newEvent st) = false
      /\ checkConflicts (newEvent st) (others st) <> []
      /\ handleAdd clock st
         = (set_conflicts st (checkConflicts (newEvent st) (others st)),
            ReturnedConflicts (checkConflicts (newEvent st) (others st))))
  \/ (missing_required (newEvent st) = false
      /\ checkConflicts (newEvent st) (others st) = []
      /\ exists n, snd (handleAdd clock st) = Completed n).
Proof.
  destruct (missing_required (newEvent st)) eqn:Hm.
  - left. split; [reflexivity|]. apply handleAdd_missing. exact Hm.
  - right. destruct (checkConflicts (newEvent st) (others st)) as [|c l] eqn:He.
    + right. split; [reflexivity|]. split; [reflexivity|].
      destruct (edit_truthy (editEventId st)) eqn:Ht.
      * exists None. apply (handleAdd_edit clock st Hm He Ht).
      * eexists. apply (handleAdd_add clock st Hm He Ht).
    + left. split; [reflexivity|]. split; [discriminate|].
      rewrite <- He. apply handleAdd_conflict; [exact Hm|].
      rewrite He. discriminate.
Qed.

(** C5.  A run of [handleAdd] that is stopped by a missing title, date
    or time changes nothing at all; one that is stopped by a conflict
    only records the conflicts and leaves the events as they are; and
    an add that goes through appends the whole series [newEvents] (the
    base first) in one update.  So whenever the run does not complete,
    the events are unchanged. *)
Theorem handleAdd_atomic (clock : nat -> Z) (st : State) :
  let draft := newEvent st in
  let errs := checkConflicts draft (others st) in
  (missing_required draft = true ->
   handleAdd clock st = (st, ReturnedMissingField))
  /\ (missing_required draft = false -> errs <> [] ->
      handleAdd clock st = (set_conflicts st errs, ReturnedConflicts errs)
      /\ events (fst (handleAdd clock st)) = events st)
  /\ (missing_required draft = false -> errs = [] ->
      edit_truthy (editEventId st) = false ->
      events (fst (handleAdd clock st)) = events st ++ newEvents_of clock draft
      /\ hd_error (newEvents_of clock draft) = Some (toAdd_of clock draft)
      /\ snd (handleAdd clock st) = Completed (Some (toAdd_of clock draft)))
  /\ ((forall n, snd (handleAdd clock st) <> Completed n) ->
      events (fst (handleAdd clock st)) = events st).
Proof.
  intros draft errs. split; [|split; [|split]].
  - apply handleAdd_missing.
  - intros Hm He. rewrite (handleAdd_conflict clock st Hm He).
    split; reflexivity.
  - intros Hm He Ht. destruct (handleAdd_add clock st Hm He Ht) as [E1 E2].
    split; [exact E1|]. split; [|exact E2].
    unfold newEvents_of.
    destruct (negb (Event.repeat draft =? "none")%string); reflexivity.
  - intros Hnot.
    destruct (handleAdd_cases clock st) as [(_ & E)|[(_ & _ & E)|(_ & _ & n & E)]].
    + rewrite E. reflexivity.
    + rewrite E. reflexivity.
    + exfalso. exact (Hnot n E).
Qed.

Lemma map_unchanged {A : Type} (f : A -> A) (l : list A) :
  (forall x, In x l -> f x = x) -> map f l = l.
Proof.
  induction l as [|x l IH]; simpl; intros Hf; [reflexivity|].
  rewrite (Hf x (or_introl eq_refl)), IH; [reflexivity|].
  intros y Hy. apply Hf. right. exact Hy.
Qed.

(** X29.  An edit under an id other than 0 that goes through
    (whatever the draft's [repeat]) maps the events one to one: the list
    keeps its length and its ids in their positions, an event is
    replaced by the draft (under the edited id) exactly when it has that
    id, every other event is kept as it is, and nothing is handed to
    [onEventAdd].  With distinct ids, only the one position of the
    edited event changes. *)
Theorem edit_replaces_in_place (clock : nat -> Z) (st : State) (i : Z)
  (n : option Event.t) :
  editEventId st = Editing (Some i) ->
  i <> 0 ->
  snd (handleAdd clock st) = Completed n ->
  let events' := events (fst (handleAdd clock st)) in
  n = None
  /\ List.length events' = List.length (events st)
  /\ map Event.id events' = map Event.id (events st)
  /\ (forall k,
         nth_error events' k
         = option_map
             (fun e => if id_eqb (Event.id e) (Some i)
                       then Event.with_id (newEvent st) (Some i) else e)
             (nth_error (events st) k))
  /\ (NoDup (map Event.id (events st)) ->
      forall k e, nth_error (events st) k = Some e -> Event.id e = Some i ->
      forall k', k' <> k -> nth_error events' k' = nth_error (events st) k').
Proof.
  intros Hedit Hi Hdone events'.
  assert (Ht : edit_truthy (editEventId st) = true).
  { rewrite Hedit. simpl. destruct (Z.eqb_spec i 0); [contradiction|reflexivity]. }
  destruct (handleAdd_cases clock st) as [(_ & E)|[(_ & _ & E)|(Hm & He & _)]];
    try (rewrite E in Hdone; discriminate).
  destruct (handleAdd_edit clock st Hm He Ht) as [Hev Hout].
  rewrite Hedit in Hev. cbn [edit_eqb edit_value] in Hev.
  assert (Hnth : forall k,
             nth_error events' k
             = option_map
                 (fun e => if id_eqb (Event.id e) (Some i)
                           then Event.with_id (newEvent st) (Some i) else e)
                 (nth_error (events st) k)).
  { intros k. unfold events'. rewrite Hev. apply nth_error_map. }
  split; [congruence|]. split; [|split; [|split]].
  - unfold events'. rewrite Hev. apply length_map.
  - unfold events'. rewrite Hev, map_map. apply map_ext.
    intros e. destruct (id_eqb (Event.id e) (Some i)) eqn:Hid; [|reflexivity].
    apply id_eqb_eq in Hid. simpl. congruence.
  - exact Hnth.
  - intros Hnd k e Hk Hide k' Hne. rewrite Hnth.
    destruct (nth_error (events st) k') as [e'|] eqn:Hk'; [|reflexivity].
    simpl. destruct (id_eqb (Event.id e') (Some i)) eqn:Hid; [|reflexivity].
    exfalso. apply Hne. apply id_eqb_eq in Hid.
    apply (proj1 (NoDup_nth_error (map Event.id (events st))) Hnd).
    + rewrite length_map. apply nth_error_Some. rewrite Hk'. discriminate.
    + rewrite !nth_error_map, Hk, Hk'. simpl. congruence.
Qed.

(** C3, as amended.  An edit or a delete that names an id [i] no stored
    event has is not reported as an error: the edit, when its draft
    passes the two guards, completes like any other and leaves the
    events as they were (so does one that is stopped by a guard); the
    delete always completes and leaves the events as they were. *)
Theorem unknown_id_is_silent (clock : nat -> Z) (st : State) (i : Z)
  (target : Event.t) :
  (forall e, In e (events st) -> Event.id e <> Some i) ->
  i <> 0 ->
  (editEventId st = Editing (Some i) ->
   events (fst (handleAdd clock st)) = events st
   /\ (missing_required (newEvent st) = false ->
       checkConflicts (newEvent st) (others st) = [] ->
       snd (handleAdd clock st) = Completed None))
  /\ (Event.id target = Some i ->
      exists st', confirmDelete (handleDelete target st) = Some st'
                  /\ events st' = events st).
Proof.
  intros Hunknown Hi. split.
  - intros Hedit.
    assert (Ht : edit_truthy (editEventId st) = true).
    { rewrite Hedit. simpl. destruct (Z.eqb_spec i 0); [contradiction|reflexivity]. }
    assert (Hsame : missing_required (newEvent st) = false ->
                    checkConflicts (newEvent st) (others st) = [] ->
                    events (fst (handleAdd clock st)) = events st
                    /\ snd (handleAdd clock st) = Completed None).
    { intros Hm He. destruct (handleAdd_edit clock st Hm He Ht) as [Hev Hout].
      split; [|exact Hout]. rewrite Hev. apply map_unchanged.
      intros e Hin. rewrite Hedit. cbn [edit_eqb].
      destruct (id_eqb (Event.id e) (Some i)) eqn:Hid; [|reflexivity].
      apply id_eqb_eq in Hid. exfalso. exact (Hunknown e Hin Hid). }
    split.
    + destruct (handleAdd_cases clock st) as [(_ & E)|[(_ & _ & E)|(Hm & He & _)]].
      * rewrite E. reflexivity.
      * rewrite E. reflexivity.
      * apply (Hsame Hm He).
    + intros Hm He. apply (Hsame Hm He).
  - intros Htarget. unfold confirmDelete, handleDelete.
    cbn [eventToDelete set_eventToDelete set_showDeleteConfirm].
    eexists. split; [reflexivity|].
    assert (Hfilter : filter (fun e => negb (id_eqb (Event.id e) (Event.id target)))
                        (events st) = events st).
    { apply forallb_filter_id. apply forallb_forall. intros e Hin.
      apply negb_true_iff. apply id_eqb_neq. rewrite Htarget.
      apply Hunknown. exact Hin. }
    match goal with
    | |- context [if ?b then _ else _] => destruct b
    end; exact Hfilter.
Qed.

(** ** Recurrence expansion *)

Lemma date_of_with_date (b : Dayjs.t) (c : Calendar.CivilDate) :
  Dayjs.date_of (Dayjs.with_date b c)
  = Calendar.civil_from_days (Calendar.days_from_civil c).
Proof.
  unfold Dayjs.date_of, Dayjs.with_date. cbn [Dayjs.wall]. f_equal.
  pose proof (Z.mod_pos_bound (Dayjs.wall b) 86400000 ltac:(lia)) as Hb.
  rewrite Z.div_add_l by lia. rewrite Z.div_small by lia. lia.
Qed.

Lemma date_of_local (D t off : Z) :
  0 <= t < 1440 ->
  Dayjs.date_of (Dayjs.mk ((D * 1440 + t) * 60000) off)
  = Calendar.civil_from_days D.
Proof.
  intros Ht. unfold Dayjs.date_of. cbn [Dayjs.wall]. f_equal.
  replace ((D * 1440 + t) * 60000) with (D * 86400000 + t * 60000) by lia.
  rewrite Z.div_add_l by lia. rewrite Z.div_small by lia. lia.
Qed.

(** The date of the [k]-th weekly occurrence of a start at [d], [t]. *)
Lemma weekly_date (d : Calendar.CivilDate) (t : Z) (zone : string) (k : Z) :
  0 <= t < 1440 ->
  Dayjs.format_date (Dayjs.add_week (Dayjs.tz (Some d) (Some t) zone) k)
  = Some (Calendar.add_days d (7 * k)).
Proof.
  intros Ht. unfold Dayjs.tz, Dayjs.add_week, Dayjs.format_date.
  cbn [option_map]. f_equal.
  rewrite date_of_with_date, (date_of_local _ _ _ Ht).
  rewrite CalendarFacts.days_from_civil_add_days.
  rewrite CalendarFacts.days_from_civil_from_days. reflexivity.
Qed.

Lemma occurrence_weekly (toAdd : Event.t) (d : Calendar.CivilDate) (t : Z)
  (stamp k : Z) :
  Event.repeat toAdd = "weekly"%string ->
  0 <= t < 1440 ->
  occurrence toAdd (Dayjs.tz (Some d) (Some t) (Event.timezone toAdd)) stamp k
  = [Event.with_date (Event.with_id toAdd (Some (stamp + k)))
       (Some (Calendar.add_days d (7 * k)))].
Proof.
  intros Hrep Ht. unfold occurrence. rewrite Hrep.
  change ("weekly" =? "daily")%string with false.
  change ("weekly" =? "weekly")%string with true.
  change ("weekly" =? "monthly")%string with false.
  cbv iota. rewrite (weekly_date d t (Event.timezone toAdd) k Ht). reflexivity.
Qed.

(** C6.  An add of a draft that repeats weekly, once the draft itself
    has passed the guards (nothing is asked about the occurrences),
    appends the base and exactly five occurrences.  The [k]-th one
    ([k] = 1..5) is the base with a new id and the date [7 k] days after
    the base date, hence on the same day of the week; all its other
    fields, the time among them, are the base's.  With a clock that does
    not run backwards during the run, the six ids are pairwise distinct. *)
Theorem weekly_series (clock : nat -> Z) (st : State)
  (d : Calendar.CivilDate) (t : Z) :
  let draft := newEvent st in
  Event.title draft <> ""%string ->
  Event.date draft = Some d ->
  Event.time draft = Some t ->
  0 <= t < 1440 ->
  Event.repeat draft = "weekly"%string ->
  edit_truthy (editEventId st) = false ->
  checkConflicts draft (others st) = [] ->
  (forall j k, (j <= k)%nat -> clock j <= clock k) ->
  let toAdd := toAdd_of clock draft in
  let occ := fun k : nat =>
    Event.with_date (Event.with_id toAdd (Some (clock k + Z.of_nat k)))
      (Some (Calendar.add_days d (7 * Z.of_nat k))) in
  events (fst (handleAdd clock st))
  = events st ++ toAdd :: map occ [1; 2; 3; 4; 5]%nat
  /\ snd (handleAdd clock st) = Completed (Some toAdd)
  /\ NoDup (map Event.id (toAdd :: map occ [1; 2; 3; 4; 5]%nat))
  /\ (forall k : nat,
         Calendar.days_from_civil (Calendar.add_days d (7 * Z.of_nat k))
         = Calendar.days_from_civil d + 7 * Z.of_nat k
         /\ Calendar.weekday (Calendar.add_days d (7 * Z.of_nat k))
            = Calendar.weekday d
         /\ Event.time (occ k) = Some t
         /\ Event.with_date (Event.with_id (occ k) (Event.id toAdd))
              (Event.date toAdd) = toAdd).
Proof.
  intros draft Htitle Hdate Htime Ht Hrep Htruthy Hfree Hclock toAdd occ.
  assert (Hm : missing_required draft = false).
  { unfold missing_required. rewrite Hdate, Htime. simpl.
    rewrite !orb_false_r. apply String.eqb_neq. exact Htitle. }
  destruct (handleAdd_add clock st Hm Hfree Htruthy) as [Hev Hout].
  assert (Hnew : newEvents_of clock draft = toAdd :: map occ [1; 2; 3; 4; 5]%nat).
  { unfold newEvents_of. rewrite Hrep.
    change (negb ("weekly" =? "none")%string) with true. cbv iota.
    fold toAdd. f_equal. rewrite Hdate, Htime.
    assert (Hocc : forall k : nat,
               occurrence toAdd (Dayjs.tz (Some d) (Some t) (Event.timezone draft))
                 (clock k) (Z.of_nat k) = [occ k]).
    { intros k. apply (occurrence_weekly toAdd d t (clock k) (Z.of_nat k));
        [exact Hrep|exact Ht]. }
    cbn [seq flat_map map]. rewrite !Hocc. reflexivity. }
  split; [rewrite Hev; f_equal; exact Hnew|].
  split; [exact Hout|]. split.
  - pose proof (Hclock 0%nat 1%nat ltac:(lia)).
    pose proof (Hclock 1%nat 2%nat ltac:(lia)).
    pose proof (Hclock 2%nat 3%nat ltac:(lia)).
    pose proof (Hclock 3%nat 4%nat ltac:(lia)).
    pose proof (Hclock 4%nat 5%nat ltac:(lia)).
    cbn [map Event.id occ toAdd toAdd_of Event.with_id Event.with_date
           Event.with_status].
    repeat (constructor;
            [cbn [In]; intros Hin;
             repeat (destruct Hin as [Hin|Hin]; [inversion Hin; lia|]);
             exact Hin|]).
    constructor.
  - intros k. split; [apply CalendarFacts.days_from_civil_add_days|].
    split; [apply CalendarFacts.weekday_add_weeks|].
    split; [exact Htime|].
    reflexivity.
Qed.

End Properties.

(** * Further properties *)

Module CivilValidFacts.
Import Calendar CalendarFacts CivilValid.

Lemma civil_roundtrip_all :
  forall idx, 0 <= idx < 148800 -> civil_roundtrip idx = true.
Proof.
  intros idx H.
  apply (@all_from_spec civil_roundtrip (Z.to_nat 148800) 0).
  - vm_cast_no_check (@eq_refl bool true).
  - lia.
Qed.

Lemma is_leap_period (y k : Z) : is_leap (y + k * 400) = is_leap y.
Proof.
  unfold is_leap.
  replace ((y + k * 400) mod 4) with (y mod 4)
    by (replace (k * 400) with (k * 100 * 4) by lia; symmetry; apply Z.mod_add; lia).
  replace ((y + k * 400) mod 100) with (y mod 100)
    by (replace (k * 400) with (k * 4 * 100) by lia; symmetry; apply Z.mod_add; lia).
  replace ((y + k * 400) mod 400) with (y mod 400)
    by (symmetry; apply Z.mod_add; lia).
  reflexivity.
Qed.

Lemma days_in_month_period (y k m : Z) :
  days_in_month (y + k * 400) m = days_in_month y m.
Proof. unfold days_in_month. rewrite is_leap_period. reflexivity. Qed.

Lemma days_in_month_bounds (y m : Z) : 28 <= days_in_month y m <= 31.
Proof.
  unfold days_in_month.
  destruct (m =? 2); [destruct (is_leap y); lia|].
  destruct ((m =? 4) || (m =? 6) || (m =? 9) || (m =? 11)); lia.
Qed.

(** Converting a well-formed date to its day number and back gives the
    date. *)
Lemma civil_from_days_from_civil (c : CivilDate) :
  valid_date c -> civil_from_days (days_from_civil c) = c.
Proof.
  destruct c as [y m d]. unfold valid_date. cbn [year month day].
  intros [Hm Hd].
  pose proof (days_in_month_bounds y m) as Hdim.
  set (y' := if m <=? 2 then y - 1 else y).
  set (era := y' / 400).
  set (yoe := y' - era * 400).
  assert (Hyoe : 0 <= yoe < 400).
  { unfold yoe, era.
    pose proof (Z.div_mod y' 400 ltac:(lia)).
    pose proof (Z.mod_pos_bound y' 400 ltac:(lia)). lia. }
  set (idx := yoe * 372 + (m - 1) * 31 + (d - 1)).
  assert (Hq : idx / 372 = yoe).
  { unfold idx. symmetry. apply (Z.div_unique _ 372 yoe ((m - 1) * 31 + (d - 1))); lia. }
  assert (Hr : idx mod 372 = (m - 1) * 31 + (d - 1)).
  { unfold idx. symmetry. apply (Z.mod_unique _ 372 yoe); lia. }
  assert (Hmq : ((m - 1) * 31 + (d - 1)) / 31 = m - 1).
  { symmetry. apply (Z.div_unique _ 31 (m - 1) (d - 1)); lia. }
  assert (Hdr : idx mod 31 = d - 1).
  { unfold idx. symmetry. apply (Z.mod_unique _ 31 (yoe * 12 + (m - 1))); lia. }
  pose proof (civil_roundtrip_all idx ltac:(unfold idx; lia)) as Hc.
  unfold civil_roundtrip in Hc. rewrite Hq, Hr, Hmq, Hdr in Hc.
  replace (m - 1 + 1) with m in Hc by lia.
  replace (d - 1 + 1) with d in Hc by lia.
  assert (Hly : days_in_month (if m <=? 2 then yoe + 1 else yoe) m
                = days_in_month y m).
  { rewrite <- (days_in_month_period _ era m). f_equal.
    unfold yoe, y'. destruct (m <=? 2); lia. }
  rewrite Hly in Hc.
  destruct (Z.leb_spec d (days_in_month y m)) as [_|Hbad]; [|lia].
  apply andb_prop in Hc. destruct Hc as [Hc Htri].
  apply andb_prop in Hc. destruct Hc as [Hlo Hhi].
  apply Z.leb_le in Hlo. apply Z.ltb_lt in Hhi.
  unfold days_from_civil. cbn [year month day]. fold y'. fold era. fold yoe.
  change (yoe * 365 + yoe / 4 - yoe / 100
          + ((153 * ((m + 9) mod 12) + 2) / 5 + d - 1))
    with (doe_of yoe m d).
  set (doe := doe_of yoe m d) in *.
  unfold civil_from_days.
  replace (era * 146097 + doe - 719468 + 719468) with (doe + era * 146097) by lia.
  rewrite Z.div_add by lia. rewrite (Z.div_small doe) by lia.
  replace (doe + era * 146097 - (0 + era) * 146097) with doe by lia.
  destruct (civil_of_doe doe) as [[yoe2 m2] d2].
  apply andb_prop in Htri. destruct Htri as [Htri Hd2].
  apply andb_prop in Htri. destruct Htri as [Hy2 Hm2].
  apply Z.eqb_eq in Hy2. apply Z.eqb_eq in Hm2. apply Z.eqb_eq in Hd2.
  subst yoe2 m2 d2. f_equal.
  unfold yoe, y'. destruct (m <=? 2); lia.
Qed.

End CivilValidFacts.

Section MoreProperties.
Context `{ZoneRules}.

(** ** More on conflict detection *)

Lemma filter_refines {A : Type} (p q : A -> bool) (l : list A) :
  (forall x, p x = true -> q x = true) ->
  filter p (filter q l) = filter p l.
Proof.
  intros Hpq. induction l as [|x l IH]; [reflexivity|].
  simpl. destruct (q x) eqn:Hq; simpl.
  - rewrite IH. reflexivity.
  - destruct (p x) eqn:Hp; [|exact IH].
    rewrite (Hpq x Hp) in Hq. discriminate.
Qed.

(** X1.  [checkConflicts] works event by event: on a concatenation it
    gives the concatenation of the results, so the conflicts come in the
    order of the list, at most one per event, and none for no event. *)
Theorem checkConflicts_in_list_order (c : Event.t) (l1 l2 : list Event.t) :
  checkConflicts c (l1 ++ l2) = checkConflicts c l1 ++ checkConflicts c l2
  /\ checkConflicts c [] = []
  /\ (List.length (checkConflicts c l1) <= List.length l1)%nat
  /\ (forall k, In k (checkConflicts c l1) ->
        exists evt, In evt l1 /\ conflictWith k = Event.title evt).
Proof.
  split; [apply checkConflicts_app|]. split; [reflexivity|]. split.
  - rewrite checkConflicts_filter, length_map. apply filter_length_le.
  - intros k Hk. rewrite checkConflicts_filter in Hk.
    apply in_map_iff in Hk. destruct Hk as (evt & Hk & Hin).
    apply filter_In in Hin. exists evt. split; [tauto|].
    subst k. reflexivity.
Qed.

Lemma candidate_without_window (c : Event.t) (l : list Event.t) :
  Event.buffer c = None ->
  checkConflicts c l = [].
Proof.
  intros Hb. apply checkConflicts_nil_iff. intros evt _.
  unfold clashes, candidate_end, num_add.
  destruct (id_eqb (Event.id evt) (Event.id c)); [reflexivity|].
  rewrite Hb. cbn [negb andb option_map].
  destruct (candidate_start c); cbn [Dayjs.add_minute Dayjs.isAfter];
    apply andb_false_r.
Qed.

(** X2.  A candidate without a buffer has no window end: the sum of its
    duration and buffer is [NaN] and the end an invalid date.  Whatever
    the list, nothing is reported for it, and a draft without a buffer
    is never stopped by the conflict guard of [handleAdd]. *)
Theorem checkConflicts_candidate_without_window (c : Event.t)
  (l : list Event.t) :
  Event.buffer c = None ->
  checkConflicts c l = []
  /\ (forall clock st errs,
         newEvent st = c ->
         snd (handleAdd clock st) <> ReturnedConflicts errs).
Proof.
  intros Hb. split; [exact (candidate_without_window c l Hb)|].
  intros clock st errs Hdraft.
  destruct (handleAdd_cases clock st) as [(_ & E)|[(_ & Hne & _)|(_ & _ & n & E)]].
  - rewrite E. discriminate.
  - exfalso. apply Hne. rewrite Hdraft.
    exact (candidate_without_window c (others st) Hb).
  - rewrite E. discriminate.
Qed.

(** X3.  Events that carry the candidate's id are never reported:
    dropping them from the list does not change the result.  For a
    candidate without an id, as a fresh draft and the candidate of the
    availability search are, these are the events without an id. *)
Theorem checkConflicts_skips (c : Event.t) (l : list Event.t) :
  checkConflicts c l = checkConflicts c (filter (other_id c) l)
  /\ (forall evt, Event.id evt = Event.id c -> checkConflicts c [evt] = [])
  /\ (Event.id c = None ->
      checkConflicts c l
      = checkConflicts c (filter (fun evt => negb (is_none (Event.id evt))) l)).
Proof.
  assert (Himp : forall evt, clashes c evt = true -> other_id c evt = true).
  { intros evt Hcl. unfold clashes in Hcl. unfold other_id.
    apply andb_prop in Hcl. tauto. }
  split; [|split].
  - rewrite !checkConflicts_filter. rewrite filter_refines; [reflexivity|].
    exact Himp.
  - intros evt Hid. rewrite checkConflicts_one. unfold clashes.
    rewrite Hid. replace (id_eqb (Event.id c) (Event.id c)) with true;
      [reflexivity|].
    symmetry. apply id_eqb_eq. reflexivity.
  - intros Hnone. rewrite !checkConflicts_filter.
    rewrite filter_refines; [reflexivity|].
    intros evt Hcl. apply Himp in Hcl. unfold other_id in Hcl.
    rewrite Hnone in Hcl. destruct (Event.id evt); [reflexivity|discriminate].
Qed.

(** X4.  Between two events with different ids whose buffers are both
    present and not zero, the verdict does not depend on which of the
    two is the candidate. *)
Theorem checkConflicts_symmetric (a b : Event.t) (ba bb : Z) :
  Event.id a <> Event.id b ->
  Event.buffer a = Some ba -> ba <> 0 ->
  Event.buffer b = Some bb -> bb <> 0 ->
  (checkConflicts a [b] = [] <-> checkConflicts b [a] = [])
  /\ (checkConflicts a [b] = [mkConflict (Event.title b)]
      <-> checkConflicts b [a] = [mkConflict (Event.title a)]).
Proof.
  intros Hid Ha Hza Hb Hzb.
  assert (Hsym : clashes a b = clashes b a).
  { unfold clashes, candidate_end, candidate_start, existing_end,
      existing_start, num_add.
    rewrite Ha, Hb. cbn [option_map or_default].
    destruct (Z.eqb_spec ba 0); [contradiction|].
    destruct (Z.eqb_spec bb 0); [contradiction|].
    assert (Hi1 : id_eqb (Event.id b) (Event.id a) = false)
      by (apply id_eqb_neq; congruence).
    assert (Hi2 : id_eqb (Event.id a) (Event.id b) = false)
      by (apply id_eqb_neq; congruence).
    rewrite Hi1, Hi2. cbn [negb andb].
    destruct (Dayjs.tz (Event.date a) (Event.time a) (Event.timezone a))
      as [da|];
    destruct (Dayjs.tz (Event.date b) (Event.time b) (Event.timezone b))
      as [db|]; cbn [Dayjs.add_minute Dayjs.isBefore Dayjs.isAfter];
      try reflexivity.
    unfold Dayjs.valueOf. cbn [Dayjs.wall Dayjs.offset].
    apply andb_comm. }
  rewrite !checkConflicts_one, Hsym.
  destruct (clashes b a); split; split; intros E;
    try reflexivity; try discriminate.
Qed.

(** ** More on the availability search *)

Lemma steps_left_fits (st : State) (end_ cursor : Dayjs.t) :
  slot_fits st end_ cursor = true ->
  steps_left st end_ cursor = S (steps_left st end_ (step_minutes cursor 30)).
Proof.
  unfold slot_fits, Dayjs.add_minute, Dayjs.isBefore, Dayjs.isSame.
  unfold steps_left, step_minutes, Dayjs.valueOf.
  cbn [Dayjs.wall Dayjs.offset]. intros Hfits.
  apply orb_prop in Hfits.
  assert (Hle : Dayjs.wall cursor + Event.duration (newEvent st) * 60000
                - Dayjs.offset cursor * 60000
                <= Dayjs.wall end_ - Dayjs.offset end_ * 60000).
  { destruct Hfits as [E|E]; [apply Z.ltb_lt in E|apply Z.eqb_eq in E]; lia. }
  zify. Z.div_mod_to_equations. lia.
Qed.

Lemma steps_left_done (st : State) (end_ cursor : Dayjs.t) :
  slot_fits st end_ cursor = false -> steps_left st end_ cursor = 0%nat.
Proof.
  unfold slot_fits, Dayjs.add_minute, Dayjs.isBefore, Dayjs.isSame.
  unfold steps_left, Dayjs.valueOf.
  cbn [Dayjs.wall Dayjs.offset]. intros Hfits.
  apply orb_false_elim in Hfits. destruct Hfits as [E1 E2].
  apply Z.ltb_ge in E1. apply Z.eqb_neq in E2.
  zify. Z.div_mod_to_equations. lia.
Qed.

(** The scan is greedy: it returns the first six of the times it passes
    that are free of conflicts, after what it was given. *)
Lemma slot_scan_greedy (st : State) (date : Calendar.CivilDate)
  (end_ cursor : Dayjs.t) (slots : list Z) :
  (List.length slots < 6)%nat ->
  slot_scan st date end_ cursor slots
  = firstn 6
      (slots ++ filter (slot_free st date)
                  (map (fun i => cursor_time (step_minutes cursor (30 * Z.of_nat i)))
                     (seq 0 (steps_left st end_ cursor)))).
Proof.
  funelim (slot_scan st date end_ cursor slots); intros Hlen.
  - clear Heqcall.
    rewrite (steps_left_fits st end_ cursor Hfits).
    cbn [seq map].
    assert (Hzero : cursor_time (step_minutes cursor (30 * Z.of_nat 0))
                    = cursor_time cursor).
    { unfold cursor_time, step_minutes. cbn [Dayjs.wall].
      f_equal. f_equal. lia. }
    rewrite Hzero.
    rewrite <- seq_shift, map_map.
    rewrite (map_ext
               (fun x => cursor_time (step_minutes cursor (30 * Z.of_nat (S x))))
               (fun i => cursor_time
                           (step_minutes (step_minutes cursor 30)
                              (30 * Z.of_nat i)))).
    2:{ intros i. unfold cursor_time, step_minutes. cbn [Dayjs.wall].
        f_equal. f_equal. lia. }
    cbn [filter]. unfold slot_free at 1.
    change (Dayjs.format_HHmm (Some cursor)) with (Some (cursor_time cursor)) in *.
    change ((Dayjs.wall cursor / 60000) mod 1440) with (cursor_time cursor) in *.
    destruct (List.length
                (checkConflicts (slot_test st date (Some (cursor_time cursor)))
                   (events st)) =? 0)%nat.
    + destruct (6 <=? List.length (slots ++ [cursor_time cursor]))%nat eqn:Hsix.
      * apply Nat.leb_le in Hsix. rewrite length_app in Hsix.
        cbn [List.length] in Hsix.
        rewrite firstn_app, firstn_all2 by lia.
        replace (6 - List.length slots)%nat with 1%nat by lia.
        reflexivity.
      * apply Nat.leb_gt in Hsix.
        match goal with
        | IH : (_ < 6)%nat -> slot_scan _ _ _ _ _ = _ |- _ => rewrite (IH Hsix)
        end.
        rewrite <- app_assoc. reflexivity.
    + destruct (6 <=? List.length slots)%nat eqn:Hsix.
      * apply Nat.leb_le in Hsix. lia.
      * match goal with
        | IH : (_ < 6)%nat -> slot_scan _ _ _ _ _ = _ |- _ => rewrite (IH Hlen)
        end.
        reflexivity.
  - match goal with
    | E : slot_fits _ _ _ = false |- _ => rewrite (steps_left_done st end_ cursor E)
    end.
    cbn [seq map filter]. rewrite app_nil_r.
    symmetry. apply firstn_all2. lia.
Qed.

Lemma grid_size_bound (duration : Z) (i : nat) :
  (i < grid_size duration)%nat -> 30 * Z.of_nat i <= 480 - duration.
Proof.
  unfold grid_size. intros Hi.
  assert (Hq : Z.of_nat i < (480 - duration) / 30 + 1) by lia.
  pose proof (Z.div_mod (480 - duration) 30 ltac:(lia)) as Hdm.
  pose proof (Z.mod_pos_bound (480 - duration) 30 ltac:(lia)) as Hb.
  lia.
Qed.

Lemma generateAvailabilities_filter (st : State) (date : Calendar.CivilDate) :
  0 <= Event.duration (newEvent st) ->
  generateAvailabilities st date
  = firstn 6 (filter (slot_free st date) (grid (Event.duration (newEvent st)))).
Proof.
  intros Hdur. unfold generateAvailabilities. rewrite getWorkWindow_value.
  set (D := Calendar.days_from_civil date).
  set (off := zoneOffset (Event.timezone (newEvent st)) (D * 1440 * 60000)).
  cbv iota beta.
  rewrite slot_scan_greedy by (cbn; lia).
  cbn [app]. f_equal. f_equal.
  assert (Hsteps : steps_left st (Dayjs.mk (D * 86400000 + 61200000) off)
                     (Dayjs.mk (D * 86400000 + 32400000) off)
                   = grid_size (Event.duration (newEvent st))).
  { unfold steps_left, grid_size, Dayjs.valueOf. cbn [Dayjs.wall Dayjs.offset].
    f_equal. f_equal.
    replace (D * 86400000 + 61200000 - off * 60000
             - (D * 86400000 + 32400000 - off * 60000)
             - Event.duration (newEvent st) * 60000)
      with (60000 * (480 - Event.duration (newEvent st))) by lia.
    change 1800000 with (60000 * 30).
    apply Z.div_mul_cancel_l; lia. }
  rewrite Hsteps. unfold grid. apply map_ext_in.
  intros i Hi. apply in_seq in Hi.
  pose proof (grid_size_bound (Event.duration (newEvent st)) i ltac:(lia)) as Hb.
  unfold cursor_time, step_minutes. cbn [Dayjs.wall].
  replace (D * 86400000 + 32400000 + 30 * Z.of_nat i * 60000)
    with ((540 + 30 * Z.of_nat i + D * 1440) * 60000) by lia.
  rewrite Z.div_mul by lia. rewrite Z.mod_add by lia.
  apply Z.mod_small. lia.
Qed.

(** X5.  For a draft with a non-negative duration the availability
    search is exactly the greedy one: of the half-hours from 09:00 on
    that leave room for the duration before 17:00, in order, it returns
    the first six whose candidate has no conflict (all of them, if they
    are fewer). *)
Theorem generateAvailabilities_greedy (st : State) (date : Calendar.CivilDate) :
  0 <= Event.duration (newEvent st) ->
  generateAvailabilities st date
  = firstn 6 (filter (slot_free st date) (grid (Event.duration (newEvent st)))).
Proof. exact (generateAvailabilities_filter st date). Qed.

Lemma filter_all {A : Type} (p : A -> bool) (l : list A) :
  (forall x, In x l -> p x = true) -> filter p l = l.
Proof.
  intros Hall. apply forallb_filter_id. apply forallb_forall. exact Hall.
Qed.

Lemma unfiltered_search (st : State) (date : Calendar.CivilDate) :
  0 <= Event.duration (newEvent st) ->
  events st = [] \/ Event.buffer (newEvent st) = None ->
  generateAvailabilities st date
  = firstn 6 (grid (Event.duration (newEvent st))).
Proof.
  intros Hdur Hfree.
  rewrite generateAvailabilities_filter by exact Hdur. f_equal.
  apply filter_all. intros t _. unfold slot_free.
  destruct Hfree as [Hnone|Hnobuf].
  - rewrite Hnone. reflexivity.
  - rewrite candidate_without_window; [reflexivity|exact Hnobuf].
Qed.

Lemma first_six_half_hours (duration : Z) :
  0 <= duration <= 330 ->
  firstn 6 (grid duration) = [540; 570; 600; 630; 660; 690].
Proof.
  intros Hdur. unfold grid, grid_size.
  assert (Hsix : exists n, Z.to_nat ((480 - duration) / 30 + 1) = (6 + n)%nat).
  { exists (Z.to_nat ((480 - duration) / 30 + 1) - 6)%nat.
    pose proof (Z.div_mod (480 - duration) 30 ltac:(lia)).
    pose proof (Z.mod_pos_bound (480 - duration) 30 ltac:(lia)).
    lia. }
  destruct Hsix as [n Hn]. rewrite Hn.
  rewrite seq_app, map_app, firstn_app.
  rewrite firstn_all2 by (rewrite length_map, length_seq; lia).
  rewrite length_map, length_seq. cbn [Nat.sub firstn].
  rewrite app_nil_r. reflexivity.
Qed.

(** X6.  The two ends of the search.  A draft longer than the eight
    hours of the work window gets no slot.  With no stored event, or
    with a draft that has no buffer (and so no conflict window), nothing
    is filtered out: the result is the first six half-hours that fit,
    which for a duration up to 330 minutes are 09:00 to 11:30. *)
Theorem generateAvailabilities_ends (st : State) (date : Calendar.CivilDate) :
  (480 < Event.duration (newEvent st) -> generateAvailabilities st date = [])
  /\ (0 <= Event.duration (newEvent st) ->
      events st = [] \/ Event.buffer (newEvent st) = None ->
      generateAvailabilities st date
      = firstn 6 (grid (Event.duration (newEvent st)))
      /\ (Event.duration (newEvent st) <= 330 ->
          generateAvailabilities st date = [540; 570; 600; 630; 660; 690])).
Proof.
  split.
  - intros Hlong. rewrite generateAvailabilities_filter by lia.
    unfold grid, grid_size.
    replace (Z.to_nat ((480 - Event.duration (newEvent st)) / 30 + 1)) with 0%nat;
      [reflexivity|].
    pose proof (Z.div_mod (480 - Event.duration (newEvent st)) 30 ltac:(lia)).
    pose proof (Z.mod_pos_bound (480 - Event.duration (newEvent st)) 30 ltac:(lia)).
    lia.
  - intros Hdur Hfree.
    pose proof (unfiltered_search st date Hdur Hfree) as Hall.
    split; [exact Hall|].
    intros Hshort. rewrite Hall. apply first_six_half_hours. lia.
Qed.

Lemma clashes_same_window (c c' evt : Event.t) :
  Event.date c' = Event.date c ->
  Event.time c' = Event.time c ->
  Event.timezone c' = Event.timezone c ->
  Event.duration c' = Event.duration c ->
  Event.buffer c' = Event.buffer c ->
  Event.id c = None ->
  Event.id evt <> None ->
  clashes c evt = false ->
  clashes c' evt = false.
Proof.
  unfold clashes, candidate_end, candidate_start.
  intros Hd Ht Hz Hdu Hb Hidc Hide. rewrite Hd, Ht, Hz, Hdu, Hb, Hidc.
  assert (Hne : id_eqb (Event.id evt) None = false)
    by (apply id_eqb_neq; exact Hide).
  rewrite Hne. cbn [negb andb]. intros Hw. rewrite Hw. apply andb_false_r.
Qed.

(** X7.  A time the availability search offers is accepted: when every
    stored event has an id, the draft has a title and the date the
    search was run for, and the user picks an offered time, [handleAdd]
    finds no conflict and completes, in add mode and in edit mode. *)
Theorem offered_slot_is_accepted (clock : nat -> Z) (st : State)
  (date : Calendar.CivilDate) (t : Z) :
  (forall evt, In evt (events st) -> Event.id evt <> None) ->
  Event.title (newEvent st) <> ""%string ->
  Event.date (newEvent st) = Some date ->
  In t (generateAvailabilities st date) ->
  checkConflicts (newEvent (pickTime t st)) (others (pickTime t st)) = []
  /\ exists n, snd (handleAdd clock (pickTime t st)) = Completed n.
Proof.
  intros Hids Htitle Hdate Hin.
  assert (Hfree : checkConflicts (newEvent (pickTime t st)) (others (pickTime t st))
                  = []).
  { apply checkConflicts_nil_iff. intros evt Hevt.
    unfold others in Hevt. apply filter_In in Hevt. destruct Hevt as [Hevt _].
    change (events (pickTime t st)) with (events st) in Hevt.
    pose proof (generateAvailabilities_free st date t Hin) as Hslot.
    pose proof (proj1 (checkConflicts_nil_iff _ _) Hslot evt Hevt) as Hno.
    apply (clashes_same_window (slot_test st date (Some t))
             (newEvent (pickTime t st)) evt);
      try reflexivity; try assumption.
    apply Hids. exact Hevt. }
  split; [exact Hfree|].
  assert (Hm : missing_required (newEvent (pickTime t st)) = false).
  { unfold missing_required, pickTime. cbn.
    rewrite Hdate. cbn. rewrite !orb_false_r.
    apply String.eqb_neq. exact Htitle. }
  destruct (handleAdd_cases clock (pickTime t st))
    as [(Hm' & _)|[(_ & Hne & _)|(_ & _ & Hdone)]].
  - congruence.
  - contradiction.
  - exact Hdone.
Qed.

(** ** More on [handleAdd] *)

(** X8.  What a completed run leaves in the form: it is closed, the
    conflicts and the attendee input are cleared, and the draft keeps
    every field but its title and attendees, so its date and time stay.
    The notifications, the availabilities and a pending delete are not
    touched; [editEventId] is reset by an edit and kept by an add.  With
    its title gone, the draft stops at the required-field guard: a
    second run right after changes nothing. *)
Theorem handleAdd_completed_form (clock clock' : nat -> Z) (st : State)
  (n : option Event.t) :
  snd (handleAdd clock st) = Completed n ->
  let st' := fst (handleAdd clock st) in
  showForm st' = false
  /\ conflicts st' = []
  /\ attendeeInput st' = ""%string
  /\ newEvent st'
     = Event.with_attendees (Event.with_title (newEvent st) "") []
  /\ reminders st' = reminders st
  /\ availabilities st' = availabilities st
  /\ eventToDelete st' = eventToDelete st
  /\ showDeleteConfirm st' = showDeleteConfirm st
  /\ editEventId st'
     = (if edit_truthy (editEventId st) then Null else editEventId st)
  /\ handleAdd clock' st' = (st', ReturnedMissingField).
Proof.
  intros Hdone st'.
  destruct (handleAdd_cases clock st) as [(_ & E)|[(_ & _ & E)|(Hm & He & _)]];
    try (rewrite E in Hdone; discriminate).
  assert (Hst : st' = fst (handleAdd clock st)) by reflexivity.
  unfold handleAdd in Hst. rewrite Hm, He in Hst. cbn [List.length Nat.eqb negb] in Hst.
  repeat split; rewrite Hst; destruct (edit_truthy (editEventId st)); reflexivity.
Qed.

Lemma occurrence_single (toAdd : Event.t) (base : option Dayjs.t)
  (stamp i : Z) :
  recurring toAdd = true ->
  exists date,
    occurrence toAdd base stamp i
    = [Event.with_date (Event.with_id toAdd (Some (stamp + i))) date].
Proof.
  unfold recurring, occurrence. intros Hrec.
  destruct (Event.repeat toAdd =? "monthly")%string;
    [eexists; reflexivity|].
  destruct (Event.repeat toAdd =? "weekly")%string;
    [eexists; reflexivity|].
  destruct (Event.repeat toAdd =? "daily")%string;
    [eexists; reflexivity|discriminate].
Qed.

Lemma occurrence_none (toAdd : Event.t) (base : option Dayjs.t)
  (stamp i : Z) :
  recurring toAdd = false -> occurrence toAdd base stamp i = [].
Proof.
  unfold recurring, occurrence. intros Hrec.
  apply orb_false_elim in Hrec. destruct Hrec as [Hrec Hm].
  apply orb_false_elim in Hrec. destruct Hrec as [Hd Hw].
  rewrite Hd, Hw, Hm. reflexivity.
Qed.

Lemma newEvents_shape (clock : nat -> Z) (draft : Event.t) :
  let toAdd := toAdd_of clock draft in
  if recurring draft
  then exists d1 d2 d3 d4 d5,
      newEvents_of clock draft
      = [toAdd;
         Event.with_date (Event.with_id toAdd (Some (clock 1%nat + 1))) d1;
         Event.with_date (Event.with_id toAdd (Some (clock 2%nat + 2))) d2;
         Event.with_date (Event.with_id toAdd (Some (clock 3%nat + 3))) d3;
         Event.with_date (Event.with_id toAdd (Some (clock 4%nat + 4))) d4;
         Event.with_date (Event.with_id toAdd (Some (clock 5%nat + 5))) d5]
  else newEvents_of clock draft = [toAdd].
Proof.
  intros toAdd. unfold newEvents_of. fold toAdd.
  assert (Hrep : recurring toAdd = recurring draft) by reflexivity.
  destruct (recurring draft) eqn:Hrec.
  - assert (Hnone : (Event.repeat draft =? "none")%string = false).
    { unfold recurring in Hrec.
      destruct (String.eqb_spec (Event.repeat draft) "none") as [E|_];
        [|reflexivity].
      rewrite E in Hrec. discriminate. }
    rewrite Hnone. cbn [negb seq flat_map].
    set (base := Dayjs.tz (Event.date draft) (Event.time draft)
                   (Event.timezone draft)).
    destruct (occurrence_single toAdd base (clock 1%nat) (Z.of_nat 1) Hrep) as [d1 E1].
    destruct (occurrence_single toAdd base (clock 2%nat) (Z.of_nat 2) Hrep) as [d2 E2].
    destruct (occurrence_single toAdd base (clock 3%nat) (Z.of_nat 3) Hrep) as [d3 E3].
    destruct (occurrence_single toAdd base (clock 4%nat) (Z.of_nat 4) Hrep) as [d4 E4].
    destruct (occurrence_single toAdd base (clock 5%nat) (Z.of_nat 5) Hrep) as [d5 E5].
    rewrite E1, E2, E3, E4, E5.
    exists d1, d2, d3, d4, d5. reflexivity.
  - destruct (negb (Event.repeat draft =? "none")%string); [|reflexivity].
    cbn [seq flat_map]. rewrite !occurrence_none by exact Hrep. reflexivity.
Qed.

(** X9.  The series [handleAdd] builds: six events when the draft
    repeats daily, weekly or monthly, and the base alone otherwise, also
    for a [repeat] that is neither of these nor "none".  The base is
    first, with the status "confirmed"; every member is the base up to
    its id and date. *)
Theorem newEvents_series (clock : nat -> Z) (draft : Event.t) :
  let toAdd := toAdd_of clock draft in
  List.length (newEvents_of clock draft)
  = (if recurring draft then 6%nat else 1%nat)
  /\ hd_error (newEvents_of clock draft) = Some toAdd
  /\ Event.status toAdd = Some "confirmed"%string
  /\ Forall (fun e => Event.with_date (Event.with_id e (Event.id toAdd))
                        (Event.date toAdd) = toAdd)
       (newEvents_of clock draft).
Proof.
  intros toAdd. pose proof (newEvents_shape clock draft) as Hshape.
  cbv zeta in Hshape. fold toAdd in Hshape.
  destruct (recurring draft).
  - destruct Hshape as (d1 & d2 & d3 & d4 & d5 & E). rewrite E.
    split; [reflexivity|]. split; [reflexivity|]. split; [reflexivity|].
    repeat constructor.
  - rewrite Hshape.
    split; [reflexivity|]. split; [reflexivity|]. split; [reflexivity|].
    repeat constructor.
Qed.

(** ** Daily and monthly recurrence *)

Lemma daily_date (d : Calendar.CivilDate) (t : Z) (zone : string) (k : Z) :
  0 <= t < 1440 ->
  Dayjs.format_date (Dayjs.add_day (Dayjs.tz (Some d) (Some t) zone) k)
  = Some (Calendar.add_days d k).
Proof.
  intros Ht. unfold Dayjs.tz, Dayjs.add_day, Dayjs.format_date.
  cbn [option_map]. f_equal.
  rewrite date_of_with_date, (date_of_local _ _ _ Ht).
  rewrite CalendarFacts.days_from_civil_add_days.
  rewrite CalendarFacts.days_from_civil_from_days. reflexivity.
Qed.

Lemma add_months_valid (d : Calendar.CivilDate) (k : Z) :
  CivilValid.valid_date d -> CivilValid.valid_date (Calendar.add_months d k).
Proof.
  unfold CivilValid.valid_date, Calendar.add_months.
  cbn [Calendar.year Calendar.month Calendar.day]. intros [Hm Hd].
  pose proof (Z.mod_pos_bound (Calendar.month d - 1 + k) 12 ltac:(lia)) as Hb.
  pose proof (CivilValidFacts.days_in_month_bounds
                (Calendar.year d + (Calendar.month d - 1 + k) / 12)
                ((Calendar.month d - 1 + k) mod 12 + 1)) as Hdim.
  lia.
Qed.

Lemma monthly_date (d : Calendar.CivilDate) (t : Z) (zone : string) (k : Z) :
  CivilValid.valid_date d ->
  0 <= t < 1440 ->
  Dayjs.format_date (Dayjs.add_month (Dayjs.tz (Some d) (Some t) zone) k)
  = Some (Calendar.add_months d k).
Proof.
  intros Hv Ht. unfold Dayjs.tz, Dayjs.add_month, Dayjs.format_date.
  cbn [option_map]. f_equal.
  rewrite date_of_with_date, (date_of_local _ _ _ Ht).
  rewrite (CivilValidFacts.civil_from_days_from_civil d Hv).
  apply CivilValidFacts.civil_from_days_from_civil.
  apply add_months_valid. exact Hv.
Qed.

(** X10.  A draft that repeats daily, with a time of day, gives the
    base and five occurrences on the five days that follow the base
    date, whatever the month or year ends in between. *)
Theorem daily_series (clock : nat -> Z) (draft : Event.t)
  (d : Calendar.CivilDate) (t : Z) :
  Event.date draft = Some d ->
  Event.time draft = Some t ->
  0 <= t < 1440 ->
  Event.repeat draft = "daily"%string ->
  let toAdd := toAdd_of clock draft in
  let occ := fun k : nat =>
    Event.with_date (Event.with_id toAdd (Some (clock k + Z.of_nat k)))
      (Some (Calendar.add_days d (Z.of_nat k))) in
  newEvents_of clock draft = toAdd :: map occ [1; 2; 3; 4; 5]%nat
  /\ (forall k : nat,
         Calendar.days_from_civil (Calendar.add_days d (Z.of_nat k))
         = Calendar.days_from_civil d + Z.of_nat k).
Proof.
  intros Hdate Htime Ht Hrep toAdd occ. split.
  - unfold newEvents_of. rewrite Hrep.
    change (negb ("daily" =? "none")%string) with true. cbv iota.
    fold toAdd. f_equal. rewrite Hdate, Htime.
    assert (Hocc : forall k : nat,
               occurrence toAdd (Dayjs.tz (Some d) (Some t) (Event.timezone draft))
                 (clock k) (Z.of_nat k) = [occ k]).
    { intros k. unfold occurrence.
      replace (Event.repeat toAdd) with "daily"%string by (symmetry; exact Hrep).
      change ("daily" =? "daily")%string with true.
      change ("daily" =? "weekly")%string with false.
      change ("daily" =? "monthly")%string with false.
      cbv iota. rewrite (daily_date d t _ (Z.of_nat k) Ht). reflexivity. }
    cbn [seq flat_map map]. rewrite !Hocc. reflexivity.
  - intros k. apply CalendarFacts.days_from_civil_add_days.
Qed.

(** X11.  A draft that repeats monthly, with a well-formed date and a
    time of day, gives the base and five occurrences, the [k]-th one
    exactly [k] months after the base month, on the base's day of the
    month or, where that month is shorter, on its last day; each is
    computed from the base, so a short month does not pull the later
    ones forward. *)
Theorem monthly_series (clock : nat -> Z) (draft : Event.t)
  (d : Calendar.CivilDate) (t : Z) :
  Event.date draft = Some d ->
  CivilValid.valid_date d ->
  Event.time draft = Some t ->
  0 <= t < 1440 ->
  Event.repeat draft = "monthly"%string ->
  let toAdd := toAdd_of clock draft in
  let occ := fun k : nat =>
    Event.with_date (Event.with_id toAdd (Some (clock k + Z.of_nat k)))
      (Some (Calendar.add_months d (Z.of_nat k))) in
  newEvents_of clock draft = toAdd :: map occ [1; 2; 3; 4; 5]%nat
  /\ (forall k : Z,
         let c := Calendar.add_months d k in
         CivilValid.valid_date c
         /\ month_index c = month_index d + k
         /\ Calendar.day c
            = Z.min (Calendar.day d)
                (Calendar.days_in_month (Calendar.year c) (Calendar.month c))).
Proof.
  intros Hdate Hv Htime Ht Hrep toAdd occ. split.
  - unfold newEvents_of. rewrite Hrep.
    change (negb ("monthly" =? "none")%string) with true. cbv iota.
    fold toAdd. f_equal. rewrite Hdate, Htime.
    assert (Hocc : forall k : nat,
               occurrence toAdd (Dayjs.tz (Some d) (Some t) (Event.timezone draft))
                 (clock k) (Z.of_nat k) = [occ k]).
    { intros k. unfold occurrence.
      replace (Event.repeat toAdd) with "monthly"%string by (symmetry; exact Hrep).
      change ("monthly" =? "daily")%string with false.
      change ("monthly" =? "weekly")%string with false.
      change ("monthly" =? "monthly")%string with true.
      cbv iota. rewrite (monthly_date d t _ (Z.of_nat k) Hv Ht). reflexivity. }
    cbn [seq flat_map map]. rewrite !Hocc. reflexivity.
  - intros k c. split; [apply add_months_valid; exact Hv|].
    split; [|reflexivity].
    unfold c, month_index, Calendar.add_months.
    cbn [Calendar.year Calendar.month].
    pose proof (Z.div_mod (Calendar.month d - 1 + k) 12 ltac:(lia)). lia.
Qed.

(** ** The ids of the store *)

Lemma newEvents_ids (clock : nat -> Z) (draft : Event.t) :
  map Event.id (newEvents_of clock draft)
  = if recurring draft
    then [Some (clock 0%nat); Some (clock 1%nat + 1); Some (clock 2%nat + 2);
          Some (clock 3%nat + 3); Some (clock 4%nat + 4); Some (clock 5%nat + 5)]
    else [Some (clock 0%nat)].
Proof.
  pose proof (newEvents_shape clock draft) as Hshape. cbv zeta in Hshape.
  destruct (recurring draft).
  - destruct Hshape as (d1 & d2 & d3 & d4 & d5 & E). rewrite E. reflexivity.
  - rewrite Hshape. reflexivity.
Qed.

Lemma handleAdd_edit_ids (clock : nat -> Z) (st : State) :
  edit_truthy (editEventId st) = true ->
  map Event.id (events (fst (handleAdd clock st))) = map Event.id (events st).
Proof.
  intros Ht.
  destruct (handleAdd_cases clock st) as [(_ & E)|[(_ & _ & E)|(Hm & He & _)]];
    try (rewrite E; reflexivity).
  destruct (handleAdd_edit clock st Hm He Ht) as [Hev _].
  rewrite Hev, map_map. apply map_ext_in. intros e _.
  destruct (editEventId st) as [|v]; [discriminate|].
  cbn [edit_eqb edit_value].
  destruct (id_eqb (Event.id e) v) eqn:Hid; [|reflexivity].
  apply id_eqb_eq in Hid. symmetry. exact Hid.
Qed.

(** X12.  The three commands keep the ids of the store pairwise
    distinct.  An edit and a delete always do.  An add does when every
    stored id is below the first reading of the clock and the clock does
    not run backwards during the run (the new ids are [clock 0] and
    [clock k + k]). *)
Theorem store_ids_stay_distinct (clock : nat -> Z) (st : State) :
  NoDup (map Event.id (events st)) ->
  (edit_truthy (editEventId st) = true ->
   NoDup (map Event.id (events (fst (handleAdd clock st)))))
  /\ (edit_truthy (editEventId st) = false ->
      (forall e j, In e (events st) -> Event.id e = Some j -> j < clock 0%nat) ->
      (forall j k, (j <= k)%nat -> clock j <= clock k) ->
      NoDup (map Event.id (events (fst (handleAdd clock st)))))
  /\ (forall target st',
         confirmDelete (handleDelete target st) = Some st' ->
         NoDup (map Event.id (events st'))).
Proof.
  intros Hnd. split; [|split].
  - intros Ht. rewrite (handleAdd_edit_ids clock st Ht). exact Hnd.
  - intros Ht Hbelow Hclock.
    destruct (handleAdd_cases clock st) as [(_ & E)|[(_ & _ & E)|(Hm & He & _)]];
      try (rewrite E; exact Hnd).
    destruct (handleAdd_add clock st Hm He Ht) as [Hev _].
    rewrite Hev, map_app. apply NoDup_append; [exact Hnd| |].
    + rewrite newEvents_ids.
      pose proof (Hclock 0%nat 1%nat ltac:(lia)).
      pose proof (Hclock 1%nat 2%nat ltac:(lia)).
      pose proof (Hclock 2%nat 3%nat ltac:(lia)).
      pose proof (Hclock 3%nat 4%nat ltac:(lia)).
      pose proof (Hclock 4%nat 5%nat ltac:(lia)).
      destruct (recurring (newEvent st));
        repeat (constructor;
                [cbn [In]; intros Hin;
                 repeat (destruct Hin as [Hin|Hin]; [inversion Hin; lia|]);
                 exact Hin|]);
        constructor.
    + intros i Hold Hnew. apply in_map_iff in Hold.
      destruct Hold as (e & Hid & Hin).
      rewrite newEvents_ids in Hnew.
      pose proof (Hclock 0%nat 1%nat ltac:(lia)).
      pose proof (Hclock 0%nat 2%nat ltac:(lia)).
      pose proof (Hclock 0%nat 3%nat ltac:(lia)).
      pose proof (Hclock 0%nat 4%nat ltac:(lia)).
      pose proof (Hclock 0%nat 5%nat ltac:(lia)).
      destruct (recurring (newEvent st)); cbn [In] in Hnew;
        repeat (destruct Hnew as [Hnew|Hnew];
                [rewrite <- Hnew in Hid;
                 pose proof (Hbelow e _ Hin Hid) as Hlt; lia|]);
        exact Hnew.
  - intros target st' Hdel. unfold confirmDelete, handleDelete in Hdel.
    cbn [eventToDelete set_eventToDelete set_showDeleteConfirm] in Hdel.
    inversion Hdel as [Hst]. clear Hdel.
    match goal with
    | |- context [if ?b then _ else _] => destruct b
    end; cbn; apply NoDup_map_filter; exact Hnd.
Qed.

Lemma with_id_same (e : Event.t) : Event.with_id e (Event.id e) = e.
Proof. destruct e; reflexivity. Qed.

Lemma same_id_same_event (l : list Event.t) (x e : Event.t) :
  NoDup (map Event.id l) -> In x l -> In e l -> Event.id x = Event.id e ->
  x = e.
Proof.
  induction l as [|y l IH]; intros Hnd Hx He Hid; [destruct Hx|].
  inversion Hnd as [|i ids Hnotin Hrest]; subst.
  destruct Hx as [Hx|Hx], He as [He|He].
  - congruence.
  - subst y. exfalso. apply Hnotin. rewrite Hid. apply in_map. exact He.
  - subst y. exfalso. apply Hnotin. rewrite <- Hid. apply in_map. exact Hx.
  - apply IH; assumption.
Qed.

(** X13.  Opening a stored event for editing and saving it unchanged
    leaves the events as they were: the event is not checked against
    itself, so (with distinct ids, a non-zero id and no conflict with the
    other events) the run completes and puts the same event back in its
    place. *)
Theorem edit_unchanged_is_identity (clock : nat -> Z) (st : State)
  (e : Event.t) (i : Z) :
  NoDup (map Event.id (events st)) ->
  In e (events st) ->
  Event.id e = Some i ->
  i <> 0 ->
  missing_required e = false ->
  checkConflicts e (filter (fun x => negb (id_eqb (Event.id x) (Some i)))
                      (events st)) = [] ->
  snd (handleAdd clock (handleEdit e st)) = Completed None
  /\ events (fst (handleAdd clock (handleEdit e st))) = events st
  /\ editEventId (fst (handleAdd clock (handleEdit e st))) = Null.
Proof.
  intros Hnd Hin Hid Hi Hm Hfree.
  set (st1 := handleEdit e st).
  assert (Hedit : editEventId st1 = Editing (Some i))
    by (unfold st1, handleEdit; cbn; rewrite Hid; reflexivity).
  assert (Hdraft : newEvent st1 = e) by reflexivity.
  assert (Hevents : events st1 = events st) by reflexivity.
  assert (Ht : edit_truthy (editEventId st1) = true).
  { rewrite Hedit. cbn. destruct (Z.eqb_spec i 0); [contradiction|reflexivity]. }
  assert (Hm1 : missing_required (newEvent st1) = false) by exact Hm.
  assert (He1 : checkConflicts (newEvent st1) (others st1) = []).
  { unfold others. rewrite Hedit, Hdraft, Hevents. exact Hfree. }
  destruct (handleAdd_edit clock st1 Hm1 He1 Ht) as [Hev Hout].
  split; [exact Hout|]. split.
  - rewrite Hev, Hedit, Hdraft, Hevents. cbn [edit_eqb edit_value].
    apply map_unchanged. intros x Hx.
    destruct (id_eqb (Event.id x) (Some i)) eqn:Hxi; [|reflexivity].
    apply id_eqb_eq in Hxi. rewrite <- Hid, with_id_same.
    symmetry. apply (same_id_same_event (events st)); try assumption.
    congruence.
  - unfold handleAdd. rewrite Hm1, He1, Ht. reflexivity.
Qed.

(** X14.  An abandoned edit leaves the id of the edited event in the
    draft.  If the form is closed with its X, opened again and sent, the
    run is an add, and the draft is not checked against the event it
    came from, which has its id: when nothing else is in the way, a copy
    of the event is added under a new id, at the very time of the
    original. *)
Theorem abandoned_edit_adds_copy (clock : nat -> Z) (st : State)
  (e : Event.t) :
  In e (events st) ->
  missing_required e = false ->
  (forall x, In x (events st) -> Event.id x <> Event.id e ->
     checkConflicts e [x] = []) ->
  let st' := openForm (closeForm (handleEdit e st)) in
  checkConflicts (newEvent st') [e] = []
  /\ snd (handleAdd clock st') = Completed (Some (toAdd_of clock e))
  /\ events (fst (handleAdd clock st')) = events st ++ newEvents_of clock e
  /\ Event.date (toAdd_of clock e) = Event.date e
  /\ Event.time (toAdd_of clock e) = Event.time e.
Proof.
  intros Hin Hm Hothers st'.
  assert (Hself : checkConflicts e [e] = []).
  { rewrite checkConflicts_one. unfold clashes.
    assert (Hi : id_eqb (Event.id e) (Event.id e) = true)
      by (apply id_eqb_eq; reflexivity).
    rewrite Hi. reflexivity. }
  assert (Hdraft : newEvent st' = e) by reflexivity.
  assert (Hedit : editEventId st' = Null) by reflexivity.
  assert (Hevents : events st' = events st) by reflexivity.
  assert (He : checkConflicts (newEvent st') (others st') = []).
  { rewrite Hdraft. apply checkConflicts_nil_iff. intros x Hx.
    unfold others in Hx. apply filter_In in Hx. destruct Hx as [Hx _].
    rewrite Hevents in Hx.
    destruct (id_eqb (Event.id x) (Event.id e)) eqn:Hxe.
    - unfold clashes. rewrite Hxe. reflexivity.
    - apply id_eqb_neq in Hxe.
      pose proof (Hothers x Hx Hxe) as Hno.
      rewrite checkConflicts_one in Hno.
      destruct (clashes e x); [discriminate|reflexivity]. }
  split; [rewrite Hdraft; exact Hself|].
  destruct (handleAdd_add clock st' Hm He eq_refl) as [Hev Hout].
  split; [exact Hout|]. split; [exact Hev|]. split; reflexivity.
Qed.

(** ** Deleting *)

Lemma filter_out_one (l : list Event.t) (target : Event.t) :
  NoDup (map Event.id l) -> In target l ->
  (List.length (filter (fun e => negb (id_eqb (Event.id e) (Event.id target))) l)
   + 1 = List.length l)%nat.
Proof.
  induction l as [|y l IH]; intros Hnd Hin; [destruct Hin|].
  inversion Hnd as [|i ids Hnotin Hrest]; subst.
  cbn [filter List.length].
  destruct (id_eqb (Event.id y) (Event.id target)) eqn:Hy; cbn [negb].
  - apply id_eqb_eq in Hy.
    rewrite filter_all; [lia|].
    intros x Hx. apply negb_true_iff. apply id_eqb_neq.
    intros Hxe. apply Hnotin. rewrite Hy, <- Hxe. apply in_map. exact Hx.
  - destruct Hin as [Hin|Hin].
    + subst y. apply id_eqb_neq in Hy. contradiction.
    + cbn [List.length]. rewrite <- (IH Hrest Hin). lia.
Qed.

(** X15.  A confirmed delete removes from the store the events with the
    id of the chosen one, and only those, keeping the order of the
    rest; with distinct ids that is exactly one event.  The draft and
    the notifications stay, also those of the deleted event.  The form
    is closed and [editEventId] reset when it was editing that id, and
    left alone otherwise. *)
Theorem confirmDelete_removes_by_id (st : State) (target : Event.t) :
  exists st',
    confirmDelete (handleDelete target st) = Some st'
    /\ events st'
       = filter (fun e => negb (id_eqb (Event.id e) (Event.id target)))
           (events st)
    /\ (forall e, In e (events st')
                  <-> In e (events st) /\ Event.id e <> Event.id target)
    /\ (NoDup (map Event.id (events st)) -> In target (events st) ->
        (List.length (events st') + 1 = List.length (events st))%nat)
    /\ reminders st' = reminders st
    /\ newEvent st' = newEvent st
    /\ showDeleteConfirm st' = false
    /\ eventToDelete st' = None
    /\ (if edit_eqb (Event.id target) (editEventId st)
        then showForm st' = false /\ editEventId st' = Null
        else showForm st' = showForm st /\ editEventId st' = editEventId st).
Proof.
  unfold confirmDelete, handleDelete.
  cbn [eventToDelete set_eventToDelete set_showDeleteConfirm].
  eexists. split; [reflexivity|].
  change (editEventId
            (set_showDeleteConfirm (set_eventToDelete st (Some target)) true))
    with (editEventId st).
  assert (Hmem : forall e,
             In e (filter (fun e => negb (id_eqb (Event.id e) (Event.id target)))
                     (events st))
             <-> In e (events st) /\ Event.id e <> Event.id target).
  { intros e. rewrite filter_In, negb_true_iff, id_eqb_neq. reflexivity. }
  destruct (edit_eqb (Event.id target) (editEventId st));
    (split; [reflexivity|]); (split; [exact Hmem|]);
    (split; [intros Hnd Hin; apply filter_out_one; assumption|]);
    repeat split; reflexivity.
Qed.

(** X16.  Asking for a delete and cancelling it gives the state back
    (when no delete was pending); neither step touches the events. *)
Theorem cancelDelete_restores (st : State) (target : Event.t) :
  showDeleteConfirm st = false ->
  eventToDelete st = None ->
  cancelDelete (handleDelete target st) = st
  /\ events (handleDelete target st) = events st
  /\ eventToDelete (handleDelete target st) = Some target.
Proof.
  intros Hs He. split; [|split; reflexivity].
  destruct st. cbn in *. subst. reflexivity.
Qed.

(** ** Dismissing and the tick *)

Lemma key_eqb_neq (r : Reminder.t) (id : option Z) (message : option (Z * Z)) :
  negb (id_eqb (Reminder.id r) id && message_eqb (Reminder.message r) message)
  = true
  <-> key r <> (id, message).
Proof.
  unfold key. rewrite negb_true_iff, andb_false_iff. split.
  - intros [Hi|Hm] E; inversion E; subst.
    + apply id_eqb_neq in Hi. contradiction.
    + assert (Ht : message_eqb (Reminder.message r) (Reminder.message r) = true)
        by (apply message_eqb_eq; reflexivity).
      congruence.
  - intros Hne.
    destruct (id_eqb (Reminder.id r) id) eqn:Hi; [|left; reflexivity].
    right. destruct (message_eqb (Reminder.message r) message) eqn:Hm;
      [|reflexivity].
    apply id_eqb_eq in Hi. apply message_eqb_eq in Hm.
    exfalso. apply Hne. congruence.
Qed.

Lemma dismissReminder_In (st : State) (id : option Z)
  (message : option (Z * Z)) (r : Reminder.t) :
  In r (reminders (dismissReminder id message st))
  <-> In r (reminders st) /\ key r <> (id, message).
Proof.
  unfold dismissReminder. cbn [reminders set_reminders].
  rewrite filter_In, key_eqb_neq. reflexivity.
Qed.

(** X17.  A dismissal removes the notifications with the given pair
    (id, message), all of them and nothing else, keeping the order of
    the rest, and touches nothing but the notification list.  With no
    such notification it changes nothing; done twice it is the same as
    done once. *)
Theorem dismissReminder_by_key (st : State) (id : option Z)
  (message : option (Z * Z)) :
  (forall r, In r (reminders (dismissReminder id message st))
             <-> In r (reminders st) /\ key r <> (id, message))
  /\ events (dismissReminder id message st) = events st
  /\ newEvent (dismissReminder id message st) = newEvent st
  /\ ((forall r, In r (reminders st) -> key r <> (id, message)) ->
      dismissReminder id message st = st)
  /\ dismissReminder id message (dismissReminder id message st)
     = dismissReminder id message st.
Proof.
  assert (Hnoop : forall s,
             (forall r, In r (reminders s) -> key r <> (id, message)) ->
             dismissReminder id message s = s).
  { intros s Hall. unfold dismissReminder. rewrite filter_all.
    - apply set_reminders_same.
    - intros r Hr. apply key_eqb_neq. apply Hall. exact Hr. }
  assert (Hmem : forall r, In r (reminders (dismissReminder id message st))
                           <-> In r (reminders st) /\ key r <> (id, message)).
  { intros r. apply dismissReminder_In. }
  split; [exact Hmem|]. split; [reflexivity|]. split; [reflexivity|].
  split; [apply Hnoop|].
  apply Hnoop. intros r Hr. apply Hmem in Hr. tauto.
Qed.

(** X18.  A dismissed reminder comes back: the duplicate check reads the
    current list, so for an event of the store with a reminder, as long
    as [remindAt < now < start], the tick after a dismissal of its
    notification emits it again. *)
Theorem dismissed_reminder_returns (now : Z) (st : State) (e : Event.t)
  (eStart : Z) :
  In e (events st) ->
  Event.reminder e <> 0 ->
  start_instant e = Some eStart ->
  eStart - Event.reminder e * 60000 < now < eStart ->
  let st' := dismissReminder (Event.id e) (Dayjs.format (remindAt_of e)) st in
  ~ In (notification e) (reminders st')
  /\ In (notification e) (emitted now st')
  /\ In (notification e) (reminders (tick now st')).
Proof.
  intros Hin Hrem Hs Hwin st'.
  assert (Hgone : forall r, In r (reminders st') -> key r <> key (notification e)).
  { intros r Hr.
    apply dismissReminder_In in Hr.
    exact (proj2 Hr). }
  assert (Hemit : In (notification e) (emitted now st')).
  { unfold emitted. apply in_map. apply filter_In. split; [exact Hin|].
    apply (due_iff now (reminders st') e eStart Hs).
    split; [exact Hrem|]. split; [exact Hwin|].
    destruct (already_reminded (reminders st') e) eqn:Hal; [|reflexivity].
    apply already_reminded_iff in Hal. destruct Hal as (r & Hr & Hk).
    exfalso. exact (Hgone r Hr Hk). }
  split; [|split].
  - intros Hthere. exact (Hgone _ Hthere eq_refl).
  - exact Hemit.
  - rewrite tick_reminders. apply in_or_app. right. exact Hemit.
Qed.

Lemma confirmDelete_reminders (st st' : State) (target : Event.t) :
  confirmDelete (handleDelete target st) = Some st' ->
  reminders st' = reminders st.
Proof.
  unfold confirmDelete, handleDelete.
  cbn [eventToDelete set_eventToDelete set_showDeleteConfirm].
  intros Hdel. inversion Hdel as [Hst]. clear Hdel Hst.
  match goal with |- context [if ?b then _ else _] => destruct b end;
    reflexivity.
Qed.

(** X19.  Only a dismissal takes a notification away.  [handleAdd],
    [handleEdit] and a confirmed delete leave the notification list as
    it is, and a tick only appends to it: the notification of an event
    stays when the event is edited or deleted. *)
Theorem notifications_stay (clock : nat -> Z) (now : Z) (st : State)
  (e : Event.t) :
  reminders (fst (handleAdd clock st)) = reminders st
  /\ reminders (handleEdit e st) = reminders st
  /\ (forall st', confirmDelete (handleDelete e st) = Some st' ->
        reminders st' = reminders st)
  /\ firstn (List.length (reminders st)) (reminders (tick now st))
     = reminders st
  /\ (forall r, In r (reminders st) -> In r (reminders (tick now st))).
Proof.
  split; [|split; [|split; [|split]]].
  - destruct (handleAdd_cases clock st) as [(_ & E)|[(_ & _ & E)|(Hm & He & _)]];
      try (rewrite E; reflexivity).
    unfold handleAdd. rewrite Hm, He. cbn [List.length Nat.eqb negb].
    destruct (edit_truthy (editEventId st)); reflexivity.
  - reflexivity.
  - intros st' Hdel.
    exact (confirmDelete_reminders st st' e Hdel).
  - rewrite tick_reminders, firstn_app, firstn_all, Nat.sub_diag.
    cbn [firstn]. apply app_nil_r.
  - intros r Hr. rewrite tick_reminders. apply in_or_app. left. exact Hr.
Qed.

Lemma due_needs_window (now : Z) (rs : list Reminder.t) (e : Event.t) :
  due now rs e = true ->
  exists eStart,
    start_instant e = Some eStart
    /\ Event.reminder e <> 0
    /\ eStart - Event.reminder e * 60000 < now < eStart.
Proof.
  intros Hd. destruct (start_instant e) as [eStart|] eqn:Hs.
  - exists eStart. split; [reflexivity|].
    apply (due_iff now rs e eStart Hs) in Hd. tauto.
  - exfalso. unfold start_instant in Hs. unfold due, remindAt_of in Hd.
    destruct (Dayjs.tz (Event.date e) (Event.time e) (Event.timezone e));
      [discriminate|].
    destruct (Event.reminder e =? 0); [discriminate|].
    cbn in Hd. discriminate.
Qed.

(** X26.  When a tick is silent.  An event with the reminder 0 is
    passed over before its start is looked at.  An event that has a
    start is passed over when its reminder is negative, and when [now]
    is not strictly between [remindAt] and the start.  If every stored
    event is of one of these kinds, the tick emits nothing and leaves
    the state as it is. *)
Theorem tick_silent (now : Z) (st : State) :
  (forall e, In e (events st) ->
     Event.reminder e = 0
     \/ exists eStart,
          start_instant e = Some eStart
          /\ (Event.reminder e < 0
              \/ now <= eStart - Event.reminder e * 60000
              \/ eStart <= now)) ->
  emitted now st = [] /\ tick now st = st.
Proof.
  intros Hall.
  assert (Hnone : emitted now st = []).
  { unfold emitted.
    assert (Hf : forall l, (forall e, In e l -> due now (reminders st) e = false) ->
                           filter (due now (reminders st)) l = []).
    { induction l as [|x l IH]; intros Hl; [reflexivity|].
      cbn [filter]. rewrite (Hl x (or_introl eq_refl)).
      apply IH. intros e He. apply Hl. right. exact He. }
    rewrite Hf; [reflexivity|].
    intros e Hin.
    destruct (due now (reminders st) e) eqn:Hd; [|reflexivity].
    exfalso. apply due_needs_window in Hd.
    destruct Hd as (eStart & Hs & Hrem & Hwin).
    destruct (Hall e Hin) as [Hzero|(s & Hs' & Hout)].
    - contradiction.
    - assert (s = eStart) by congruence. subst s. lia. }
  split; [exact Hnone|].
  assert (Hr : reminders (tick now st) = reminders st).
  { rewrite tick_reminders, Hnone. apply app_nil_r. }
  unfold tick in *. cbn [reminders set_reminders] in Hr. rewrite Hr.
  apply set_reminders_same.
Qed.

End MoreProperties.

(** ** The month grid *)

Lemma missing7_step (n : nat) :
  (rem7 n =? 0)%nat = false -> missing7 n = S (missing7 (n + 1)).
Proof.
  intros Hrem. unfold missing7. rewrite Hrem. apply Nat.eqb_neq in Hrem.
  assert (Hb : (rem7 n < 7)%nat)
    by (unfold rem7; apply Nat.mod_upper_bound; lia).
  assert (E : rem7 (n + 1) = 0%nat \/ rem7 (n + 1) = (rem7 n + 1)%nat).
  { unfold rem7 in *.
    pose proof (Nat.div_mod_eq n 7) as Hdm.
    pose proof (Nat.mod_upper_bound (n + 1) 7 ltac:(lia)) as Hb'.
    pose proof (Nat.div_mod_eq (n + 1) 7) as Hdm'.
    lia. }
  destruct E as [E|E]; rewrite E.
  - change (0 =? 0)%nat with true. cbv iota.
    unfold rem7 in *.
    pose proof (Nat.div_mod_eq n 7) as Hdm.
    pose proof (Nat.div_mod_eq (n + 1) 7) as Hdm'.
    lia.
  - destruct (Nat.eqb_spec (rem7 n + 1) 0); lia.
Qed.

Lemma rem7_missing7 (n : nat) : rem7 (n + missing7 n) = 0%nat.
Proof.
  unfold missing7, rem7.
  pose proof (Nat.mod_upper_bound n 7 ltac:(lia)) as Hb.
  pose proof (Nat.div_mod_eq n 7) as Hdm.
  destruct (Nat.eqb_spec (n mod 7) 0) as [E|E].
  - rewrite Nat.add_0_r. exact E.
  - replace (n + (7 - n mod 7))%nat with (0 + (n / 7 + 1) * 7)%nat by lia.
    rewrite Nat.Div0.mod_add. reflexivity.
Qed.

Lemma missing7_bound (n : nat) : (missing7 n < 7)%nat.
Proof.
  unfold missing7. destruct (rem7 n =? 0)%nat eqn:E; [lia|].
  apply Nat.eqb_neq in E. lia.
Qed.

(** The padding loop appends the empty cells missing to a full row. *)
Lemma pad_week_value (days : list (option Calendar.CivilDate)) :
  pad_week days = days ++ repeat None (missing7 (List.length days)).
Proof.
  funelim (pad_week days).
  - clear Heqcall.
    pose proof (proj1 (negb_true_iff _) Hrem) as Hrem'.
    match goal with
    | IH : pad_week _ = _ |- _ => rewrite IH
    end.
    rewrite length_app. cbn [List.length].
    rewrite (missing7_step _ Hrem'). cbn [repeat].
    rewrite <- app_assoc. reflexivity.
  - match goal with
    | E : negb _ = false |- _ =>
        pose proof (proj1 (negb_false_iff _) E) as Hzero
    end.
    unfold missing7. rewrite Hzero. cbn [repeat]. rewrite app_nil_r. reflexivity.
Qed.

Lemma month_cells_nth (g : nat -> Calendar.CivilDate) (a n k i : nat) :
  nth_error (repeat None a ++ map (fun d => Some (g d)) (seq 1 n)
             ++ repeat None k) i
  = if (i <? a)%nat then Some None
    else if (i - a <? n)%nat then Some (Some (g (1 + (i - a))%nat))
    else if (i - a - n <? k)%nat then Some None
    else None.
Proof.
  rewrite nth_error_app, repeat_length.
  destruct (Nat.ltb_spec i a) as [Hi|Hi]; [apply nth_error_repeat; exact Hi|].
  rewrite nth_error_app, length_map, length_seq.
  destruct (Nat.ltb_spec (i - a) n) as [Hj|Hj].
  - rewrite nth_error_map, nth_error_seq.
    destruct (Nat.ltb_spec (i - a) n); [reflexivity|lia].
  - destruct (Nat.ltb_spec (i - a - n) k) as [Hk|Hk].
    + apply nth_error_repeat. exact Hk.
    + apply nth_error_None. rewrite repeat_length. exact Hk.
Qed.

Lemma days_from_civil_day (y m d : Z) :
  Calendar.days_from_civil (Calendar.mkDate y m d)
  = Calendar.days_from_civil (Calendar.mkDate y m 1) + d - 1.
Proof. unfold Calendar.days_from_civil. cbn. lia. Qed.

Lemma weekday_in_month (y m d : Z) :
  Calendar.weekday (Calendar.mkDate y m d)
  = (Calendar.weekday (Calendar.mkDate y m 1) + d - 1) mod 7.
Proof.
  unfold Calendar.weekday. rewrite (days_from_civil_day y m d).
  replace (Calendar.days_from_civil (Calendar.mkDate y m 1) + d - 1 + 4)
    with (Calendar.days_from_civil (Calendar.mkDate y m 1) + 4 + (d - 1)) by lia.
  replace ((Calendar.days_from_civil (Calendar.mkDate y m 1) + 4) mod 7 + d - 1)
    with ((Calendar.days_from_civil (Calendar.mkDate y m 1) + 4) mod 7 + (d - 1))
    by lia.
  symmetry. apply Z.add_mod_idemp_l. lia.
Qed.

(** X20.  The month grid of a date.  Its cells fill whole rows of
    seven, at most six of them.  Day [d] of the month sits in cell
    [w + d - 1], where [w] is the weekday of the first; every other cell
    is empty.  So each day of the month is there once, in the column of
    its weekday, and nothing of another month is.  A date that does not
    parse gives an empty grid. *)
Theorem getMonthDays_grid (date : Calendar.CivilDate) :
  let y := Calendar.year date in
  let m := Calendar.month date in
  let n := Calendar.days_in_month y m in
  let w := Calendar.weekday (Calendar.mkDate y m 1) in
  let cells := getMonthDays (Some date) in
  rem7 (List.length cells) = 0%nat
  /\ (List.length cells <= 42)%nat
  /\ (forall d, 1 <= d <= n ->
        nth_error cells (Z.to_nat (w + d - 1)) = Some (Some (Calendar.mkDate y m d)))
  /\ (forall i c, nth_error cells i = Some (Some c) ->
        Calendar.year c = y /\ Calendar.month c = m
        /\ 1 <= Calendar.day c <= n
        /\ Z.of_nat i = w + Calendar.day c - 1
        /\ Calendar.weekday c = Z.of_nat i mod 7)
  /\ getMonthDays None = [].
Proof.
  intros y m n w cells.
  assert (Hw : 0 <= w < 7) by (apply Z.mod_pos_bound; lia).
  pose proof (CivilValidFacts.days_in_month_bounds y m) as Hn. fold n in Hn.
  set (a := Z.to_nat w). set (len := Z.to_nat n).
  set (g := fun d : nat => Calendar.mkDate y m (Z.of_nat d)).
  set (k := missing7 (List.length (repeat (@None Calendar.CivilDate) a
                                      ++ map (fun d => Some (g d)) (seq 1 len)))).
  assert (Hcells : cells = repeat None a ++ map (fun d => Some (g d)) (seq 1 len)
                           ++ repeat None k).
  { unfold cells, getMonthDays. fold y m. fold w. fold n. fold a. fold len.
    rewrite pad_week_value. rewrite <- app_assoc. reflexivity. }
  assert (Hlen : List.length cells = (a + len + k)%nat).
  { rewrite Hcells, !length_app, !repeat_length, length_map, length_seq. lia. }
  assert (Hk : k = missing7 (a + len)).
  { unfold k. rewrite length_app, repeat_length, length_map, length_seq.
    reflexivity. }
  split; [|split; [|split; [|split]]].
  - rewrite Hlen, Hk. apply rem7_missing7.
  - assert (Hrem : rem7 (List.length cells) = 0%nat)
      by (rewrite Hlen, Hk; apply rem7_missing7).
    pose proof (missing7_bound (a + len)) as Hkb. rewrite <- Hk in Hkb.
    unfold rem7 in Hrem.
    pose proof (Nat.div_mod_eq (List.length cells) 7) as Hdm.
    assert (Hlt : (List.length cells < 44)%nat) by (rewrite Hlen; lia).
    lia.
  - intros d Hd. rewrite Hcells, month_cells_nth.
    destruct (Nat.ltb_spec (Z.to_nat (w + d - 1)) a) as [Hi|Hi]; [lia|].
    destruct (Nat.ltb_spec (Z.to_nat (w + d - 1) - a) len) as [Hj|Hj]; [|lia].
    unfold g. do 3 f_equal. lia.
  - intros i c Hc. rewrite Hcells, month_cells_nth in Hc.
    destruct (Nat.ltb_spec i a) as [Hi|Hi]; [discriminate|].
    destruct (Nat.ltb_spec (i - a) len) as [Hj|Hj].
    + inversion Hc as [Hg]. unfold g. cbn [Calendar.year Calendar.month Calendar.day].
      split; [reflexivity|]. split; [reflexivity|]. split; [lia|].
      split; [lia|].
      rewrite weekday_in_month. fold w. f_equal. lia.
    + destruct (Nat.ltb_spec (i - a - len) k); discriminate.
  - reflexivity.
Qed.

(** ** The week grid *)

Lemma weekday_add_days (c : Calendar.CivilDate) (k : Z) :
  Calendar.weekday (Calendar.add_days c k) = (Calendar.weekday c + k) mod 7.
Proof.
  unfold Calendar.weekday. rewrite CalendarFacts.days_from_civil_add_days.
  replace (Calendar.days_from_civil c + k + 4)
    with (Calendar.days_from_civil c + 4 + k) by lia.
  symmetry. apply Z.add_mod_idemp_l. lia.
Qed.

(** X21.  The week of a date.  [startOfWeek] is a Sunday, at most six
    days back; the seven days of [getWeekDays] from it are consecutive,
    the [i]-th one on weekday [i], and a well-formed date is one of
    them.  The two week buttons move by seven days, to a Sunday again,
    and undo each other. *)
Theorem week_of_date (date : Calendar.CivilDate) :
  let ws := startOfWeek date in
  Calendar.weekday ws = 0
  /\ Calendar.days_from_civil ws
     = Calendar.days_from_civil date - Calendar.weekday date
  /\ List.length (getWeekDays ws) = 7%nat
  /\ (forall i, (i < 7)%nat ->
        exists c, nth_error (getWeekDays ws) i = Some c
                  /\ Calendar.days_from_civil c
                     = Calendar.days_from_civil ws + Z.of_nat i
                  /\ Calendar.weekday c = Z.of_nat i)
  /\ (CivilValid.valid_date date -> In date (getWeekDays ws))
  /\ Calendar.weekday (nextWeek ws) = 0
  /\ Calendar.weekday (previousWeek ws) = 0
  /\ Calendar.days_from_civil (nextWeek ws) = Calendar.days_from_civil ws + 7
  /\ previousWeek (nextWeek ws) = ws
  /\ nextWeek (previousWeek ws) = ws.
Proof.
  intros ws.
  assert (Hwd : 0 <= Calendar.weekday date < 7)
    by (apply Z.mod_pos_bound; lia).
  assert (Hws : Calendar.weekday ws = 0).
  { unfold ws, startOfWeek. rewrite weekday_add_days.
    replace (Calendar.weekday date + - Calendar.weekday date) with 0 by lia.
    reflexivity. }
  assert (Hdays : Calendar.days_from_civil ws
                  = Calendar.days_from_civil date - Calendar.weekday date).
  { unfold ws, startOfWeek. rewrite CalendarFacts.days_from_civil_add_days. lia. }
  assert (Hback : forall k, Calendar.add_days (Calendar.add_days ws k) (- k) = ws).
  { intros k. unfold Calendar.add_days at 1.
    rewrite CalendarFacts.days_from_civil_add_days.
    replace (Calendar.days_from_civil ws + k + - k)
      with (Calendar.days_from_civil ws) by lia.
    unfold ws, startOfWeek, Calendar.add_days.
    rewrite CalendarFacts.days_from_civil_from_days. reflexivity. }
  split; [exact Hws|]. split; [exact Hdays|]. split; [reflexivity|].
  split; [|split; [|split; [|split; [|split; [|split]]]]].
  - intros i Hi. unfold getWeekDays. rewrite nth_error_map, nth_error_seq.
    destruct (Nat.ltb_spec i 7); [|lia]. cbn [option_map Nat.add].
    eexists. split; [reflexivity|].
    split; [apply CalendarFacts.days_from_civil_add_days|].
    rewrite weekday_add_days, Hws. apply Z.mod_small. lia.
  - intros Hv. unfold getWeekDays. apply in_map_iff.
    exists (Z.to_nat (Calendar.weekday date)). split.
    + unfold Calendar.add_days. rewrite Hdays.
      replace (Calendar.days_from_civil date - Calendar.weekday date
               + Z.of_nat (Z.to_nat (Calendar.weekday date)))
        with (Calendar.days_from_civil date) by lia.
      apply CivilValidFacts.civil_from_days_from_civil. exact Hv.
    + apply in_seq. lia.
  - unfold nextWeek. rewrite weekday_add_days, Hws. reflexivity.
  - unfold previousWeek. rewrite weekday_add_days, Hws. reflexivity.
  - unfold nextWeek. apply CalendarFacts.days_from_civil_add_days.
  - unfold previousWeek, nextWeek. apply (Hback 7).
  - unfold previousWeek, nextWeek.
    replace 7 with (- (- 7)) at 1 by lia. apply (Hback (- 7)).
Qed.

Lemma weekHours_range (h : Z) : In h weekHours <-> 8 <= h <= 20.
Proof.
  unfold weekHours. rewrite in_map_iff. split.
  - intros (i & Hh & Hi). apply in_seq in Hi. lia.
  - intros Hh. exists (Z.to_nat (h - 8)). split; [lia|].
    apply in_seq. lia.
Qed.

(** X22.  What the week grid shows.  An event is in some cell of the
    grid exactly when it is in the store, its date is one of the seven
    days, and its time lies from 08:00 up to, but not including, 21:00.
    So an event that starts earlier or later, or has no time, appears
    nowhere in the week view. *)
Theorem weekGrid_shows (evts : list Event.t) (weekStart : Calendar.CivilDate)
  (e : Event.t) :
  (exists row cell, In row (weekGrid evts weekStart) /\ In cell row /\ In e cell)
  <-> In e evts
      /\ (exists day, In day (getWeekDays weekStart) /\ Event.date e = Some day)
      /\ (exists t, Event.time e = Some t /\ 480 <= t < 1260).
Proof.
  assert (Hday : forall day, on_day day e = true <-> Event.date e = Some day).
  { intros day. unfold on_day, date_eqb.
    destruct (Event.date e) as [d|]; [|split; discriminate].
    rewrite !andb_true_iff, !Z.eqb_eq. split.
    - intros [[Hy Hm] Hd]. destruct d, day. cbn in *. congruence.
    - intros E. inversion E. tauto. }
  assert (Hhour : forall h, 8 <= h <= 20 ->
             in_hour h e = true ->
             exists t, Event.time e = Some t /\ 480 <= t < 1260).
  { intros h Hh. unfold in_hour.
    destruct (Event.time e) as [t|]; [|discriminate].
    intros E. apply Z.eqb_eq in E. exists t. split; [reflexivity|].
    pose proof (Z.div_mod t 60 ltac:(lia)).
    pose proof (Z.mod_pos_bound t 60 ltac:(lia)). lia. }
  unfold weekGrid. split.
  - intros (row & cell & Hrow & Hcell & Hin).
    apply in_map_iff in Hrow. destruct Hrow as (h & Hrow & Hh).
    subst row. apply in_map_iff in Hcell. destruct Hcell as (day & Hcell & Hd).
    subst cell. unfold slotEvents in Hin. apply filter_In in Hin.
    destruct Hin as [Hin Hboth]. apply andb_prop in Hboth.
    destruct Hboth as [Hon Hh'].
    split; [exact Hin|]. split.
    + exists day. split; [exact Hd|]. apply Hday. exact Hon.
    + apply (Hhour h); [apply weekHours_range; exact Hh|exact Hh'].
  - intros (Hin & (day & Hd & Hdate) & (t & Ht & Hrange)).
    exists (map (fun day => slotEvents evts day (t / 60)) (getWeekDays weekStart)).
    exists (slotEvents evts day (t / 60)).
    split; [|split].
    + apply in_map_iff. exists (t / 60). split; [reflexivity|].
      apply weekHours_range.
      pose proof (Z.div_mod t 60 ltac:(lia)).
      pose proof (Z.mod_pos_bound t 60 ltac:(lia)). lia.
    + apply in_map_iff. exists day. split; [reflexivity|exact Hd].
    + unfold slotEvents. apply filter_In. split; [exact Hin|].
      apply andb_true_intro. split; [apply Hday; exact Hdate|].
      unfold in_hour. rewrite Ht. apply Z.eqb_refl.
Qed.

(** ** Counters, types, attendees *)

Lemma count_app (s : string) (l1 l2 : list Event.t) :
  List.length (filter (status_is s) (l1 ++ l2))
  = (List.length (filter (status_is s) l1)
     + List.length (filter (status_is s) l2))%nat.
Proof. rewrite filter_app, length_app. reflexivity. Qed.

(** X24.  The type of an event in the list view.  With a non-empty
    [eventTypes] there always is one, taken from the list: the first
    entry with the event's type as value, or the first entry of all when
    there is none (an unknown type shows as the first one).  With an
    empty [eventTypes] there is none for any event.  The type of the
    initial draft always resolves to the first entry. *)
Theorem evtType_fallback (eventTypes : list EventType) (e : Event.t) :
  (evtType eventTypes e = None <-> eventTypes = [])
  /\ (forall t, evtType eventTypes e = Some t ->
        In t eventTypes
        /\ ((exists u, In u eventTypes /\ value u = Event.type e) ->
            value t = Event.type e)
        /\ ((forall u, In u eventTypes -> value u <> Event.type e) ->
            hd_error eventTypes = Some t))
  /\ (Event.type e = initialType eventTypes ->
      evtType eventTypes e = hd_error eventTypes).
Proof.
  unfold evtType.
  destruct (find (fun t => (value t =? Event.type e)%string) eventTypes)
    as [t0|] eqn:Hfind.
  - pose proof (find_some _ _ Hfind) as [Hin Hval].
    apply String.eqb_eq in Hval.
    split; [|split].
    + split; [discriminate|]. intros E. subst eventTypes. destruct Hin.
    + intros t Ht. inversion Ht; subst t0. split; [exact Hin|].
      split; [intros _; exact Hval|].
      intros Hnone. exfalso. exact (Hnone t Hin Hval).
    + intros Hty. destruct eventTypes as [|t1 rest]; [destruct Hin|].
      cbn [initialType] in Hty. cbn [find] in Hfind.
      assert (Hhead : (value t1 =? Event.type e)%string = true)
        by (apply String.eqb_eq; symmetry; exact Hty).
      rewrite Hhead in Hfind. cbn [hd_error]. congruence.
  - pose proof (find_none _ _ Hfind) as Hnone.
    split; [|split].
    + destruct eventTypes; split; intros E; try discriminate; reflexivity.
    + intros t Ht. split; [|split].
      * destruct eventTypes as [|t1 rest]; [discriminate|].
        inversion Ht. left. reflexivity.
      * intros (u & Hu & Hval). specialize (Hnone u Hu).
        apply String.eqb_neq in Hnone. contradiction.
      * intros _. exact Ht.
    + intros _. reflexivity.
Qed.

Lemma filter_index_keep {A : Type} (idx : nat) :
  forall (l : list A) (j : nat), (idx < j)%nat ->
  filter_index (fun i => negb (i =? idx)%nat) j l = l.
Proof.
  induction l as [|x l IH]; intros j Hj; [reflexivity|].
  cbn [filter_index]. destruct (Nat.eqb_spec j idx); [lia|].
  cbn [negb]. rewrite IH by lia. reflexivity.
Qed.

Lemma filter_index_remove {A : Type} (idx : nat) :
  forall (l : list A) (k : nat), (k <= idx)%nat ->
  filter_index (fun i => negb (i =? idx)%nat) k l
  = firstn (idx - k) l ++ skipn (S (idx - k)) l.
Proof.
  induction l as [|x l IH]; intros k Hk.
  - cbn. rewrite firstn_nil. reflexivity.
  - cbn [filter_index]. destruct (Nat.eqb_spec k idx) as [E|E]; cbn [negb].
    + subst k. rewrite Nat.sub_diag. cbn [firstn skipn app].
      apply filter_index_keep. lia.
    + rewrite IH by lia.
      replace (idx - k)%nat with (S (idx - S k)) by lia.
      reflexivity.
Qed.

(** X25.  The attendee buttons.  "Add" with an input that is blank
    after trimming changes nothing; otherwise it appends the trimmed
    input to the attendees (also when it is there already) and clears
    the input.  "Remove" at index [idx] takes out the entry at that
    position and no other; beyond the end it takes out nothing.
    Removing the last position after an add gives the attendees back. *)
Theorem attendee_buttons (trim : string -> string) (st : State) (idx : nat) :
  let l := Event.attendees (newEvent st) in
  (trim (attendeeInput st) = ""%string -> addAttendee trim st = st)
  /\ (trim (attendeeInput st) <> ""%string ->
      Event.attendees (newEvent (addAttendee trim st))
      = l ++ [trim (attendeeInput st)]
      /\ attendeeInput (addAttendee trim st) = ""%string
      /\ Event.attendees
           (newEvent (removeAttendee (List.length l) (addAttendee trim st)))
         = l)
  /\ Event.attendees (newEvent (removeAttendee idx st))
     = firstn idx l ++ skipn (S idx) l
  /\ ((List.length l <= idx)%nat ->
      Event.attendees (newEvent (removeAttendee idx st)) = l)
  /\ ((idx < List.length l)%nat ->
      (List.length (Event.attendees (newEvent (removeAttendee idx st))) + 1
       = List.length l)%nat)
  /\ events (addAttendee trim st) = events st
  /\ events (removeAttendee idx st) = events st.
Proof.
  intros l.
  assert (Hrem : forall s i,
             Event.attendees (newEvent (removeAttendee i s))
             = firstn i (Event.attendees (newEvent s))
               ++ skipn (S i) (Event.attendees (newEvent s))).
  { intros s i. unfold removeAttendee. cbn.
    rewrite filter_index_remove by lia. rewrite Nat.sub_0_r. reflexivity. }
  split; [|split; [|split; [|split; [|split; [|split]]]]].
  - intros Hblank. unfold addAttendee. rewrite Hblank. reflexivity.
  - intros Hinput. apply String.eqb_neq in Hinput.
    assert (Hadd : Event.attendees (newEvent (addAttendee trim st))
                   = l ++ [trim (attendeeInput st)])
      by (unfold addAttendee; rewrite Hinput; reflexivity).
    split; [exact Hadd|]. split.
    + unfold addAttendee. rewrite Hinput. reflexivity.
    + rewrite Hrem, Hadd.
      rewrite firstn_app, Nat.sub_diag, firstn_all. cbn [firstn].
      rewrite app_nil_r.
      rewrite skipn_all2 by (rewrite length_app; cbn [List.length]; lia).
      apply app_nil_r.
  - apply Hrem.
  - intros Hout. rewrite Hrem. fold l.
    rewrite firstn_all2 by exact Hout.
    rewrite skipn_all2 by lia. apply app_nil_r.
  - intros Hinside. rewrite Hrem. fold l.
    rewrite length_app, length_firstn, length_skipn. lia.
  - unfold addAttendee. destruct (trim (attendeeInput st) =? "")%string;
      reflexivity.
  - reflexivity.
Qed.

Section CountersAfterAdd.
Context `{ZoneRules}.

Lemma newEvents_confirmed (clock : nat -> Z) (draft : Event.t) :
  filter (status_is "confirmed") (newEvents_of clock draft)
  = newEvents_of clock draft
  /\ filter (status_is "pending") (newEvents_of clock draft) = [].
Proof.
  pose proof (newEvents_shape clock draft) as Hshape. cbv zeta in Hshape.
  destruct (recurring draft).
  - destruct Hshape as (d1 & d2 & d3 & d4 & d5 & E). rewrite E.
    split; reflexivity.
  - rewrite Hshape. split; reflexivity.
Qed.

(** X23.  The counters after an add.  Every event a completed add puts
    in the store counts as confirmed and none as pending: the
    "Confirmed" card grows by the size of the series (1 or 6), the
    "Pending" card stays. *)
Theorem counters_after_add (clock : nat -> Z) (st : State)
  (n : option Event.t) :
  edit_truthy (editEventId st) = false ->
  snd (handleAdd clock st) = Completed n ->
  let evts' := events (fst (handleAdd clock st)) in
  confirmedCount evts'
  = (confirmedCount (events st)
     + (if recurring (newEvent st) then 6 else 1))%nat
  /\ pendingCount evts' = pendingCount (events st)
  /\ List.length evts'
     = (List.length (events st)
        + (if recurring (newEvent st) then 6 else 1))%nat.
Proof.
  intros Ht Hdone evts'.
  destruct (handleAdd_cases clock st) as [(_ & E)|[(_ & _ & E)|(Hm & He & _)]];
    try (rewrite E in Hdone; discriminate).
  destruct (handleAdd_add clock st Hm He Ht) as [Hev _].
  destruct (newEvents_confirmed clock (newEvent st)) as [Hc Hp].
  assert (Hlen : List.length (newEvents_of clock (newEvent st))
                 = if recurring (newEvent st) then 6%nat else 1%nat).
  { pose proof (newEvents_shape clock (newEvent st)) as Hshape.
    cbv zeta in Hshape.
    destruct (recurring (newEvent st)).
    - destruct Hshape as (d1 & d2 & d3 & d4 & d5 & E). rewrite E. reflexivity.
    - rewrite Hshape. reflexivity. }
  unfold evts', confirmedCount, pendingCount.
  rewrite Hev, !count_app, Hc, Hp, length_app, Hlen. cbn [List.length].
  split; [reflexivity|]. split; [lia|reflexivity].
Qed.

End CountersAfterAdd.

Lemma date_eqb_eq (a b : Calendar.CivilDate) : date_eqb a b = true <-> a = b.
Proof.
  unfold date_eqb. destruct a as [ya ma da], b as [yb mb db].
  cbn [Calendar.year Calendar.month Calendar.day].
  rewrite !andb_true_iff, !Z.eqb_eq. split.
  - intros [[Hy Hm] Hd]. congruence.
  - intros E. inversion E. auto.
Qed.

(** X27.  A cell of the month grid.  The events of a day are those of
    the store with that date, in store order.  The cell shows the first
    two of them; "+n more" is shown exactly when there are more than
    two, and then [n] is the number of those not shown. *)
Theorem month_cell (evts : list Event.t) (day : Calendar.CivilDate) :
  let all := dayEvents evts day in
  (forall e, In e all <-> In e evts /\ Event.date e = Some day)
  /\ all = monthCellShown evts day ++ skipn 2 all
  /\ List.length (monthCellShown evts day) = Nat.min 2 (List.length all)
  /\ (monthCellMore evts day = None <-> (List.length all <= 2)%nat)
  /\ (forall n, monthCellMore evts day = Some n ->
        (0 < n)%nat
        /\ (List.length (monthCellShown evts day) + n = List.length all)%nat).
Proof.
  intros all. unfold monthCellShown, monthCellMore. fold all.
  split; [|split; [|split; [|split]]].
  - intros e. unfold all, dayEvents. rewrite filter_In. unfold on_day.
    destruct (Event.date e) as [d|].
    + rewrite date_eqb_eq. split.
      * intros [Hin E]. split; [exact Hin|]. congruence.
      * intros [Hin E]. split; [exact Hin|]. congruence.
    + split; intros [_ E]; discriminate.
  - symmetry. apply firstn_skipn.
  - apply length_firstn.
  - destruct (Nat.ltb_spec 2 (List.length all)) as [Hlt|Hle].
    + split; [discriminate|]. intros Hle. lia.
    + split; [intros _; exact Hle|reflexivity].
  - intros n. rewrite length_firstn.
    destruct (Nat.ltb_spec 2 (List.length all)) as [Hlt|Hle];
      [|discriminate].
    intros E. inversion E. lia.
Qed.

(** * Where the code leaves the specification *)

Section Departures.
Context `{ZoneRules}.

(** C4.  A stored event with the buffer 0 is not tested on the window
    the specification gives it.  Its window [os, oe) ends with its
    duration, [oe = os + duration].  For a candidate that starts at [oe]
    (the two windows touch) or in the fifteen minutes after it, the two
    half-open windows do not intersect, and [checkConflicts] reports the
    event all the same: it ends the stored window fifteen minutes
    later, as for an event without a buffer. *)
Theorem zero_buffer_touching_reported (c evt : Event.t) (cs os b : Z) :
  Event.id evt <> Event.id c ->
  start_instant c = Some cs ->
  Event.buffer c = Some b ->
  start_instant evt = Some os ->
  Event.buffer evt = Some 0 ->
  0 <= Event.duration evt ->
  0 < Event.duration c + b ->
  let ce := cs + (Event.duration c + b) * 60000 in
  let oe := os + (Event.duration evt + 0) * 60000 in
  oe <= cs < oe + 15 * 60000 ->
  ~ (cs < oe /\ ce > os)
  /\ checkConflicts c [evt] = [mkConflict (Event.title evt)].
Proof.
  intros Hid Hcs Hb Hos Hzero Hdur Hlen ce oe Hnear.
  split; [unfold oe in *; lia|].
  rewrite checkConflicts_one, (clashes_arith c evt cs os b Hcs Hb Hos).
  apply id_eqb_neq in Hid. rewrite Hid, Hzero.
  cbn [negb andb or_default Z.eqb].
  destruct (Z.ltb_spec cs (os + (Event.duration evt + 15) * 60000)) as [_|Hge];
    [|unfold oe in *; lia].
  destruct (Z.ltb_spec os (cs + (Event.duration c + b) * 60000)) as [_|Hge];
    [reflexivity|unfold oe in *; lia].
Qed.

(** C9.  An edit of the event stored under the id 0 is not an edit.
    [handleEdit] sets [editEventId] to 0, the event is left out of the
    conflict check as it should be, and then the test [if (editEventId)]
    takes 0 for "no edit": the run goes through the add branch.  The
    stored event stays as it was, and the draft is appended under a new
    id, with the five occurrences of its recurrence when it has one:
    the store grows by one event, or by six. *)
Theorem edit_of_id_zero_appends_series (clock : nat -> Z) (st : State)
  (e : Event.t) :
  In e (events st) ->
  Event.id e = Some 0 ->
  missing_required e = false ->
  checkConflicts e
    (filter (fun x => negb (id_eqb (Event.id x) (Some 0))) (events st)) = [] ->
  let run := handleAdd clock (handleEdit e st) in
  editEventId (handleEdit e st) = Editing (Some 0)
  /\ snd run = Completed (Some (toAdd_of clock e))
  /\ events (fst run) = events st ++ newEvents_of clock e
  /\ List.length (events (fst run))
     = (List.length (events st) + (if recurring e then 6 else 1))%nat
  /\ editEventId (fst run) = Editing (Some 0).
Proof.
  intros Hin Hid Hreq Hfree run.
  assert (Hedit : editEventId (handleEdit e st) = Editing (Some 0)).
  { unfold handleEdit. cbn [editEventId set_availabilities set_conflicts
                              set_newEvent set_showForm set_editEventId].
    rewrite Hid. reflexivity. }
  assert (Hdraft : newEvent (handleEdit e st) = e) by reflexivity.
  assert (Hevents : events (handleEdit e st) = events st) by reflexivity.
  assert (Hothers : others (handleEdit e st)
                    = filter (fun x => negb (id_eqb (Event.id x) (Some 0)))
                        (events st)).
  { unfold others. rewrite Hedit, Hevents. reflexivity. }
  assert (Hm : missing_required (newEvent (handleEdit e st)) = false)
    by (rewrite Hdraft; exact Hreq).
  assert (He : checkConflicts (newEvent (handleEdit e st))
                 (others (handleEdit e st)) = [])
    by (rewrite Hdraft, Hothers; exact Hfree).
  assert (Ht : edit_truthy (editEventId (handleEdit e st)) = false)
    by (rewrite Hedit; reflexivity).
  destruct (handleAdd_add clock (handleEdit e st) Hm He Ht) as [Hev Hout].
  rewrite Hdraft, Hevents in Hev. rewrite Hdraft in Hout.
  split; [exact Hedit|]. split; [exact Hout|]. split; [exact Hev|]. split.
  - unfold run. rewrite Hev, length_app. f_equal.
    pose proof (newEvents_shape clock e) as Hshape. cbv zeta in Hshape.
    destruct (recurring e).
    + destruct Hshape as (d1 & d2 & d3 & d4 & d5 & E). rewrite E. reflexivity.
    + rewrite Hshape. reflexivity.
  - unfold run, handleAdd. rewrite Hm, He, Ht. cbn [List.length Nat.eqb negb].
    exact Hedit.
Qed.

(** C10.  While an event stored without a buffer is edited, the
    availability search offers times inside that event's own window.
    [handleEdit] makes the event the draft, so the candidates of the
    search that follows have no buffer and no window end, and nothing is
    found in their way: for a duration up to 330 minutes the times shown
    are 09:00 to 11:30 whatever the store holds.  When the event starts
    at one of them, its own start is offered, the very instant its
    window [os, os + duration + 15) begins. *)
Theorem bufferless_edit_offers_own_start (st : State) (e : Event.t)
  (d : Calendar.CivilDate) (t : Z) :
  In e (events st) ->
  Event.id e <> None ->
  Event.buffer e = None ->
  Event.date e = Some d ->
  Event.time e = Some t ->
  0 <= Event.duration e <= 330 ->
  In t [540; 570; 600; 630; 660; 690] ->
  let st' := refreshAvailabilities (handleEdit e st) in
  availabilities st' = [540; 570; 600; 630; 660; 690]
  /\ In t (availabilities st')
  /\ checkConflicts (slot_test (handleEdit e st) d (Some t)) (events st) = []
  /\ exists os,
       start_instant e = Some os
       /\ start_instant (slot_test (handleEdit e st) d (Some t)) = Some os
       /\ os < os + (Event.duration e + or_default (Event.buffer e) 15) * 60000.
Proof.
  intros Hin Hid Hbuf Hdate Htime Hdur Ht st'.
  assert (Hdraft : newEvent (handleEdit e st) = e) by reflexivity.
  assert (Havail : availabilities st' = [540; 570; 600; 630; 660; 690]).
  { unfold st', refreshAvailabilities. rewrite Hdraft, Hdate.
    cbn [availabilities set_availabilities].
    rewrite unfiltered_search.
    - rewrite Hdraft. apply first_six_half_hours. exact Hdur.
    - rewrite Hdraft. lia.
    - right. rewrite Hdraft. exact Hbuf. }
  split; [exact Havail|]. split; [rewrite Havail; exact Ht|]. split.
  - apply candidate_without_window. exact Hbuf.
  - unfold start_instant, slot_test. cbn [Event.date Event.time Event.timezone].
    rewrite Hdraft, Hdate, Htime. cbn [Dayjs.tz option_map].
    eexists. split; [reflexivity|]. split; [reflexivity|].
    rewrite Hbuf. cbn [or_default]. lia.
Qed.

End Departures.

(** * Scenarios *)

(** The scenario of the specification: E1 is 10:00-11:00 with buffer 15;
    a candidate at 11:00 conflicts with it, one at 11:15 does not. *)
Example scenario_conflict_window :
  @checkConflicts Sample.utc (Sample.draft "New" 660 60 "none") [Sample.E1]
  = [mkConflict "E1"]
  /\ @checkConflicts Sample.utc (Sample.draft "New" 675 60 "none") [Sample.E1]
     = [].
Proof. split; reflexivity. Qed.

(** With one event 09:00-10:15 in the store, the first slot is 10:30. *)
Example scenario_first_slot :
  @generateAvailabilities Sample.utc
    (Sample.state [Sample.stored 1 "E" Sample.jan1 540 60 (Some 15) 0]
       (Sample.draft "New" 0 60 "none") Null)
    Sample.jan1
  = [630; 660; 690; 720; 750; 780].
Proof. reflexivity. Qed.

(** ** Conflict detection *)

(** C2.  E is stored with buffer 0, from 10:00 for 60 minutes, so its
    conflict window by its own buffer is 10:00-11:00.  [checkConflicts]
    ends the window of the stored E at 11:15, as for a missing buffer,
    and reports a candidate that starts at 11:00; for E as the candidate
    the same code ends the window at 11:00. *)
Theorem zero_buffer_window_extended :
  Event.buffer Sample.Ezero = Some 0
  /\ @start_instant Sample.utc Sample.Ezero
     = Some (Sample.midnight + 600 * 60000)
  /\ option_map Dayjs.valueOf (@existing_end Sample.utc Sample.Ezero)
     = Some (Sample.midnight + (600 + 60 + 15) * 60000)
  /\ option_map Dayjs.valueOf (@candidate_end Sample.utc Sample.Ezero)
     = Some (Sample.midnight + (600 + 60) * 60000)
  /\ @start_instant Sample.utc (Sample.draft "New" 660 30 "none")
     = Some (Sample.midnight + (600 + 60) * 60000)
  /\ @checkConflicts Sample.utc (Sample.draft "New" 660 30 "none")
       [Sample.Ezero]
     = [mkConflict "Ezero"].
Proof. repeat split; reflexivity. Qed.

Lemma checkConflicts_half_open_witness :
  Event.id Sample.E1 <> Event.id (Sample.draft "New" 660 60 "none")
  /\ @start_instant Sample.utc (Sample.draft "New" 660 60 "none")
     = Some (Sample.midnight + 660 * 60000)
  /\ Event.buffer (Sample.draft "New" 660 60 "none") = Some 15
  /\ @start_instant Sample.utc Sample.E1 = Some (Sample.midnight + 600 * 60000)
  /\ @checkConflicts Sample.utc (Sample.draft "New" 660 60 "none") [Sample.E1]
     = [mkConflict "E1"].
Proof.
  assert (H1 : Event.id Sample.E1 <> Event.id (Sample.draft "New" 660 60 "none"))
    by discriminate.
  assert (H2 : @start_instant Sample.utc (Sample.draft "New" 660 60 "none")
               = Some (Sample.midnight + 660 * 60000)) by reflexivity.
  assert (H3 : Event.buffer (Sample.draft "New" 660 60 "none") = Some 15)
    by reflexivity.
  assert (H4 : @start_instant Sample.utc Sample.E1
               = Some (Sample.midnight + 600 * 60000)) by reflexivity.
  pose proof (@checkConflicts_half_open Sample.utc _ _ _ _ _ H1 H2 H3 H4) as W.
  cbv zeta in W. destruct W as (_ & Hiff & _).
  repeat (split; [assumption|]).
  apply Hiff. unfold Sample.midnight. cbn. lia.
Defined.

(** ** Availability search *)

Lemma generateAvailabilities_bounds_witness :
  0 <= Event.duration (newEvent Sample.st_reminder)
  /\ (List.length (@generateAvailabilities Sample.utc Sample.st_reminder Sample.jan1)
      <= 6)%nat
  /\ (forall t,
         In t (@generateAvailabilities Sample.utc Sample.st_reminder Sample.jan1) ->
         540 <= t /\ t + Event.duration (newEvent Sample.st_reminder) <= 1020
         /\ exists j, 0 <= j /\ t = 540 + 30 * j)
  /\ StronglySorted Z.lt
       (@generateAvailabilities Sample.utc Sample.st_reminder Sample.jan1).
Proof.
  assert (H0 : 0 <= Event.duration (newEvent Sample.st_reminder))
    by (cbn; lia).
  split; [exact H0|].
  exact (@generateAvailabilities_bounds Sample.utc Sample.st_reminder Sample.jan1 H0).
Defined.

(** E1 runs from 10:00 and its window ends at 11:15.  The first time
    offered for a one-hour draft with buffer 15 is 11:30, and while E1
    itself is open in the form the times shown keep clear of it. *)
Lemma availability_excludes_no_event_witness :
  In 690 (@generateAvailabilities Sample.utc Sample.st_reminder Sample.jan1)
  /\ (exists cs,
        @start_instant Sample.utc
          (slot_test Sample.st_reminder Sample.jan1 (Some 690)) = Some cs
        /\ (Sample.E1_start
              + (Event.duration Sample.E1
                 + or_default (Event.buffer Sample.E1) 15) * 60000 <= cs
            \/ cs + (Event.duration (newEvent Sample.st_reminder) + 15) * 60000
               <= Sample.E1_start))
  /\ availabilities
       (@refreshAvailabilities Sample.utc
          (@handleEdit Sample.utc Sample.E1 Sample.st_reminder))
     = [690; 720; 750; 780; 810; 840].
Proof.
  assert (Hslots : @generateAvailabilities Sample.utc Sample.st_reminder
                      Sample.jan1 = [690; 720; 750; 780; 810; 840])
    by (vm_compute; reflexivity).
  assert (H1 : In 690 (@generateAvailabilities Sample.utc Sample.st_reminder
                         Sample.jan1)) by (rewrite Hslots; left; reflexivity).
  assert (H2 : In Sample.E1 (events Sample.st_reminder)) by (left; reflexivity).
  assert (H3 : Event.id Sample.E1 <> None) by discriminate.
  assert (H4 : @start_instant Sample.utc Sample.E1 = Some Sample.E1_start)
    by reflexivity.
  destruct (@availability_excludes_no_event Sample.utc Sample.st_reminder)
    as [Wall _].
  split; [exact H1|].
  split; [exact (Wall Sample.jan1 690 15 Sample.E1 Sample.E1_start
                   eq_refl H1 H2 H3 H4)|].
  vm_compute. reflexivity.
Defined.

(** ** The reminder tick *)

(** C1 as stated fails at its lower end: at [now = remindAt] the event
    E1 (10:00, reminder 10 minutes) is inside [remindAt <= now < start],
    no notification exists, and the tick emits nothing. *)
Lemma tick_at_remindAt_emits_nothing :
  0 < Event.reminder Sample.E1
  /\ In Sample.E1 (events Sample.st_reminder)
  /\ @start_instant Sample.utc Sample.E1 = Some Sample.E1_start
  /\ Sample.E1_start - Event.reminder Sample.E1 * 60000 = Sample.E1_remindAt
  /\ Sample.E1_remindAt <= Sample.E1_remindAt < Sample.E1_start
  /\ reminders Sample.st_reminder = []
  /\ @emitted Sample.utc Sample.E1_remindAt Sample.st_reminder = []
  /\ reminders (@tick Sample.utc Sample.E1_remindAt Sample.st_reminder) = [].
Proof.
  split; [cbn; lia|]. split; [left; reflexivity|]. split; [reflexivity|].
  split; [reflexivity|].
  split; [unfold Sample.E1_remindAt, Sample.E1_start, Sample.midnight; lia|].
  repeat split; reflexivity.
Qed.

Lemma tick_emits_iff_witness :
  0 < Event.reminder Sample.E1
  /\ In Sample.E1 (events Sample.st_reminder)
  /\ @start_instant Sample.utc Sample.E1 = Some Sample.E1_start
  /\ In (@notification Sample.utc Sample.E1)
       (@emitted Sample.utc (Sample.E1_remindAt + 1) Sample.st_reminder).
Proof.
  assert (H1 : 0 < Event.reminder Sample.E1) by (cbn; lia).
  assert (H2 : In Sample.E1 (events Sample.st_reminder)) by (left; reflexivity).
  assert (H3 : @start_instant Sample.utc Sample.E1 = Some Sample.E1_start)
    by reflexivity.
  pose proof (@tick_emits_iff Sample.utc (Sample.E1_remindAt + 1)
                Sample.st_reminder Sample.E1 Sample.E1_start H1 H2 H3) as W.
  cbv zeta in W. destruct W as (_ & Hiff & _).
  repeat (split; [assumption|]).
  apply Hiff. split.
  - unfold Sample.E1_remindAt, Sample.E1_start, Sample.midnight. cbn. lia.
  - intros (r & Hr & _). destruct Hr.
Defined.

Lemma tick_no_duplicates_idempotent_witness :
  NoDup (map Event.id (events (Sample.state [Sample.E1; Sample.E2]
                                 (Sample.draft "" 0 60 "none") Null)))
  /\ NoDup (map (@key) (reminders (Sample.state [Sample.E1; Sample.E2]
                                     (Sample.draft "" 0 60 "none") Null)))
  /\ NoDup (map (@key)
              (reminders
                 (@tick Sample.utc (Sample.E1_remindAt + 1)
                    (Sample.state [Sample.E1; Sample.E2]
                       (Sample.draft "" 0 60 "none") Null))))
  /\ @tick Sample.utc (Sample.E1_remindAt + 1)
       (@tick Sample.utc (Sample.E1_remindAt + 1)
          (Sample.state [Sample.E1; Sample.E2] (Sample.draft "" 0 60 "none") Null))
     = @tick Sample.utc (Sample.E1_remindAt + 1)
         (Sample.state [Sample.E1; Sample.E2] (Sample.draft "" 0 60 "none") Null).
Proof.
  assert (H1 : NoDup (map Event.id
                        (events (Sample.state [Sample.E1; Sample.E2]
                                   (Sample.draft "" 0 60 "none") Null)))).
  { cbn. constructor; [intros [E|[]]; discriminate|].
    constructor; [intros []|constructor]. }
  assert (H2 : NoDup (map (@key)
                        (reminders (Sample.state [Sample.E1; Sample.E2]
                                      (Sample.draft "" 0 60 "none") Null))))
    by constructor.
  destruct (@tick_no_duplicates_idempotent Sample.utc (Sample.E1_remindAt + 1)
              _ H1 H2) as (W1 & _ & _ & W4).
  split; [exact H1|]. split; [exact H2|]. split; [exact W1|exact W4].
Defined.

(** ** The add / edit / delete handlers *)

Lemma handleAdd_atomic_witness :
  missing_required (newEvent Sample.st_untitled) = true
  /\ @handleAdd Sample.utc Sample.clock Sample.st_untitled
     = (Sample.st_untitled, ReturnedMissingField)
  /\ missing_required (newEvent Sample.st_clash) = false
  /\ @checkConflicts Sample.utc (newEvent Sample.st_clash)
       (others Sample.st_clash) <> []
  /\ events (fst (@handleAdd Sample.utc Sample.clock Sample.st_clash))
     = events Sample.st_clash
  /\ (forall n, snd (@handleAdd Sample.utc Sample.clock Sample.st_clash)
                <> Completed n).
Proof.
  assert (H1 : missing_required (newEvent Sample.st_untitled) = true)
    by reflexivity.
  assert (H2 : missing_required (newEvent Sample.st_clash) = false)
    by reflexivity.
  assert (H3 : @checkConflicts Sample.utc (newEvent Sample.st_clash)
                 (others Sample.st_clash) <> [])
    by (vm_compute; discriminate).
  destruct (@handleAdd_atomic Sample.utc Sample.clock Sample.st_untitled)
    as (W1 & _).
  destruct (@handleAdd_atomic Sample.utc Sample.clock Sample.st_clash)
    as (_ & W2 & _).
  destruct (W2 H2 H3) as [W2a W2b].
  split; [exact H1|]. split; [exact (W1 H1)|]. split; [exact H2|].
  split; [exact H3|]. split; [exact W2b|].
  intros n. rewrite W2a. discriminate.
Defined.

Lemma edit_replaces_in_place_witness :
  editEventId Sample.st_edit = Editing (Some 2)
  /\ 2 <> 0
  /\ snd (@handleAdd Sample.utc Sample.clock Sample.st_edit) = Completed None
  /\ Event.repeat (newEvent Sample.st_edit) = "weekly"%string
  /\ List.length (events (fst (@handleAdd Sample.utc Sample.clock Sample.st_edit)))
     = List.length (events Sample.st_edit)
  /\ map Event.id (events (fst (@handleAdd Sample.utc Sample.clock Sample.st_edit)))
     = map Event.id (events Sample.st_edit).
Proof.
  assert (H1 : editEventId Sample.st_edit = Editing (Some 2)) by reflexivity.
  assert (H2 : 2 <> 0) by discriminate.
  assert (H3 : snd (@handleAdd Sample.utc Sample.clock Sample.st_edit)
               = Completed None) by (vm_compute; reflexivity).
  pose proof (@edit_replaces_in_place Sample.utc Sample.clock Sample.st_edit 2
                None H1 H2 H3) as W.
  cbv zeta in W. destruct W as (_ & Wlen & Wids & _).
  split; [exact H1|]. split; [exact H2|]. split; [exact H3|].
  split; [reflexivity|]. split; [exact Wlen|exact Wids].
Defined.

(** C3 as stated fails: the form is under the id 99, which neither E1
    nor E2 has, and the draft passes both guards; [handleAdd] completes
    and the events are as before.  Deleting an event with the id 99
    completes too, with the events as before. *)
Lemma unknown_id_no_error :
  (forall e, In e (events Sample.st_edit_ghost) -> Event.id e <> Some 99)
  /\ editEventId Sample.st_edit_ghost = Editing (Some 99)
  /\ snd (@handleAdd Sample.utc Sample.clock Sample.st_edit_ghost)
     = Completed None
  /\ events (fst (@handleAdd Sample.utc Sample.clock Sample.st_edit_ghost))
     = events Sample.st_edit_ghost
  /\ Event.id Sample.Eghost = Some 99
  /\ option_map events
       (confirmDelete (handleDelete Sample.Eghost Sample.st_edit_ghost))
     = Some (events Sample.st_edit_ghost).
Proof.
  split.
  { intros e [E|[E|[]]]; subst e; discriminate. }
  split; [reflexivity|].
  split; [vm_compute; reflexivity|].
  split; [vm_compute; reflexivity|].
  split; [reflexivity|].
  vm_compute; reflexivity.
Qed.

Lemma unknown_id_is_silent_witness :
  (forall e, In e (events Sample.st_edit_ghost) -> Event.id e <> Some 99)
  /\ 99 <> 0
  /\ editEventId Sample.st_edit_ghost = Editing (Some 99)
  /\ Event.id Sample.Eghost = Some 99
  /\ events (fst (@handleAdd Sample.utc Sample.clock Sample.st_edit_ghost))
     = events Sample.st_edit_ghost
  /\ (exists st',
         confirmDelete (handleDelete Sample.Eghost Sample.st_edit_ghost)
         = Some st'
         /\ events st' = events Sample.st_edit_ghost).
Proof.
  assert (H1 : forall e, In e (events Sample.st_edit_ghost) ->
                         Event.id e <> Some 99).
  { intros e [E|[E|[]]]; subst e; discriminate. }
  assert (H2 : 99 <> 0) by discriminate.
  destruct (@unknown_id_is_silent Sample.utc Sample.clock Sample.st_edit_ghost
              99 Sample.Eghost H1 H2) as [Wedit Wdel].
  split; [exact H1|]. split; [exact H2|]. split; [reflexivity|].
  split; [reflexivity|].
  split; [exact (proj1 (Wedit eq_refl))|exact (Wdel eq_refl)].
Defined.

(** ** Recurrence expansion *)

Lemma sample_clock_monotone :
  forall j k : nat, (j <= k)%nat -> Sample.clock j <= Sample.clock k.
Proof. intros j k Hjk. unfold Sample.clock. lia. Defined.

(** The weekly draft at 12:00 is free on 2024-01-01, so the series goes
    in, although its first occurrence, a week later, runs into the
    stored event of that day. *)
Lemma weekly_series_witness :
  Event.title (newEvent Sample.st_weekly) <> ""%string
  /\ Event.date (newEvent Sample.st_weekly) = Some Sample.jan1
  /\ Event.time (newEvent Sample.st_weekly) = Some 720
  /\ 0 <= 720 < 1440
  /\ Event.repeat (newEvent Sample.st_weekly) = "weekly"%string
  /\ edit_truthy (editEventId Sample.st_weekly) = false
  /\ @checkConflicts Sample.utc (newEvent Sample.st_weekly)
       (others Sample.st_weekly) = []
  /\ List.length
       (events (fst (@handleAdd Sample.utc Sample.clock Sample.st_weekly)))
     = 7%nat
  /\ NoDup (map Event.id
              (skipn 1 (events (fst (@handleAdd Sample.utc Sample.clock
                                       Sample.st_weekly)))))
  /\ @checkConflicts Sample.utc
       (nth 2 (events (fst (@handleAdd Sample.utc Sample.clock Sample.st_weekly)))
          Sample.Eghost)
       (events Sample.st_weekly)
     = [mkConflict "Enext"].
Proof.
  assert (H1 : Event.title (newEvent Sample.st_weekly) <> ""%string)
    by discriminate.
  assert (H2 : Event.date (newEvent Sample.st_weekly) = Some Sample.jan1)
    by reflexivity.
  assert (H3 : Event.time (newEvent Sample.st_weekly) = Some 720)
    by reflexivity.
  assert (H4 : 0 <= 720 < 1440) by lia.
  assert (H5 : Event.repeat (newEvent Sample.st_weekly) = "weekly"%string)
    by reflexivity.
  assert (H6 : edit_truthy (editEventId Sample.st_weekly) = false)
    by reflexivity.
  assert (H7 : @checkConflicts Sample.utc (newEvent Sample.st_weekly)
                 (others Sample.st_weekly) = [])
    by (vm_compute; reflexivity).
  pose proof (@weekly_series Sample.utc Sample.clock Sample.st_weekly
                Sample.jan1 720 H1 H2 H3 H4 H5 H6 H7 sample_clock_monotone)
    as W.
  cbv zeta in W. destruct W as (Wev & _ & Wids & _).
  split; [exact H1|]. split; [exact H2|]. split; [exact H3|].
  split; [exact H4|]. split; [exact H5|]. split; [exact H6|].
  split; [exact H7|].
  rewrite Wev. split; [reflexivity|]. split; [exact Wids|].
  vm_compute. reflexivity.
Defined.

(** ** Scenarios for the further properties *)

(** A draft without a buffer, in the middle of E1: nothing is
    reported, and [handleAdd] puts it in the store. *)
Lemma checkConflicts_candidate_without_window_witness :
  Event.buffer MoreSample.nobuffer = None
  /\ @checkConflicts Sample.utc MoreSample.nobuffer [Sample.E1] = []
  /\ snd (@handleAdd Sample.utc Sample.clock
            (Sample.state [Sample.E1] MoreSample.nobuffer Null))
     = Completed (Some (toAdd_of Sample.clock MoreSample.nobuffer)).
Proof.
  split; [reflexivity|].
  split; [|vm_compute; reflexivity].
  apply (@checkConflicts_candidate_without_window Sample.utc
           MoreSample.nobuffer [Sample.E1]).
  reflexivity.
Defined.

(** E1 (10:00) and E2 (14:00), both with buffer 15. *)
Lemma checkConflicts_symmetric_witness :
  (@checkConflicts Sample.utc Sample.E1 [Sample.E2] = []
   <-> @checkConflicts Sample.utc Sample.E2 [Sample.E1] = [])
  /\ (@checkConflicts Sample.utc Sample.E1 [Sample.E2]
      = [mkConflict (Event.title Sample.E2)]
      <-> @checkConflicts Sample.utc Sample.E2 [Sample.E1]
          = [mkConflict (Event.title Sample.E1)]).
Proof.
  apply (@checkConflicts_symmetric Sample.utc Sample.E1 Sample.E2 15 15).
  - discriminate.
  - reflexivity.
  - discriminate.
  - reflexivity.
  - discriminate.
Defined.

(** With E1 from 10:00 to 11:00 in the store, a one-hour draft with
    buffer 15 is offered 11:30 first. *)
Lemma generateAvailabilities_greedy_witness :
  @generateAvailabilities Sample.utc Sample.st_clash Sample.jan1
  = firstn 6 (filter (@slot_free Sample.utc Sample.st_clash Sample.jan1)
                (grid 60))
  /\ firstn 6 (filter (@slot_free Sample.utc Sample.st_clash Sample.jan1)
                 (grid 60))
     = [690; 720; 750; 780; 810; 840].
Proof.
  split.
  - apply (@generateAvailabilities_greedy Sample.utc Sample.st_clash Sample.jan1).
    cbn. lia.
  - vm_compute. reflexivity.
Defined.

(** An empty store. *)
Lemma generateAvailabilities_ends_witness :
  @generateAvailabilities Sample.utc MoreSample.st_empty Sample.jan1
  = [540; 570; 600; 630; 660; 690].
Proof.
  assert (Hd : 0 <= Event.duration (newEvent MoreSample.st_empty)) by (cbn; lia).
  assert (Hs : Event.duration (newEvent MoreSample.st_empty) <= 330) by (cbn; lia).
  destruct (proj2 (@generateAvailabilities_ends Sample.utc MoreSample.st_empty
                     Sample.jan1) Hd (or_introl eq_refl)) as [_ W].
  exact (W Hs).
Defined.

(** The draft of [st_clash], moved to the offered 11:30, goes in. *)
Lemma offered_slot_is_accepted_witness :
  In 690 (@generateAvailabilities Sample.utc Sample.st_clash Sample.jan1)
  /\ exists n,
       snd (@handleAdd Sample.utc Sample.clock (pickTime 690 Sample.st_clash))
       = Completed n.
Proof.
  assert (Hl : @generateAvailabilities Sample.utc Sample.st_clash Sample.jan1
               = [690; 720; 750; 780; 810; 840])
    by (vm_compute; reflexivity).
  assert (Hin : In 690 (@generateAvailabilities Sample.utc Sample.st_clash
                          Sample.jan1)).
  { rewrite Hl. left. reflexivity. }
  split; [exact Hin|].
  apply (@offered_slot_is_accepted Sample.utc Sample.clock Sample.st_clash
           Sample.jan1 690).
  - intros evt [E|[]]. rewrite <- E. discriminate.
  - discriminate.
  - reflexivity.
  - exact Hin.
Defined.

(** The weekly draft of [st_weekly] goes in; a second run stops at the
    title. *)
Lemma handleAdd_completed_form_witness :
  snd (@handleAdd Sample.utc Sample.clock Sample.st_weekly)
  = Completed (Some (toAdd_of Sample.clock (newEvent Sample.st_weekly)))
  /\ @handleAdd Sample.utc Sample.clock
       (fst (@handleAdd Sample.utc Sample.clock Sample.st_weekly))
     = (fst (@handleAdd Sample.utc Sample.clock Sample.st_weekly),
        ReturnedMissingField).
Proof.
  assert (Hdone : snd (@handleAdd Sample.utc Sample.clock Sample.st_weekly)
                  = Completed (Some (toAdd_of Sample.clock
                                       (newEvent Sample.st_weekly))))
    by (vm_compute; reflexivity).
  split; [exact Hdone|].
  pose proof (@handleAdd_completed_form Sample.utc Sample.clock Sample.clock
                Sample.st_weekly _ Hdone) as W.
  cbv zeta in W. apply W.
Defined.

(** A daily draft on 2024-01-01: the last occurrence is on 2024-01-06. *)
Lemma daily_series_witness :
  map Event.date (@newEvents_of Sample.utc Sample.clock MoreSample.daily)
  = map (fun d => Some (Calendar.mkDate 2024 1 d)) [1; 2; 3; 4; 5; 6].
Proof.
  assert (Ht : 0 <= 720 < 1440) by lia.
  destruct (@daily_series Sample.utc Sample.clock MoreSample.daily Sample.jan1 720
              eq_refl eq_refl Ht eq_refl) as [W _].
  rewrite W. vm_compute. reflexivity.
Defined.

(** A monthly draft on 2024-01-31: February gives the 29th, April and
    June the 30th, March and May the 31st again. *)
Lemma monthly_series_witness :
  CivilValid.valid_date MoreSample.jan31
  /\ map Event.date (@newEvents_of Sample.utc Sample.clock MoreSample.monthly)
     = [Some (Calendar.mkDate 2024 1 31); Some (Calendar.mkDate 2024 2 29);
        Some (Calendar.mkDate 2024 3 31); Some (Calendar.mkDate 2024 4 30);
        Some (Calendar.mkDate 2024 5 31); Some (Calendar.mkDate 2024 6 30)].
Proof.
  assert (Hv : CivilValid.valid_date MoreSample.jan31).
  { unfold CivilValid.valid_date. cbn. lia. }
  assert (Ht : 0 <= 720 < 1440) by lia.
  split; [exact Hv|].
  destruct (@monthly_series Sample.utc Sample.clock MoreSample.monthly MoreSample.jan31 720
              eq_refl Hv eq_refl Ht eq_refl) as [W _].
  rewrite W. vm_compute. reflexivity.
Defined.

(** The weekly add into a store that holds the id 4. *)
Lemma store_ids_stay_distinct_witness :
  NoDup (map Event.id (events Sample.st_weekly))
  /\ NoDup (map Event.id
              (events (fst (@handleAdd Sample.utc Sample.clock Sample.st_weekly)))).
Proof.
  assert (Hnd : NoDup (map Event.id (events Sample.st_weekly))).
  { cbn. constructor; [intros []|constructor]. }
  split; [exact Hnd|].
  destruct (@store_ids_stay_distinct Sample.utc Sample.clock Sample.st_weekly Hnd)
    as (_ & Wadd & _).
  apply Wadd.
  - reflexivity.
  - intros e j [E|[]] Hj. rewrite <- E in Hj. cbn in Hj.
    inversion Hj. unfold Sample.clock. lia.
  - intros j k Hjk. unfold Sample.clock. lia.
Defined.

(** E2 opened and saved as it is. *)
Lemma edit_unchanged_is_identity_witness :
  events (fst (@handleAdd Sample.utc Sample.clock
                 (@handleEdit Sample.utc Sample.E2 Sample.st_edit)))
  = [Sample.E1; Sample.E2].
Proof.
  assert (Hnd : NoDup (map Event.id (events Sample.st_edit))).
  { cbn. constructor.
    - intros [E|[]]. discriminate.
    - constructor; [intros []|constructor]. }
  assert (Hin : In Sample.E2 (events Sample.st_edit))
    by (right; left; reflexivity).
  assert (Hz : 2 <> 0) by lia.
  assert (Hfree : @checkConflicts Sample.utc Sample.E2
                    (filter (fun x => negb (id_eqb (Event.id x) (Some 2)))
                       (events Sample.st_edit)) = [])
    by (vm_compute; reflexivity).
  destruct (@edit_unchanged_is_identity Sample.utc Sample.clock Sample.st_edit
              Sample.E2 2 Hnd Hin eq_refl Hz eq_refl Hfree) as (_ & W & _).
  exact W.
Defined.

(** E1 opened, the form closed with its X, opened again and sent: E1 is
    in the store twice, under two ids. *)
Lemma abandoned_edit_adds_copy_witness :
  map Event.title
    (events (fst (@handleAdd Sample.utc Sample.clock
                    (openForm (closeForm
                       (@handleEdit Sample.utc Sample.E1 Sample.st_reminder))))))
  = ["E1"; "E1"]%string
  /\ map Event.time
       (events (fst (@handleAdd Sample.utc Sample.clock
                       (openForm (closeForm
                          (@handleEdit Sample.utc Sample.E1 Sample.st_reminder))))))
     = [Some 600; Some 600].
Proof.
  assert (Hin : In Sample.E1 (events Sample.st_reminder))
    by (left; reflexivity).
  assert (Hothers : forall x, In x (events Sample.st_reminder) ->
                      Event.id x <> Event.id Sample.E1 ->
                      @checkConflicts Sample.utc Sample.E1 [x] = []).
  { intros x [E|[]] Hne. exfalso. apply Hne. rewrite <- E. reflexivity. }
  pose proof (@abandoned_edit_adds_copy Sample.utc Sample.clock
                Sample.st_reminder Sample.E1 Hin eq_refl Hothers) as W.
  cbv zeta in W. destruct W as (_ & _ & Wev & _).
  rewrite Wev. split; vm_compute; reflexivity.
Defined.

(** A delete of E1 asked for and cancelled. *)
Lemma cancelDelete_restores_witness :
  cancelDelete (handleDelete Sample.E1 Sample.st_reminder) = Sample.st_reminder.
Proof.
  apply (cancelDelete_restores Sample.st_reminder Sample.E1); reflexivity.
Defined.

(** Five minutes before E1 its notification is shown; it is dismissed,
    and the next tick shows it again. *)
Lemma dismissed_reminder_returns_witness :
  In (@notification Sample.utc Sample.E1) (reminders MoreSample.st_notified)
  /\ In (@notification Sample.utc Sample.E1)
       (reminders
          (@tick Sample.utc Sample.now_due
             (dismissReminder (Event.id Sample.E1)
                (Dayjs.format (@remindAt_of Sample.utc Sample.E1))
                MoreSample.st_notified))).
Proof.
  split; [left; reflexivity|].
  assert (Hin : In Sample.E1 (events MoreSample.st_notified))
    by (left; reflexivity).
  assert (Hrem : Event.reminder Sample.E1 <> 0) by discriminate.
  assert (Hs : @start_instant Sample.utc Sample.E1 = Some Sample.E1_start)
    by (vm_compute; reflexivity).
  assert (Hwin : Sample.E1_start - Event.reminder Sample.E1 * 60000
                 < Sample.now_due < Sample.E1_start).
  { unfold Sample.now_due. cbn [Event.reminder Sample.E1 Sample.stored]. lia. }
  pose proof (@dismissed_reminder_returns Sample.utc Sample.now_due
                MoreSample.st_notified Sample.E1 Sample.E1_start
                Hin Hrem Hs Hwin) as W.
  cbv zeta in W. apply W.
Defined.

(** At midnight, ten hours before E1, the tick does nothing. *)
Lemma tick_silent_witness :
  @tick Sample.utc Sample.midnight Sample.st_reminder = Sample.st_reminder.
Proof.
  apply (@tick_silent Sample.utc Sample.midnight Sample.st_reminder).
  intros e [E|[]]. rewrite <- E. right.
  exists Sample.E1_start. split; [vm_compute; reflexivity|].
  right. left. unfold Sample.E1_start.
  cbn [Event.reminder Sample.E1 Sample.stored]. lia.
Defined.

(** The weekly add: six more confirmed events. *)
Lemma counters_after_add_witness :
  confirmedCount (events Sample.st_weekly) = 1%nat
  /\ confirmedCount
       (events (fst (@handleAdd Sample.utc Sample.clock Sample.st_weekly)))
     = 7%nat
  /\ pendingCount
       (events (fst (@handleAdd Sample.utc Sample.clock Sample.st_weekly)))
     = 0%nat.
Proof.
  assert (Hdone : snd (@handleAdd Sample.utc Sample.clock Sample.st_weekly)
                  = Completed (Some (toAdd_of Sample.clock
                                       (newEvent Sample.st_weekly))))
    by (vm_compute; reflexivity).
  pose proof (@counters_after_add Sample.utc Sample.clock Sample.st_weekly _
                eq_refl Hdone) as W.
  cbv zeta in W. destruct W as (Wc & Wp & _).
  split; [reflexivity|]. split.
  - rewrite Wc. reflexivity.
  - rewrite Wp. reflexivity.
Defined.

(** ** Scenarios where the code leaves the specification *)

(** Ezero is stored with buffer 0, from 10:00 to 11:00.  A draft at
    11:00 touches its window and is reported. *)
Lemma zero_buffer_touching_reported_witness :
  Event.buffer Sample.Ezero = Some 0
  /\ @start_instant Sample.utc Sample.Ezero
     = Some (Sample.midnight + 600 * 60000)
  /\ @start_instant Sample.utc (Sample.draft "New" 660 60 "none")
     = Some (Sample.midnight + 600 * 60000 + (60 + 0) * 60000)
  /\ @checkConflicts Sample.utc (Sample.draft "New" 660 60 "none")
       [Sample.Ezero]
     = [mkConflict "Ezero"].
Proof.
  assert (H1 : Event.id Sample.Ezero
               <> Event.id (Sample.draft "New" 660 60 "none")) by discriminate.
  assert (H2 : @start_instant Sample.utc (Sample.draft "New" 660 60 "none")
               = Some (Sample.midnight + 600 * 60000 + (60 + 0) * 60000))
    by reflexivity.
  assert (H3 : @start_instant Sample.utc Sample.Ezero
               = Some (Sample.midnight + 600 * 60000)) by reflexivity.
  assert (H4 : 0 <= Event.duration Sample.Ezero) by (cbn; lia).
  assert (H5 : 0 < Event.duration (Sample.draft "New" 660 60 "none") + 15)
    by (cbn; lia).
  pose proof (@zero_buffer_touching_reported Sample.utc
                (Sample.draft "New" 660 60 "none") Sample.Ezero
                _ _ 15 H1 H2 eq_refl H3 eq_refl H4 H5) as W.
  cbv zeta in W.
  split; [reflexivity|]. split; [exact H3|]. split; [exact H2|].
  apply W. cbn [Event.duration Sample.Ezero Sample.stored]. lia.
Defined.

(** The weekly event stored under the id 0 is opened and saved as it
    is: the store goes from one event to seven. *)
Lemma edit_of_id_zero_appends_series_witness :
  List.length (events Sample.st_weekly0) = 1%nat
  /\ List.length
       (events (fst (@handleAdd Sample.utc Sample.clock
                       (@handleEdit Sample.utc Sample.Eweekly0
                          Sample.st_weekly0))))
     = 7%nat
  /\ map Event.date
       (events (fst (@handleAdd Sample.utc Sample.clock
                       (@handleEdit Sample.utc Sample.Eweekly0
                          Sample.st_weekly0))))
     = map (fun day => Some (Calendar.mkDate 2024 1 day))
         [1; 1; 8; 15; 22; 29]
       ++ [Some (Calendar.mkDate 2024 2 5)].
Proof.
  assert (Hin : In Sample.Eweekly0 (events Sample.st_weekly0))
    by (left; reflexivity).
  assert (Hfree : @checkConflicts Sample.utc Sample.Eweekly0
                    (filter (fun x => negb (id_eqb (Event.id x) (Some 0)))
                       (events Sample.st_weekly0)) = [])
    by reflexivity.
  pose proof (@edit_of_id_zero_appends_series Sample.utc Sample.clock
                Sample.st_weekly0 Sample.Eweekly0 Hin eq_refl eq_refl Hfree)
    as W.
  cbv zeta in W. destruct W as (_ & _ & Wev & Wlen & _).
  split; [reflexivity|]. split; [exact Wlen|].
  rewrite Wev. vm_compute. reflexivity.
Defined.

(** Eopen is stored without a buffer, from 10:00 to 11:00.  Opened in
    the form, it is offered 10:00 itself. *)
Lemma bufferless_edit_offers_own_start_witness :
  Event.buffer Sample.Eopen = None
  /\ Event.time Sample.Eopen = Some 600
  /\ availabilities
       (@refreshAvailabilities Sample.utc
          (@handleEdit Sample.utc Sample.Eopen Sample.st_open))
     = [540; 570; 600; 630; 660; 690].
Proof.
  assert (Hin : In Sample.Eopen (events Sample.st_open)) by (left; reflexivity).
  assert (Hid : Event.id Sample.Eopen <> None) by discriminate.
  assert (Hdur : 0 <= Event.duration Sample.Eopen <= 330) by (cbn; lia).
  assert (Ht : In 600 [540; 570; 600; 630; 660; 690])
    by (right; right; left; reflexivity).
  pose proof (@bufferless_edit_offers_own_start Sample.utc Sample.st_open
                Sample.Eopen Sample.jan1 600 Hin Hid eq_refl eq_refl eq_refl
                Hdur Ht) as W.
  cbv zeta in W.
  split; [reflexivity|]. split; [reflexivity|]. exact (proj1 W).
Defined.

(** C8 as stated fails.  Five minutes before E1 (10:00 UTC, reminder 10
    minutes) a tick shows its notification.  E1 is opened in the form,
    its time and zone are changed to 11:00 in Lagos, the same instant,
    and it is saved: the store still holds one event, under the id 1.
    The next tick shows a second notification for the id 1 and the same
    remindAt instant, 09:50 UTC; the two differ only in how the instant
    is rendered, which is all the duplicate check compares. *)
Lemma same_instant_notified_twice :
  events Sample.st_moved = [Sample.E1_lagos]
  /\ reminders Sample.st_shown_again
     = [@notification Sample.lagos Sample.E1;
        @notification Sample.lagos Sample.E1_lagos]
  /\ Reminder.id (@notification Sample.lagos Sample.E1) = Some 1
  /\ Reminder.id (@notification Sample.lagos Sample.E1_lagos) = Some 1
  /\ message_instant (Reminder.message (@notification Sample.lagos Sample.E1))
     = Some Sample.E1_remindAt
  /\ message_instant
       (Reminder.message (@notification Sample.lagos Sample.E1_lagos))
     = Some Sample.E1_remindAt
  /\ @notification Sample.lagos Sample.E1
     <> @notification Sample.lagos Sample.E1_lagos
  /\ ~ NoDup (map (fun r => (Reminder.id r,
                             message_instant (Reminder.message r)))
                (reminders Sample.st_shown_again)).
Proof.
  split; [vm_compute; reflexivity|].
  split; [vm_compute; reflexivity|].
  split; [reflexivity|]. split; [reflexivity|].
  split; [vm_compute; reflexivity|].
  split; [vm_compute; reflexivity|].
  split; [vm_compute; discriminate|].
  vm_compute. intros Hnd. inversion Hnd as [|x l Hnotin _].
  apply Hnotin. left. reflexivity.
Qed.
